(** * videoSDK.ino: sampling and trigger pipeline of the ESP32 sound detector

    A shallow embedding of the sketch's core (calibrateDCOffset, the pass
    of loop from its conversion on, recordAndAlert, publishMqttAlert) as a
    state-and-trace monad over an explicit environment of hardware
    oracles, and of the boot phase and the upkeep of the broker link
    (setup, connectWiFi, initTime, connectMQTT, clearOldRecordings, the
    whole of loop) over the answers of the board, followed by the
    properties of the calibration, the trigger test, the paced capture
    loop, the lock / cooldown discipline of the main loop, and the boot. *)

From Stdlib Require Import ZArith Lia List String Ascii Bool.
From stdpp Require Import base list.
Import ListNotations.

Local Open Scope Z_scope.

(* ------------------------------------------------------------------ *)
(** ** Machine integers of the target (ESP32, ILP32)                   *)
(* ------------------------------------------------------------------ *)

Module CInt.

(** Reduction of a mathematical integer to an unsigned [bits]-bit value. *)
Definition wrap_unsigned (bits z : Z) : Z := z mod 2 ^ bits.

(** Reduction to a two's complement [bits]-bit value. *)
Definition wrap_signed (bits z : Z) : Z :=
  (z + 2 ^ (bits - 1)) mod 2 ^ bits - 2 ^ (bits - 1).

(** [int] and [long] are both 32 bits wide on the ESP32. *)
Definition to_int (z : Z) : Z := wrap_signed 32 z.
Definition to_long (z : Z) : Z := wrap_signed 32 z.
(** [unsigned long], the type of [micros()] and of [nextSampleTime]. *)
Definition to_ulong (z : Z) : Z := wrap_unsigned 32 z.
(** [int16_t], the element type of the capture buffer. *)
Definition to_int16 (z : Z) : Z := wrap_signed 16 z.

Definition int_sub (a b : Z) : Z := to_int (a - b).
Definition int_mul (a b : Z) : Z := to_int (a * b).
Definition long_add (a b : Z) : Z := to_long (a + b).
Definition ulong_add (a b : Z) : Z := to_ulong (a + b).
(** C's [/] truncates toward zero. *)
Definition long_div (a b : Z) : Z := to_long (Z.quot a b).
(** [abs] from <stdlib.h>, on [int]. *)
Definition c_abs (a : Z) : Z := to_int (Z.abs a).
(** [round(p / q)] for a positive quotient: nearest integer, halves up. *)
Definition c_round (p q : Z) : Z := (2 * p + q) / (2 * q).

Definition ULONG_MAX : Z := 2 ^ 32 - 1.

(** [(float)n] of an [int] [n], as the number it denotes: the nearest value
    with a significand of 24 bits, halves to the even significand. *)
Definition to_float (n : Z) : Z :=
  let m := Z.abs n in
  if m <? 2 ^ 24 then n
  else
    let e := Z.log2 m - 23 in
    let q := Z.shiftr m e in
    let r := Z.land m (Z.ones e) in
    let half := 2 ^ (e - 1) in
    let up := if (half <? r) || ((r =? half) && Z.odd q) then 1 else 0 in
    Z.sgn n * ((q + up) * 2 ^ e).

End CInt.
Import CInt.

(* ------------------------------------------------------------------ *)
(** ** Configuration                                                   *)
(* ------------------------------------------------------------------ *)

Definition SAMPLE_RATE : Z := 8000.
Definition RECORD_DURATION_SECONDS : Z := 3.
Definition AMPLITUDE_THRESHOLD : Z := 500.
Definition GAIN_FACTOR : Z := 8.

Definition TOTAL_SAMPLES : Z := to_int (SAMPLE_RATE * RECORD_DURATION_SECONDS).
Definition SAMPLING_PERIOD_US : Z := to_int (c_round 1000000 SAMPLE_RATE).

(** Number of conversions averaged by [calibrateDCOffset]. *)
Definition CALIBRATION_SAMPLES : nat := 1024.

(** Largest value of a 12-bit conversion ([ADC_WIDTH_BIT_12]). *)
Definition ADC_MAX : Z := 4095.

(* ------------------------------------------------------------------ *)
(** ** Environment, state and observable events                        *)
(* ------------------------------------------------------------------ *)

(** What the hardware and the collaborators answer, by call number. *)
Record Env : Type := {
  adc_src  : nat -> Z;     (* adc1_get_raw(ADC_CHANNEL)                *)
  clk_src  : nat -> Z;     (* micros(), before reduction to 32 bits    *)
  wall_src : nat -> Z;     (* time(nullptr)                            *)
  heap_ok  : nat -> bool;  (* does the n-th malloc succeed             *)
  heap_junk : nat -> Z;    (* contents of a fresh, uninitialised block *)
  open_ok  : nat -> bool;  (* does the n-th SPIFFS.open(.., "w") work  *)
  mqtt_ok  : nat -> bool   (* does the n-th mqttClient.publish work    *)
}.

(** The sketch's globals together with the read cursors of the oracles. *)
Record World : Type := {
  adc_dc_offset : Z;
  isRecording : bool;
  adc_n  : nat;
  clk_n  : nat;
  wall_n : nat;
  heap_n : nat;
  fs_n   : nat;
  mqtt_n : nat
}.

(** A recording is named after the wall-clock second it was triggered in
    ([strftime] of "/recording_%Y%m%d_%H%M%S.bin"); the name is kept as that
    time stamp. *)
Definition Filename : Type := Z.

Inductive Event : Type :=
| EvSerial (fmt : string) (args : list Z)   (* Serial.print / println / printf *)
| EvNet                                     (* MQTT keepalive and HTTP serving  *)
| EvAdc (v : Z)                             (* one conversion was taken         *)
| EvFlag (b : bool)                         (* isRecording = b                  *)
| EvDelay (ms : Z)                          (* delay(ms)                        *)
| EvMalloc (ok : bool)
| EvFree
| EvOpen (name : Filename) (ok : bool)
| EvWrite (name : Filename) (data : list Z) (nbytes : Z)
| EvClose (name : Filename)
| EvPublish (name : Filename) (stamp : Z) (amplitude : Z) (ok : bool).

(** A computation either returns, or is still busy-waiting when the fuel
    that bounds its polling ran out. *)
Inductive Outcome (A : Type) : Type :=
| Done (a : A) (w : World)
| OutOfFuel.
Arguments Done {A} a w.
Arguments OutOfFuel {A}.

(** State passing with a log of the events emitted so far. *)
Definition M (A : Type) : Type := World -> list Event * Outcome A.

Definition ret {A} (a : A) : M A := fun w => ([], Done a w).

Definition bind {A B} (m : M A) (k : A -> M B) : M B :=
  fun w =>
    match m w with
    | (ev1, Done a w1) =>
        match k a w1 with
        | (ev2, o) => (ev1 ++ ev2, o)
        end
    | (ev1, OutOfFuel) => (ev1, OutOfFuel)
    end.

Definition out_of_fuel {A} : M A := fun _ => ([], OutOfFuel).

(** The events [evs] happened before the run [r]. *)
Definition prepend {A} (evs : list Event) (r : list Event * Outcome A)
  : list Event * Outcome A :=
  (evs ++ fst r, snd r).

Notation "x <- c1 ;; c2" := (bind c1 (fun x => c2))
  (at level 100, c1 at next level, right associativity).
Notation "c1 ;; c2" := (bind c1 (fun _ => c2))
  (at level 100, right associativity).

Definition events {A} (r : list Event * Outcome A) : list Event := fst r.
Definition outcome {A} (r : list Event * Outcome A) : Outcome A := snd r.

Definition emit (e : Event) : M unit := fun w => ([e], Done tt w).
Definition gets {A} (f : World -> A) : M A := fun w => ([], Done (f w) w).
Definition modify (f : World -> World) : M unit := fun w => ([], Done tt (f w)).

(** *** Field updates *)

Definition with_offset (v : Z) (w : World) : World :=
  {| adc_dc_offset := v; isRecording := isRecording w;
     adc_n := adc_n w; clk_n := clk_n w; wall_n := wall_n w;
     heap_n := heap_n w; fs_n := fs_n w; mqtt_n := mqtt_n w |}.

Definition with_flag (b : bool) (w : World) : World :=
  {| adc_dc_offset := adc_dc_offset w; isRecording := b;
     adc_n := adc_n w; clk_n := clk_n w; wall_n := wall_n w;
     heap_n := heap_n w; fs_n := fs_n w; mqtt_n := mqtt_n w |}.

Definition next_adc (w : World) : World :=
  {| adc_dc_offset := adc_dc_offset w; isRecording := isRecording w;
     adc_n := S (adc_n w); clk_n := clk_n w; wall_n := wall_n w;
     heap_n := heap_n w; fs_n := fs_n w; mqtt_n := mqtt_n w |}.

Definition next_clk (w : World) : World :=
  {| adc_dc_offset := adc_dc_offset w; isRecording := isRecording w;
     adc_n := adc_n w; clk_n := S (clk_n w); wall_n := wall_n w;
     heap_n := heap_n w; fs_n := fs_n w; mqtt_n := mqtt_n w |}.

Definition next_wall (w : World) : World :=
  {| adc_dc_offset := adc_dc_offset w; isRecording := isRecording w;
     adc_n := adc_n w; clk_n := clk_n w; wall_n := S (wall_n w);
     heap_n := heap_n w; fs_n := fs_n w; mqtt_n := mqtt_n w |}.

Definition next_heap (w : World) : World :=
  {| adc_dc_offset := adc_dc_offset w; isRecording := isRecording w;
     adc_n := adc_n w; clk_n := clk_n w; wall_n := wall_n w;
     heap_n := S (heap_n w); fs_n := fs_n w; mqtt_n := mqtt_n w |}.

Definition next_fs (w : World) : World :=
  {| adc_dc_offset := adc_dc_offset w; isRecording := isRecording w;
     adc_n := adc_n w; clk_n := clk_n w; wall_n := wall_n w;
     heap_n := heap_n w; fs_n := S (fs_n w); mqtt_n := mqtt_n w |}.

Definition next_mqtt (w : World) : World :=
  {| adc_dc_offset := adc_dc_offset w; isRecording := isRecording w;
     adc_n := adc_n w; clk_n := clk_n w; wall_n := wall_n w;
     heap_n := heap_n w; fs_n := fs_n w; mqtt_n := S (mqtt_n w) |}.

Definition with_adc (n : nat) (w : World) : World :=
  {| adc_dc_offset := adc_dc_offset w; isRecording := isRecording w;
     adc_n := n; clk_n := clk_n w; wall_n := wall_n w;
     heap_n := heap_n w; fs_n := fs_n w; mqtt_n := mqtt_n w |}.

Definition with_clk (n : nat) (w : World) : World :=
  {| adc_dc_offset := adc_dc_offset w; isRecording := isRecording w;
     adc_n := adc_n w; clk_n := n; wall_n := wall_n w;
     heap_n := heap_n w; fs_n := fs_n w; mqtt_n := mqtt_n w |}.

(** The state right after reset: the globals' initialisers. *)
Definition power_on : World :=
  {| adc_dc_offset := 0; isRecording := false;
     adc_n := 0; clk_n := 0; wall_n := 0; heap_n := 0; fs_n := 0; mqtt_n := 0 |}.

(* ------------------------------------------------------------------ *)
(** ** The sketch                                                      *)
(* ------------------------------------------------------------------ *)

Section Sketch.

Variable E : Env.

(** *** Hardware and collaborator calls *)

Definition serial (fmt : string) (args : list Z) : M unit :=
  emit (EvSerial fmt args).

Definition delay (ms : Z) : M unit := emit (EvDelay ms).

Definition adc1_get_raw : M Z :=
  fun w => let v := adc_src E (adc_n w) in ([EvAdc v], Done v (next_adc w)).

Definition micros : M Z :=
  fun w => ([], Done (to_ulong (clk_src E (clk_n w))) (next_clk w)).

Definition time_now : M Z :=
  fun w => ([], Done (wall_src E (wall_n w)) (next_wall w)).

(** [malloc(TOTAL_SAMPLES * sizeof(int16_t))]: a null pointer, or a block
    of [TOTAL_SAMPLES] cells holding whatever was there before. *)
Definition malloc_buffer : M (option (list Z)) :=
  fun w =>
    let ok := heap_ok E (heap_n w) in
    ([EvMalloc ok],
     Done (if ok
           then Some (map (heap_junk E) (seq 0 (Z.to_nat TOTAL_SAMPLES)))
           else None)
          (next_heap w)).

Definition free_buffer : M unit := emit EvFree.

Definition spiffs_open (name : Filename) : M bool :=
  fun w =>
    let ok := open_ok E (fs_n w) in
    ([EvOpen name ok], Done ok (next_fs w)).

Definition file_write (name : Filename) (data : list Z) (nbytes : Z) : M unit :=
  emit (EvWrite name data nbytes).

Definition file_close (name : Filename) : M unit := emit (EvClose name).

(** [mqttClient.publish] of the alert: [audio_filename], [timestamp] and
    [amplitude] of the payload, the amplitude in 2048ths. *)
Definition mqtt_publish (name : Filename) (stamp : Z) (amplitude : Z) : M bool :=
  fun w =>
    let ok := mqtt_ok E (mqtt_n w) in
    ([EvPublish name stamp amplitude ok], Done ok (next_mqtt w)).

(** [isRecording = b;] *)
Definition set_recording (b : bool) : M unit :=
  fun w => ([EvFlag b], Done tt (with_flag b w)).

(** Lines 85-86 of [loop]: [mqttClient.loop()] and [server.handleClient()],
    the MQTT keepalive and the HTTP server. They are collaborators of the
    core; they own none of its state and take no conversions. The check of
    the broker link before them, lines 82-84, is [reconnect] below. *)
Definition housekeeping : M unit := emit EvNet.

(** *** calibrateDCOffset *)

(** The [for] loop of lines 141-144, [todo] iterations still to run. *)
Fixpoint calibrate_loop (todo : nat) (sum : Z) : M Z :=
  match todo with
  | O => ret sum
  | S todo' =>
      v <- adc1_get_raw ;;
      delay 1 ;;
      calibrate_loop todo' (long_add sum v)
  end.

Definition calibrateDCOffset : M unit :=
  serial "Calibrating mic DC offset... " [] ;;
  sum <- calibrate_loop CALIBRATION_SAMPLES 0 ;;
  modify (with_offset (to_int (long_div sum 1024))) ;;
  offset <- gets adc_dc_offset ;;
  serial "Done. Offset = %d" [offset].

(** *** recordAndAlert *)

(** [while (micros() < nextSampleTime);] polled at most [fuel] times. *)
Fixpoint spin (fuel : nat) (nextSampleTime : Z) : M unit :=
  match fuel with
  | O => out_of_fuel
  | S fuel' =>
      t <- micros ;;
      if t <? nextSampleTime then spin fuel' nextSampleTime else ret tt
  end.

(** The value stored for one conversion, line 201. *)
Definition scaled (raw dc : Z) : Z :=
  to_int16 (int_mul (int_sub raw dc) GAIN_FACTOR).

(** The [for] loop of lines 197-202: [todo] iterations still to run,
    [i] the index of the next cell. *)
Fixpoint record_loop (fuel todo i : nat) (nextSampleTime : Z)
         (buffer : list Z) : M (Z * list Z) :=
  match todo with
  | O => ret (nextSampleTime, buffer)
  | S todo' =>
      spin fuel nextSampleTime ;;
      raw <- adc1_get_raw ;;
      dc <- gets adc_dc_offset ;;
      record_loop fuel todo' (S i)
        (ulong_add nextSampleTime SAMPLING_PERIOD_US)
        (<[i := scaled raw dc]> buffer)
  end.

(** [amplitude] is the [float] the caller passes, as a number of 2048ths.
    The payload carries the time read at line 230 as its [timestamp]. *)
Definition publishMqttAlert (name : Filename) (amplitude : Z) : M unit :=
  serial "Publishing MQTT alert... " [] ;;
  now <- time_now ;;
  ok <- mqtt_publish name now amplitude ;;
  if ok then serial "Success." [] else serial "Failed." [].

Definition recordAndAlert (fuel : nat) (triggerAmplitude : Z) : M unit :=
  serial "----------------------------------------" [] ;;
  serial "EVENT: Amplitude Triggered: %d" [triggerAmplitude] ;;
  filename <- time_now ;;
  buffer <- malloc_buffer ;;
  match buffer with
  | None => serial "ERROR: Not enough RAM for buffer!" []
  | Some block =>
      serial "Recording %d samples to buffer..." [TOTAL_SAMPLES] ;;
      nextSampleTime <- micros ;;
      filled <- record_loop fuel (Z.to_nat TOTAL_SAMPLES) 0 nextSampleTime block ;;
      file <- spiffs_open filename ;;
      if negb file then
        serial "ERROR: Could not open file for writing." [] ;;
        free_buffer
      else
        file_write filename (snd filled) (TOTAL_SAMPLES * 2) ;;
        file_close filename ;;
        free_buffer ;;
        serial "Recording saved to %s" [filename] ;;
        (* (float)triggerAmplitude / 2048.0: a division by a power of two,
           exact; the numerator is kept *)
        let normalizedAmplitude := to_float triggerAmplitude in
        publishMqttAlert filename normalizedAmplitude ;;
        serial "----------------------------------------" []
  end.

(** *** loop *)

(** The pass through [loop] from line 85 on, that is with the broker link
    up; the whole of [loop] is [full_loop] below. *)
Definition loop (fuel : nat) : M unit :=
  housekeeping ;;
  busy <- gets isRecording ;;
  (if negb busy then
     adc_value <- adc1_get_raw ;;
     dc <- gets adc_dc_offset ;;
     let amplitude := c_abs (int_sub adc_value dc) in
     if amplitude >? AMPLITUDE_THRESHOLD then
       set_recording true ;;
       recordAndAlert fuel amplitude ;;
       set_recording false ;;
       delay 2000
     else ret tt
   else ret tt) ;;
  delay 1.

(** [n] consecutive passes through [loop]. *)
Fixpoint run (fuel n : nat) : M unit :=
  match n with
  | O => ret tt
  | S n' => loop fuel ;; run fuel n'
  end.

End Sketch.

(* ------------------------------------------------------------------ *)
(** ** Vocabulary of the properties                                    *)
(* ------------------------------------------------------------------ *)

(** The [n] conversions the ADC delivers from call number [k] on. *)
Definition samples (E : Env) (k n : nat) : list Z :=
  map (fun j => adc_src E (k + j)%nat) (seq 0 n).

Definition sum_list (xs : list Z) : Z := fold_right Z.add 0 xs.

(** A conversion of the 12-bit ADC. *)
Definition adc_value_ok (v : Z) : Prop := 0 <= v <= ADC_MAX.

(** The microsecond counter gets past every 32-bit deadline again and
    again: whatever was read so far, a later reading is at least [d]. *)
Definition clock_live (E : Env) : Prop :=
  forall (k : nat) (d : Z), 0 <= d <= ULONG_MAX ->
    exists j : nat, d <= to_ulong (clk_src E (k + j)%nat).

(** What [recordAndAlert] reports and does, path by path. *)
Definition RULE : string := "----------------------------------------".

Definition no_memory_events (amp : Z) : list Event :=
  [EvSerial RULE []; EvSerial "EVENT: Amplitude Triggered: %d" [amp];
   EvMalloc false; EvSerial "ERROR: Not enough RAM for buffer!" []].

Definition capture_start_events (amp : Z) : list Event :=
  [EvSerial RULE []; EvSerial "EVENT: Amplitude Triggered: %d" [amp];
   EvMalloc true; EvSerial "Recording %d samples to buffer..." [TOTAL_SAMPLES]].

Definition open_failed_events (name : Filename) : list Event :=
  [EvOpen name false; EvSerial "ERROR: Could not open file for writing." [];
   EvFree].

Definition stored_events (name : Filename) (stamp : Z) (buf : list Z) (amp : Z)
           (sent : bool) : list Event :=
  [EvOpen name true; EvWrite name buf (TOTAL_SAMPLES * 2); EvClose name; EvFree;
   EvSerial "Recording saved to %s" [name];
   EvSerial "Publishing MQTT alert... " [];
   EvPublish name stamp (to_float amp) sent;
   EvSerial (if sent then "Success." else "Failed.") [];
   EvSerial RULE []].

Definition handoff_events (name : Filename) (stamp : Z) (buf : list Z) (amp : Z)
           (opened sent : bool) : list Event :=
  if opened then stored_events name stamp buf amp sent
  else open_failed_events name.

(** The buffer a capture started in state [w] ends up with. *)
Definition captured (E : Env) (w : World) : list Z :=
  map (fun raw => scaled raw (adc_dc_offset w))
      (samples E (adc_n w) (Z.to_nat TOTAL_SAMPLES)).

(** The state in which [recordAndAlert] starts its sampling loop. *)
Definition capture_entry (w : World) : World :=
  next_clk (next_heap (next_wall w)).

(** The pipeline takes the lock: the Armed -> Capturing transition. *)
Definition is_lock (e : Event) : bool :=
  match e with EvFlag true => true | _ => false end.

Definition capture_triggered (evs : list Event) : bool := existsb is_lock evs.

(** The mean of the samples rounded to the nearest integer, as the
    specification words the result of the calibration. *)
Definition spec_rounded_mean (xs : list Z) : Z :=
  c_round (sum_list xs) (Z.of_nat (length xs)).

(** What [calibrateDCOffset] prints and does around its conversions. *)
Definition calibration_events (xs : list Z) (offset : Z) : list Event :=
  EvSerial "Calibrating mic DC offset... " []
  :: flat_map (fun v => [EvAdc v; EvDelay 1]) xs
  ++ [EvSerial "Done. Offset = %d" [offset]].

(** The deadline the loop waits for before taking the sample of index [i]:
    the value of [nextSampleTime] once [i] iterations have run. *)
Definition deadline_of_sample (E : Env) (fuel i : nat) (start : Z)
           (block : list Z) (w : World) : option Z :=
  match record_loop E fuel i 0 start block w with
  | (_, Done (d, _) _) => Some d
  | (_, OutOfFuel) => None
  end.

(** The offset the calibration leaves in [adc_dc_offset]. *)
Definition calibrated_offset (E : Env) (w : World) : option Z :=
  match outcome (calibrateDCOffset E w) with
  | Done _ w' => Some (adc_dc_offset w')
  | OutOfFuel => None
  end.

(** *** Monitors over the event log *)

Fixpoint monitor {S : Type} (step : S -> Event -> option S) (s : S)
         (evs : list Event) : option S :=
  match evs with
  | [] => Some s
  | e :: rest =>
      match step s e with
      | Some s' => monitor step s' rest
      | None => None
      end
  end.

(** Single capture: the lock is taken only when free and released only when
    held with no buffer alive; a buffer is requested only under the lock and
    only when none is alive; conversions are taken either unlocked (the
    trigger test) or into the live buffer. *)
Inductive Phase : Type := Armed | Locked | Filling.

Definition guard_step (p : Phase) (e : Event) : option Phase :=
  match e, p with
  | EvFlag true, Armed => Some Locked
  | EvFlag true, _ => None
  | EvFlag false, Locked => Some Armed
  | EvFlag false, _ => None
  | EvMalloc true, Locked => Some Filling
  | EvMalloc false, Locked => Some Locked
  | EvMalloc _, _ => None
  | EvFree, Filling => Some Locked
  | EvFree, _ => None
  | EvAdc _, Locked => None
  | EvAdc _, _ => Some p
  | _, _ => Some p
  end.

(** Cooldown: once the lock is released the very next thing that happens
    is [delay(2000)]. *)
Inductive Pace : Type := Ready | Cooling.

Definition cooldown_step (p : Pace) (e : Event) : option Pace :=
  match p, e with
  | Cooling, EvDelay ms => if ms =? 2000 then Some Ready else None
  | Cooling, _ => None
  | Ready, EvFlag false => Some Cooling
  | Ready, _ => Some Ready
  end.

(** Handoff: an alert is published only for a recording that was written
    and closed. *)
Inductive Stage : Type := Unsaved | Written | Closed.

Definition handoff_step (s : Stage) (e : Event) : option Stage :=
  match e, s with
  | EvWrite _ _ _, _ => Some Written
  | EvClose _, Written => Some Closed
  | EvPublish _ _ _ _, Closed => Some Closed
  | EvPublish _ _ _ _, _ => None
  | _, _ => Some s
  end.

(** *** Environments used to exercise the statements *)

(** A microphone idling around mid-scale, a microsecond counter that has
    advanced by one at every poll since boot, and collaborators that work. *)
Definition bench : Env :=
  {| adc_src := fun k => 2048 + Z.of_nat (k mod 4);
     clk_src := fun k => Z.of_nat k;
     wall_src := fun _ => 1751456133;
     heap_ok := fun _ => true;
     heap_junk := fun _ => 0;
     open_ok := fun _ => true;
     mqtt_ok := fun _ => true |}.

(** The bench with the microphone held at one reading. *)
Definition bench_reading (v : Z) : Env :=
  {| adc_src := fun _ => v;
     clk_src := clk_src bench; wall_src := wall_src bench;
     heap_ok := heap_ok bench; heap_junk := heap_junk bench;
     open_ok := open_ok bench; mqtt_ok := mqtt_ok bench |}.

(** The same bench with a clap on the microphone. *)
Definition bench_loud : Env :=
  {| adc_src := fun k => 2600;
     clk_src := clk_src bench; wall_src := wall_src bench;
     heap_ok := heap_ok bench; heap_junk := heap_junk bench;
     open_ok := open_ok bench; mqtt_ok := mqtt_ok bench |}.

(** A clap when the heap is exhausted. *)
Definition bench_no_memory : Env :=
  {| adc_src := adc_src bench_loud;
     clk_src := clk_src bench; wall_src := wall_src bench;
     heap_ok := fun _ => false; heap_junk := heap_junk bench;
     open_ok := open_ok bench; mqtt_ok := mqtt_ok bench |}.

(** A clap when the file system refuses new files. *)
Definition bench_no_file : Env :=
  {| adc_src := adc_src bench_loud;
     clk_src := clk_src bench; wall_src := wall_src bench;
     heap_ok := heap_ok bench; heap_junk := heap_junk bench;
     open_ok := fun _ => false; mqtt_ok := mqtt_ok bench |}.

(** A microphone whose idle level sits three quarters of a step above 2048:
    three conversions in four read 2049. *)
Definition bench_bias : Env :=
  {| adc_src := fun k => if (k mod 4 =? 0)%nat then 2048 else 2049;
     clk_src := clk_src bench; wall_src := wall_src bench;
     heap_ok := heap_ok bench; heap_junk := heap_junk bench;
     open_ok := open_ok bench; mqtt_ok := mqtt_ok bench |}.

(** The bench about 71 minutes after boot, 96 microseconds before the
    32-bit counter of [micros()] starts over. *)
Definition bench_late : Env :=
  {| adc_src := adc_src bench;
     clk_src := fun k => 4294967200 + Z.of_nat k;
     wall_src := wall_src bench;
     heap_ok := heap_ok bench; heap_junk := heap_junk bench;
     open_ok := open_ok bench; mqtt_ok := mqtt_ok bench |}.

(** The pipeline armed after a calibration at mid-scale. *)
Definition armed_2048 : World := with_offset 2048 power_on.

(** *** Further vocabulary: alerts, the heap block, pacing *)

(** The environment [E] with another answer of the broker to each publish. *)
Definition with_mqtt (answers : nat -> bool) (E : Env) : Env :=
  {| adc_src := adc_src E; clk_src := clk_src E; wall_src := wall_src E;
     heap_ok := heap_ok E; heap_junk := heap_junk E;
     open_ok := open_ok E; mqtt_ok := answers |}.

(** An event with the broker's answer, and the line that reports it, blanked
    out. *)
Definition blank_alert_result (e : Event) : Event :=
  match e with
  | EvPublish name stamp amp _ => EvPublish name stamp amp true
  | EvSerial fmt [] =>
      if String.eqb fmt "Failed." then EvSerial "Success." [] else e
  | _ => e
  end.

(** Use of the capture buffer: stores (one per conversion of the capture)
    and the file write need the block alive, a block is requested only when
    none is alive, and only a live block is freed. *)
Inductive Block : Type := NoBlock | Live.

Definition heap_step (b : Block) (e : Event) : option Block :=
  match e, b with
  | EvMalloc true, NoBlock => Some Live
  | EvMalloc false, NoBlock => Some NoBlock
  | EvMalloc _, Live => None
  | EvFree, Live => Some NoBlock
  | EvFree, NoBlock => None
  | EvAdc _, Live => Some Live
  | EvAdc _, NoBlock => None
  | EvWrite _ _ _, Live => Some Live
  | EvWrite _ _ _, NoBlock => None
  | _, _ => Some b
  end.

(** The bench with a sampling loop that starts four seconds behind its
    schedule: the counter reads four million and more. *)
Definition bench_behind : Env :=
  {| adc_src := adc_src bench;
     clk_src := fun k => 4000000 + Z.of_nat k;
     wall_src := wall_src bench;
     heap_ok := heap_ok bench; heap_junk := heap_junk bench;
     open_ok := open_ok bench; mqtt_ok := mqtt_ok bench |}.

(* ------------------------------------------------------------------ *)
(** ** The boot phase: text, identifiers, network and storage          *)
(* ------------------------------------------------------------------ *)

(** *** Formatting and the [String] tests of the Arduino core *)

(** The character of a digit below 16: '0'..'9', 'A'..'F'. *)
Definition digit_char (d : Z) : ascii :=
  ascii_of_nat (Z.to_nat (if d <? 10 then 48 + d else 55 + d)).

(** A non-negative number in the given base, most significant digit first,
    as [printf] writes it without padding; [fuel] bounds the digits. *)
Fixpoint digits (base : Z) (fuel : nat) (n : Z) : string :=
  match fuel with
  | O => EmptyString
  | S fuel' =>
      if n <? base then String (digit_char n) EmptyString
      else (digits base fuel' (n / base)
              ++ String (digit_char (n mod base)) EmptyString)%string
  end.

Fixpoint zeros (n : nat) : string :=
  match n with
  | O => EmptyString
  | S n' => String "0" (zeros n')
  end.

(** The zero flag of [printf] with a minimum field width. *)
Definition pad_zero (width : nat) (s : string) : string :=
  (zeros (width - String.length s) ++ s)%string.

(** "%04X" on an [unsigned int], "%02d" and "%d" on a non-negative [int]. *)
Definition fmt_04X (n : Z) : string := pad_zero 4 (digits 16 8 n).
Definition fmt_02d (n : Z) : string := pad_zero 2 (digits 10 10 n).
Definition fmt_d (n : Z) : string := digits 10 10 n.

(** What [snprintf(buf, size, ...)] leaves in [buf]: at most [size - 1]
    characters of the formatted text. *)
Definition snprintf (size : nat) (text : string) : string :=
  substring 0 (size - 1) text.

(** What [strftime(buf, size, ...)] leaves in [buf]: the text if it fits
    with its terminator, nothing usable otherwise. *)
Definition strftime (size : nat) (text : string) : option string :=
  if (String.length text <? size)%nat then Some text else None.

(** [String::startsWith] and [String::endsWith]. *)
Definition startsWith (s p : string) : bool := String.prefix p s.

Definition endsWith (s p : string) : bool :=
  if (String.length s <? String.length p)%nat then false
  else String.eqb
         (substring (String.length s - String.length p) (String.length p) s) p.

(** The digit a character stands for, and the number a run of digits
    stands for. *)
Definition digit_value (c : ascii) : Z :=
  let n := Z.of_nat (nat_of_ascii c) in
  if n <? 58 then n - 48 else n - 55.

Fixpoint parse (base : Z) (acc : Z) (s : string) : Z :=
  match s with
  | EmptyString => acc
  | String c rest => parse base (acc * base + digit_value c) rest
  end.

(** A number in exactly [width] digits. *)
Fixpoint fixed (base : Z) (width : nat) (n : Z) : string :=
  match width with
  | O => EmptyString
  | S width' =>
      (fixed base width' (n / base)
         ++ String (digit_char (n mod base)) EmptyString)%string
  end.

(** *** Device identifier and topic, lines 56-58 of [setup] *)

Definition DEVICE_ID_PREFIX : string := "esp32-audio".

(** [(uint16_t)(chipid >> 32)] of a 64-bit [chipid]. *)
Definition chip_tag (chipid : Z) : Z :=
  wrap_unsigned 16 (Z.shiftr (wrap_unsigned 64 chipid) 32).

Definition device_id (chipid : Z) : string :=
  snprintf 25 (DEVICE_ID_PREFIX ++ "-" ++ fmt_04X (chip_tag chipid))%string.

Definition mqtt_topic (chipid : Z) : string :=
  snprintf 50 ("esp32/audio_alerts/" ++ device_id chipid)%string.

(** The tag read back from an identifier. *)
Definition tag_of_id (id : string) : Z := parse 16 0 (substring 12 4 id).

(** *** Name of a recording, lines 183-186 of [recordAndAlert] *)

(** The fields of [struct tm] the format uses. *)
Record Tm : Type := {
  tm_year : Z;   (* years since 1900 *)
  tm_mon  : Z;   (* 0..11 *)
  tm_mday : Z;   (* 1..31 *)
  tm_hour : Z;   (* 0..23 *)
  tm_min  : Z;   (* 0..59 *)
  tm_sec  : Z    (* 0..60 *)
}.

(** A broken-down time as [localtime] returns it, in a four-digit year. *)
Definition tm_ok (t : Tm) : Prop :=
  0 <= tm_year t <= 8099 /\ 0 <= tm_mon t <= 11 /\ 1 <= tm_mday t <= 31
  /\ 0 <= tm_hour t <= 23 /\ 0 <= tm_min t <= 59 /\ 0 <= tm_sec t <= 60.

(** "recording_%Y%m%d_%H%M%S.bin" *)
Definition recording_name (t : Tm) : string :=
  ("recording_" ++ fmt_d (1900 + tm_year t) ++ fmt_02d (tm_mon t + 1)
     ++ fmt_02d (tm_mday t) ++ "_" ++ fmt_02d (tm_hour t)
     ++ fmt_02d (tm_min t) ++ fmt_02d (tm_sec t) ++ ".bin")%string.

(** [strftime(filename, sizeof(filename), "/recording_...bin", timeinfo)]
    with [char filename[64]]. *)
Definition recording_path (t : Tm) : option string :=
  strftime 64 ("/" ++ recording_name t)%string.

(** The time read back from a path. *)
Definition tm_of_path (p : string) : Tm :=
  {| tm_year := parse 10 0 (substring 11 4 p) - 1900;
     tm_mon  := parse 10 0 (substring 15 2 p) - 1;
     tm_mday := parse 10 0 (substring 17 2 p);
     tm_hour := parse 10 0 (substring 20 2 p);
     tm_min  := parse 10 0 (substring 22 2 p);
     tm_sec  := parse 10 0 (substring 24 2 p) |}.

(** *** The board and the state of the whole sketch *)

(** What the board and the network answer during boot and upkeep, by call
    number where the sketch asks more than once. *)
Record Board : Type := {
  efuse_mac : Z;                 (* ESP.getEfuseMac()                      *)
  wifi_up : nat -> bool;         (* WiFi.status() == WL_CONNECTED          *)
  local_ip : string;             (* WiFi.localIP().toString()              *)
  spiffs_mount_ok : bool;        (* SPIFFS.begin(true)                     *)
  listing : list string;         (* file.name() of each root.openNextFile()*)
  remove_ok : nat -> bool;       (* SPIFFS.remove(path)                    *)
  link_up : nat -> bool;         (* mqttClient.connected()                 *)
  link_try : nat -> bool;        (* mqttClient.connect(deviceId)           *)
  link_state : nat -> Z          (* mqttClient.state() after that many tries *)
}.

Record Sys : Type := {
  core : World;
  deviceId : string;
  mqttTopic : string;
  wifi_n : nat;
  rm_n : nat;
  up_n : nat;
  try_n : nat
}.

(** What the boot phase does, besides the events of the core. Texts are
    given without their line breaks. *)
Inductive Trace : Type :=
| Core (e : Event)
| Say (text : string)               (* Serial.print / println of a text    *)
| SayInt (n : Z)                    (* Serial.println of a number          *)
| Call (what : string)              (* a collaborator call without result  *)
| FsClose (name : string)           (* file.close()                        *)
| FsRemove (path : string) (ok : bool).

Inductive Result (A : Type) : Type :=
| Returned (a : A) (s : Sys)
| Blocked.
Arguments Returned {A} a s.
Arguments Blocked {A}.

Definition MT (A : Type) : Type := Sys -> list Trace * Result A.

Definition sret {A} (a : A) : MT A := fun s => ([], Returned a s).

Definition sbind {A B} (m : MT A) (k : A -> MT B) : MT B :=
  fun s =>
    match m s with
    | (t1, Returned a s1) =>
        match k a s1 with
        | (t2, r) => (t1 ++ t2, r)
        end
    | (t1, Blocked) => (t1, Blocked)
    end.

Definition blocked {A} : MT A := fun _ => ([], Blocked).

Notation "x <~ c1 ;~ c2" := (sbind c1 (fun x => c2))
  (at level 100, c1 at next level, right associativity).
Notation "c1 ;~ c2" := (sbind c1 (fun _ => c2))
  (at level 100, right associativity).

(** The trace [t] happened before the run [r]. *)
Definition after {A} (t : list Trace) (r : list Trace * Result A)
  : list Trace * Result A :=
  (t ++ fst r, snd r).

Definition trace_of {A} (r : list Trace * Result A) : list Trace := fst r.
Definition result_of {A} (r : list Trace * Result A) : Result A := snd r.

Definition with_core (w : World) (s : Sys) : Sys :=
  {| core := w; deviceId := deviceId s; mqttTopic := mqttTopic s;
     wifi_n := wifi_n s; rm_n := rm_n s; up_n := up_n s; try_n := try_n s |}.

Definition with_ids (id topic : string) (s : Sys) : Sys :=
  {| core := core s; deviceId := id; mqttTopic := topic;
     wifi_n := wifi_n s; rm_n := rm_n s; up_n := up_n s; try_n := try_n s |}.

Definition next_wifi (s : Sys) : Sys :=
  {| core := core s; deviceId := deviceId s; mqttTopic := mqttTopic s;
     wifi_n := S (wifi_n s); rm_n := rm_n s; up_n := up_n s; try_n := try_n s |}.

Definition next_rm (s : Sys) : Sys :=
  {| core := core s; deviceId := deviceId s; mqttTopic := mqttTopic s;
     wifi_n := wifi_n s; rm_n := S (rm_n s); up_n := up_n s; try_n := try_n s |}.

Definition next_up (s : Sys) : Sys :=
  {| core := core s; deviceId := deviceId s; mqttTopic := mqttTopic s;
     wifi_n := wifi_n s; rm_n := rm_n s; up_n := S (up_n s); try_n := try_n s |}.

Definition next_try (s : Sys) : Sys :=
  {| core := core s; deviceId := deviceId s; mqttTopic := mqttTopic s;
     wifi_n := wifi_n s; rm_n := rm_n s; up_n := up_n s; try_n := S (try_n s) |}.

Definition with_wifi (n : nat) (s : Sys) : Sys :=
  {| core := core s; deviceId := deviceId s; mqttTopic := mqttTopic s;
     wifi_n := n; rm_n := rm_n s; up_n := up_n s; try_n := try_n s |}.

Definition with_rm (n : nat) (s : Sys) : Sys :=
  {| core := core s; deviceId := deviceId s; mqttTopic := mqttTopic s;
     wifi_n := wifi_n s; rm_n := n; up_n := up_n s; try_n := try_n s |}.

Definition with_link (polls tries : nat) (s : Sys) : Sys :=
  {| core := core s; deviceId := deviceId s; mqttTopic := mqttTopic s;
     wifi_n := wifi_n s; rm_n := rm_n s; up_n := polls; try_n := tries |}.

Definition with_wall (n : nat) (w : World) : World :=
  {| adc_dc_offset := adc_dc_offset w; isRecording := isRecording w;
     adc_n := adc_n w; clk_n := clk_n w; wall_n := n;
     heap_n := heap_n w; fs_n := fs_n w; mqtt_n := mqtt_n w |}.

(** The whole sketch right after reset. *)
Definition reset : Sys :=
  {| core := power_on; deviceId := EmptyString; mqttTopic := EmptyString;
     wifi_n := 0; rm_n := 0; up_n := 0; try_n := 0 |}.

(** A computation of the core run inside the whole sketch. *)
Definition lift {A} (m : M A) : MT A :=
  fun s =>
    match m (core s) with
    | (evs, Done a w) => (map Core evs, Returned a (with_core w s))
    | (evs, OutOfFuel) => (map Core evs, Blocked)
    end.

Definition say (text : string) : MT unit := fun s => ([Say text], Returned tt s).
Definition say_int (n : Z) : MT unit := fun s => ([SayInt n], Returned tt s).
Definition call (what : string) : MT unit := fun s => ([Call what], Returned tt s).
Definition pause (ms : Z) : MT unit := lift (delay ms).

Section Boot.

Variable B : Board.
Variable E : Env.

Definition wifi_status : MT bool :=
  fun s => ([], Returned (wifi_up B (wifi_n s)) (next_wifi s)).

Definition link_connected : MT bool :=
  fun s => ([], Returned (link_up B (up_n s)) (next_up s)).

Definition link_connect : MT bool :=
  fun s => ([Call "mqttClient.connect"],
            Returned (link_try B (try_n s)) (next_try s)).

Definition link_get_state : MT Z :=
  fun s => ([], Returned (link_state B (try_n s)) s).

Definition fs_close (name : string) : MT unit :=
  fun s => ([FsClose name], Returned tt s).

Definition fs_remove (path : string) : MT bool :=
  fun s => let ok := remove_ok B (rm_n s) in
           ([FsRemove path ok], Returned ok (next_rm s)).

(** *** connectWiFi *)

(** [while (WiFi.status() != WL_CONNECTED) { delay(500); Serial.print("."); }] *)
Fixpoint wifi_wait (fuel : nat) : MT unit :=
  match fuel with
  | O => blocked
  | S fuel' =>
      up <~ wifi_status ;~
      if up then sret tt
      else pause 500 ;~ say "." ;~ wifi_wait fuel'
  end.

Definition connectWiFi (fuel : nat) : MT unit :=
  say "Connecting to WiFi..." ;~
  call "WiFi.begin" ;~
  wifi_wait fuel ;~
  say "WiFi Connected." ;~
  say ("IP Address: " ++ local_ip B)%string.

(** *** initTime *)

(** [while (time(nullptr) < 10000) { delay(500); Serial.print("."); }] *)
Fixpoint time_wait (fuel : nat) : MT unit :=
  match fuel with
  | O => blocked
  | S fuel' =>
      now <~ lift (time_now E) ;~
      if now <? 10000 then pause 500 ;~ say "." ;~ time_wait fuel'
      else sret tt
  end.

Definition initTime (fuel : nat) : MT unit :=
  call "configTime" ;~
  say "Syncing time..." ;~
  time_wait fuel ;~
  say " done.".

(** *** connectMQTT *)

Fixpoint connectMQTT (fuel : nat) : MT unit :=
  match fuel with
  | O => blocked
  | S fuel' =>
      up <~ link_connected ;~
      if up then sret tt
      else
        say "Connecting to MQTT..." ;~
        ok <~ link_connect ;~
        (if ok then say "connected"
         else
           say "Failed. Code=" ;~
           code <~ link_get_state ;~
           say_int code ;~
           pause 5000) ;~
        connectMQTT fuel'
  end.

(** *** loop, with its check of the broker link *)

(** Lines 82-84: [if (!mqttClient.connected()) { connectMQTT(); }] *)
Definition reconnect (fuel : nat) : MT unit :=
  up <~ link_connected ;~
  if up then sret tt else connectMQTT fuel.

(** The whole of [loop], lines 81-101: the check of the link, then the
    pass of the core from line 85 on. *)
Definition full_loop (fuel : nat) : MT unit :=
  reconnect fuel ;~ lift (loop E fuel).

(** [n] consecutive passes through the whole of [loop]. *)
Fixpoint full_run (fuel n : nat) : MT unit :=
  match n with
  | O => sret tt
  | S n' => full_loop fuel ;~ full_run fuel n'
  end.

(** *** clearOldRecordings *)

(** The [while (file)] loop of lines 155-174 over the names the directory
    yields. *)
Fixpoint purge (names : list string) : MT unit :=
  match names with
  | [] => sret tt
  | fname :: rest =>
      say ("Found: " ++ fname)%string ;~
      (if startsWith fname "recording" then
         let fullPath := ("/" ++ fname)%string in
         say ("Deleting: " ++ fullPath)%string ;~
         fs_close fname ;~
         ok <~ fs_remove fullPath ;~
         if ok then say ("Deleted: " ++ fullPath)%string
         else say ("Failed to delete: " ++ fullPath)%string
       else fs_close fname) ;~
      purge rest
  end.

Definition clearOldRecordings : MT unit :=
  say "Clearing old recordings..." ;~
  call "SPIFFS.open /" ;~
  purge (listing B) ;~
  say "Done clearing recordings.".

(** *** setupWebServer *)

Definition setupWebServer : MT unit :=
  call "server.on /" ;~
  call "server.onNotFound" ;~
  call "server.begin" ;~
  say ("Web server started. Access at: http://" ++ local_ip B)%string.

(** *** setup *)

(** Lines 56-58: the two [snprintf] into [deviceId] and [mqttTopic]. *)
Definition named (s : Sys) : Sys :=
  with_ids (device_id (efuse_mac B)) (mqtt_topic (efuse_mac B)) s.

Definition name_device : MT unit := fun s => ([], Returned tt (named s)).

(** [while (1) delay(1000);] *)
Fixpoint halt (fuel : nat) : MT unit :=
  match fuel with
  | O => blocked
  | S fuel' => pause 1000 ;~ halt fuel'
  end.

Definition setup (fuel : nat) : MT unit :=
  call "Serial.begin" ;~
  pause 2000 ;~
  say "--- ESP32 Sound Detection, MQTT & Web Server ---" ;~
  name_device ;~
  connectWiFi fuel ;~
  initTime fuel ;~
  setupWebServer ;~
  call "mqttClient.setServer" ;~
  call "adc1_config_width" ;~
  call "adc1_config_channel_atten" ;~
  call "SPIFFS.begin" ;~
  (if negb (spiffs_mount_ok B) then
     say "FATAL: Could not mount SPIFFS" ;~ halt fuel
   else sret tt) ;~
  clearOldRecordings ;~
  lift (calibrateDCOffset E) ;~
  lift (serial "Ready. Listening for sound > %d amplitude" [AMPLITUDE_THRESHOLD]).

End Boot.

(** *** Vocabulary of the boot properties *)

(** The paths [SPIFFS.remove] was asked for, whatever it answered; those it
    answered with success; the names the log closes; the delays it makes. *)
Definition remove_requests (t : list Trace) : list string :=
  flat_map (fun e => match e with FsRemove p _ => [p] | _ => [] end) t.

Definition deleted (t : list Trace) : list string :=
  flat_map (fun e => match e with FsRemove p true => [p] | _ => [] end) t.

(** The paths of [paths] whose removal succeeds, the removal of the first
    one being call number [k] of [SPIFFS.remove]. *)
Fixpoint answered (ok : nat -> bool) (k : nat) (paths : list string)
  : list string :=
  match paths with
  | [] => []
  | p :: rest =>
      if ok k then p :: answered ok (S k) rest else answered ok (S k) rest
  end.

(** The events of the core in a trace. *)
Definition core_events (t : list Trace) : list Event :=
  flat_map (fun e => match e with Core e' => [e'] | _ => [] end) t.

Definition closed (t : list Trace) : list string :=
  flat_map (fun e => match e with FsClose n => [n] | _ => [] end) t.

Definition waited (t : list Trace) : Z :=
  fold_right Z.add 0
    (flat_map (fun e => match e with Core (EvDelay ms) => [ms] | _ => [] end) t).

Definition conversions (t : list Trace) : list Z :=
  flat_map (fun e => match e with Core (EvAdc v) => [v] | _ => [] end) t.

(** [n] rounds of waiting half a second and printing a dot. *)
Definition ticks (n : nat) : list Trace :=
  concat (repeat [Core (EvDelay 500); Say "."%string] n).

(** The attempt of index [j] to connect to the broker, counted from the
    attempt cursor [t0]: the report, and five seconds of delay after a
    failure. *)
Definition mqtt_attempt (B : Board) (t0 j : nat) : list Trace :=
  [Say "Connecting to MQTT..."%string; Call "mqttClient.connect"%string]
    ++ (if link_try B (t0 + j)
        then [Say "connected"%string]
        else [Say "Failed. Code="%string; SayInt (link_state B (t0 + S j));
              Core (EvDelay 5000)]).

Definition failed_attempts (B : Board) (t0 k : nat) : nat :=
  length (List.filter (fun j => negb (link_try B (t0 + j))) (seq 0 k)).

(** A recording as the purge looks at it. *)
Definition is_recording (name : string) : bool := startsWith name "recording".

(** A board that comes up on the third poll of the WiFi, with a directory
    of two recordings and two other files. *)
Definition lab_board : Board :=
  {| efuse_mac := 45307 * 2 ^ 32 + 305419896;
     wifi_up := fun k => (2 <=? k)%nat;
     local_ip := "192.168.0.17";
     spiffs_mount_ok := true;
     listing := ["recording_20250702_113533.bin"%string; "index.html"%string;
                 "recording_20250702_120000.bin"%string;
                 "/recording_old.bin"%string];
     remove_ok := fun k => (k =? 0)%nat;
     link_up := fun k => (2 <=? k)%nat;
     link_try := fun k => (1 <=? k)%nat;
     link_state := fun _ => -2 |}.

(** The same board with a file system that does not mount. *)
Definition lab_board_no_fs : Board :=
  {| efuse_mac := efuse_mac lab_board; wifi_up := wifi_up lab_board;
     local_ip := local_ip lab_board; spiffs_mount_ok := false;
     listing := listing lab_board; remove_ok := remove_ok lab_board;
     link_up := link_up lab_board; link_try := link_try lab_board;
     link_state := link_state lab_board |}.

(** The bench with a wall clock that is set by the second reading. *)
Definition bench_synced : Env :=
  {| adc_src := adc_src bench; clk_src := clk_src bench;
     wall_src := fun k => if (k =? 0)%nat then 3 else 1751456133;
     heap_ok := heap_ok bench; heap_junk := heap_junk bench;
     open_ok := open_ok bench; mqtt_ok := mqtt_ok bench |}.

(** The whole sketch armed after a calibration at mid-scale. *)
Definition armed_sys : Sys := with_core armed_2048 reset.

(** 2 July 2025, 11:35:33. *)
Definition tm_example : Tm :=
  {| tm_year := 125; tm_mon := 6; tm_mday := 2;
     tm_hour := 11; tm_min := 35; tm_sec := 33 |}.

(* ------------------------------------------------------------------ *)
(** ** Machine arithmetic                                              *)
(* ------------------------------------------------------------------ *)

Lemma to_int_small (z : Z) : - 2 ^ 31 <= z < 2 ^ 31 -> to_int z = z.
Proof.
  intros Hz. unfold to_int, wrap_signed.
  change (2 ^ (32 - 1)) with (2 ^ 31).
  rewrite Z.mod_small; lia.
Qed.

Lemma to_int16_small (z : Z) : - 2 ^ 15 <= z < 2 ^ 15 -> to_int16 z = z.
Proof.
  intros Hz. unfold to_int16, wrap_signed.
  change (2 ^ (16 - 1)) with (2 ^ 15).
  rewrite Z.mod_small; lia.
Qed.

Lemma to_ulong_small (z : Z) : 0 <= z < 2 ^ 32 -> to_ulong z = z.
Proof. intros Hz. unfold to_ulong, wrap_unsigned. now apply Z.mod_small. Qed.

Lemma to_ulong_range (z : Z) : 0 <= to_ulong z < 2 ^ 32.
Proof. unfold to_ulong, wrap_unsigned. apply Z.mod_pos_bound. lia. Qed.

Lemma amplitude_exact (v dc : Z) :
  adc_value_ok v -> adc_value_ok dc ->
  c_abs (int_sub v dc) = Z.abs (v - dc).
Proof.
  unfold adc_value_ok, ADC_MAX, c_abs, int_sub. intros Hv Hdc.
  rewrite (to_int_small (v - dc)) by lia.
  apply to_int_small. lia.
Qed.

(* ------------------------------------------------------------------ *)
(** ** Equations of the monad and of the primitive calls               *)
(* ------------------------------------------------------------------ *)

Lemma prepend_nil {A} (r : list Event * Outcome A) : prepend [] r = r.
Proof. now destruct r. Qed.

Lemma prepend_pair {A} (evs evs' : list Event) (o : Outcome A) :
  prepend evs (evs', o) = (evs ++ evs', o).
Proof. reflexivity. Qed.

Lemma prepend_prepend {A} (e1 e2 : list Event) (r : list Event * Outcome A) :
  prepend e1 (prepend e2 r) = prepend (e1 ++ e2) r.
Proof. unfold prepend. cbn [fst snd]. now rewrite app_assoc. Qed.

Lemma bind_done {A B} (m : M A) (k : A -> M B) w evs a w1 :
  m w = (evs, Done a w1) -> bind m k w = prepend evs (k a w1).
Proof. unfold bind, prepend. intros ->. now destruct (k a w1). Qed.

Lemma bind_out_of_fuel {A B} (m : M A) (k : A -> M B) w evs :
  m w = (evs, OutOfFuel) -> bind m k w = (evs, OutOfFuel).
Proof. unfold bind. now intros ->. Qed.

Lemma ret_bind {A B} (a : A) (k : A -> M B) w : bind (ret a) k w = k a w.
Proof. rewrite (bind_done _ _ _ [] a w) by reflexivity. apply prepend_nil. Qed.

Lemma gets_bind {A B} (f : World -> A) (k : A -> M B) w :
  bind (gets f) k w = k (f w) w.
Proof. rewrite (bind_done _ _ _ [] (f w) w) by reflexivity. apply prepend_nil. Qed.

Section Steps.

Context {B : Type}.
Variable E : Env.

Lemma emit_bind (e : Event) (k : unit -> M B) w :
  bind (emit e) k w = prepend [e] (k tt w).
Proof. now apply bind_done. Qed.

Lemma modify_bind (f : World -> World) (k : unit -> M B) w :
  bind (modify f) k w = k tt (f w).
Proof. rewrite (bind_done _ _ _ [] tt (f w)) by reflexivity. apply prepend_nil. Qed.

Lemma adc_bind (k : Z -> M B) w :
  bind (adc1_get_raw E) k w
  = prepend [EvAdc (adc_src E (adc_n w))] (k (adc_src E (adc_n w)) (next_adc w)).
Proof. now apply bind_done. Qed.

Lemma micros_bind (k : Z -> M B) w :
  bind (micros E) k w = k (to_ulong (clk_src E (clk_n w))) (next_clk w).
Proof.
  rewrite (bind_done _ _ _ [] (to_ulong (clk_src E (clk_n w))) (next_clk w))
    by reflexivity.
  apply prepend_nil.
Qed.

Lemma time_now_bind (k : Z -> M B) w :
  bind (time_now E) k w = k (wall_src E (wall_n w)) (next_wall w).
Proof.
  rewrite (bind_done _ _ _ [] (wall_src E (wall_n w)) (next_wall w))
    by reflexivity.
  apply prepend_nil.
Qed.

Lemma malloc_bind (k : option (list Z) -> M B) w :
  bind (malloc_buffer E) k w
  = prepend [EvMalloc (heap_ok E (heap_n w))]
      (k (if heap_ok E (heap_n w)
          then Some (map (heap_junk E) (seq 0 (Z.to_nat TOTAL_SAMPLES)))
          else None)
         (next_heap w)).
Proof. now apply bind_done. Qed.

Lemma open_bind (name : Filename) (k : bool -> M B) w :
  bind (spiffs_open E name) k w
  = prepend [EvOpen name (open_ok E (fs_n w))] (k (open_ok E (fs_n w)) (next_fs w)).
Proof. now apply bind_done. Qed.

Lemma publish_bind (name : Filename) (stamp amp : Z) (k : bool -> M B) w :
  bind (mqtt_publish E name stamp amp) k w
  = prepend [EvPublish name stamp amp (mqtt_ok E (mqtt_n w))]
      (k (mqtt_ok E (mqtt_n w)) (next_mqtt w)).
Proof. now apply bind_done. Qed.

Lemma set_recording_bind (b : bool) (k : unit -> M B) w :
  bind (set_recording b) k w = prepend [EvFlag b] (k tt (with_flag b w)).
Proof. now apply bind_done. Qed.

End Steps.

Lemma bind_assoc {A B C} (m : M A) (f : A -> M B) (g : B -> M C) w :
  bind (bind m f) g w = bind m (fun a => bind (f a) g) w.
Proof.
  unfold bind. destruct (m w) as [e1 [a w1|]]; [|reflexivity].
  destruct (f a w1) as [e2 [b w2|]]; [|reflexivity].
  destruct (g b w2) as [e3 o]. now rewrite app_assoc.
Qed.

Lemma events_prepend {A} (evs : list Event) (r : list Event * Outcome A) :
  events (prepend evs r) = evs ++ events r.
Proof. reflexivity. Qed.

Lemma outcome_prepend {A} (evs : list Event) (r : list Event * Outcome A) :
  outcome (prepend evs r) = outcome r.
Proof. reflexivity. Qed.

(** Symbolic execution of straight-line code of the sketch. *)
Ltac exec :=
  repeat first
    [ rewrite bind_assoc
    | rewrite emit_bind | rewrite gets_bind | rewrite modify_bind
    | rewrite ret_bind | rewrite adc_bind | rewrite micros_bind
    | rewrite time_now_bind | rewrite malloc_bind | rewrite open_bind
    | rewrite publish_bind | rewrite set_recording_bind
    | rewrite prepend_prepend | rewrite prepend_pair ].

(* ------------------------------------------------------------------ *)
(** ** Trigger detection                                               *)
(* ------------------------------------------------------------------ *)

(** One pass through [loop] while armed, when the sample stays within the
    threshold: one conversion, no lock, no capture. *)
Lemma loop_quiet (E : Env) (fuel : nat) (w : World) :
  isRecording w = false ->
  (c_abs (int_sub (adc_src E (adc_n w)) (adc_dc_offset w)) >? AMPLITUDE_THRESHOLD) = false ->
  loop E fuel w
  = ([EvNet; EvAdc (adc_src E (adc_n w)); EvDelay 1], Done tt (next_adc w)).
Proof.
  intros Hfree Hcmp.
  unfold loop, housekeeping, delay. exec.
  rewrite Hfree. cbn [negb]. exec.
  cbn [next_adc adc_dc_offset]. rewrite Hcmp. exec. reflexivity.
Qed.

(** One pass through [loop] while armed, when the sample exceeds the
    threshold: the lock is taken, [recordAndAlert] runs with the amplitude,
    and if it returns the lock is released and the cooldown follows. *)
Lemma loop_loud (E : Env) (fuel : nat) (w : World) :
  isRecording w = false ->
  (c_abs (int_sub (adc_src E (adc_n w)) (adc_dc_offset w)) >? AMPLITUDE_THRESHOLD) = true ->
  let amplitude := c_abs (int_sub (adc_src E (adc_n w)) (adc_dc_offset w)) in
  let r := recordAndAlert E fuel amplitude (with_flag true (next_adc w)) in
  loop E fuel w
  = match outcome r with
    | Done _ w' =>
        ([EvNet; EvAdc (adc_src E (adc_n w)); EvFlag true] ++ events r
           ++ [EvFlag false; EvDelay 2000; EvDelay 1],
         Done tt (with_flag false w'))
    | OutOfFuel =>
        ([EvNet; EvAdc (adc_src E (adc_n w)); EvFlag true] ++ events r, OutOfFuel)
    end.
Proof.
  intros Hfree Hcmp amplitude r.
  unfold loop, housekeeping, delay. exec.
  rewrite Hfree. cbn [negb]. exec.
  cbn [next_adc adc_dc_offset]. rewrite Hcmp. exec.
  fold amplitude. subst r.
  destruct (recordAndAlert E fuel amplitude (with_flag true (next_adc w)))
    as [evs [[] w'|]] eqn:Hr; cbn [outcome events fst snd].
  - rewrite (bind_done _ _ _ _ _ _ Hr). exec.
    unfold emit, prepend. cbn [fst snd].
    rewrite <- !app_assoc. reflexivity.
  - rewrite (bind_out_of_fuel _ _ _ _ Hr). exec. reflexivity.
Qed.

(* ------------------------------------------------------------------ *)
(** ** The busy-wait                                                   *)
(* ------------------------------------------------------------------ *)

Section Spin.

Variable E : Env.

Lemma spin_unfold (fuel : nat) (d : Z) (w : World) :
  spin E (S fuel) d w
  = if to_ulong (clk_src E (clk_n w)) <? d
    then spin E fuel d (next_clk w)
    else ([], Done tt (next_clk w)).
Proof.
  cbn [spin]. rewrite micros_bind.
  now destruct (to_ulong (clk_src E (clk_n w)) <? d).
Qed.

(** The wait emits nothing, touches only the clock cursor, and ends on
    the first reading that is not below the deadline. *)
Lemma spin_done (fuel : nat) (d : Z) :
  forall w evs u w0,
    spin E fuel d w = (evs, Done u w0) ->
    evs = [] /\ w0 = with_clk (clk_n w0) w /\ (clk_n w < clk_n w0)%nat
    /\ d <= to_ulong (clk_src E (pred (clk_n w0))).
Proof.
  induction fuel as [|fuel IH]; intros w evs u w0 Hs.
  - discriminate Hs.
  - rewrite spin_unfold in Hs.
    destruct (to_ulong (clk_src E (clk_n w)) <? d) eqn:Hlt.
    + destruct (IH _ _ _ _ Hs) as (-> & Hw & Hn & Hd).
      cbn [next_clk clk_n] in Hn. repeat split; try lia; assumption.
    + inversion Hs; subst; clear Hs. cbn [next_clk clk_n pred].
      apply Z.ltb_ge in Hlt.
      split; [reflexivity|]. split; [now destruct w|]. split; [lia|exact Hlt].
Qed.

Lemma spin_events (fuel : nat) (d : Z) :
  forall w, events (spin E fuel d w) = [].
Proof.
  induction fuel as [|fuel IH]; intros w; [reflexivity|].
  rewrite spin_unfold.
  destruct (to_ulong (clk_src E (clk_n w)) <? d); [apply IH | reflexivity].
Qed.

(** More fuel never changes a wait that ended. *)
Lemma spin_mono (fuel : nat) (d : Z) :
  forall w r w0 fuel',
    spin E fuel d w = (r, Done tt w0) -> (fuel <= fuel')%nat ->
    spin E fuel' d w = (r, Done tt w0).
Proof.
  induction fuel as [|fuel IH]; intros w r w0 fuel' Hs Hle.
  - discriminate Hs.
  - destruct fuel' as [|fuel']; [lia|].
    rewrite spin_unfold in *.
    destruct (to_ulong (clk_src E (clk_n w)) <? d); [|assumption].
    apply IH; [assumption | lia].
Qed.

Lemma spin_reaches (d : Z) :
  forall (j : nat) w,
    d <= to_ulong (clk_src E (clk_n w + j)%nat) ->
    exists w0, spin E (S j) d w = ([], Done tt w0).
Proof.
  induction j as [|j IH]; intros w Hd; rewrite spin_unfold.
  - rewrite Nat.add_0_r in Hd.
    destruct (Z.ltb_spec (to_ulong (clk_src E (clk_n w))) d); [lia|].
    eauto.
  - destruct (to_ulong (clk_src E (clk_n w)) <? d); [|eauto].
    apply IH. cbn [next_clk clk_n].
    now replace (S (clk_n w) + j)%nat with (clk_n w + S j)%nat by lia.
Qed.

(** On a live clock every wait ends. *)
Lemma spin_total (d : Z) (w : World) :
  clock_live E -> 0 <= d <= ULONG_MAX ->
  exists fuel w0, spin E fuel d w = ([], Done tt w0).
Proof.
  intros Hlive Hd. destruct (Hlive (clk_n w) d Hd) as [j Hj].
  destruct (spin_reaches d j w Hj) as [w0 Hw0]. eauto.
Qed.

End Spin.

(* ------------------------------------------------------------------ *)
(** ** The capture loop                                                *)
(* ------------------------------------------------------------------ *)

Section Capture.

Variable E : Env.

(** One iteration whose wait ended. *)
Lemma record_loop_step (fuel todo i : nat) (next : Z) (buf : list Z) w w0 :
  spin E fuel next w = ([], Done tt w0) ->
  record_loop E fuel (S todo) i next buf w
  = prepend [EvAdc (adc_src E (adc_n w))]
      (record_loop E fuel todo (S i) (ulong_add next SAMPLING_PERIOD_US)
         (<[i := scaled (adc_src E (adc_n w)) (adc_dc_offset w)]> buf)
         (next_adc w0)).
Proof.
  intros Hs. destruct (spin_done E _ _ _ _ _ _ Hs) as (_ & Hw0 & _).
  cbn [record_loop]. rewrite (bind_done _ _ _ _ _ _ Hs), prepend_nil.
  exec. rewrite Hw0. reflexivity.
Qed.

(** One iteration whose wait did not end within the fuel. *)
Lemma record_loop_stuck (fuel todo i : nat) (next : Z) (buf : list Z) w evs :
  spin E fuel next w = (evs, OutOfFuel) ->
  record_loop E fuel (S todo) i next buf w = ([], OutOfFuel).
Proof.
  intros Hs. cbn [record_loop]. rewrite (bind_out_of_fuel _ _ _ _ Hs).
  pose proof (spin_events E fuel next w) as He. rewrite Hs in He.
  cbn in He. now subst.
Qed.

(** An iteration that returned went through its wait. *)
Lemma record_loop_inv (fuel todo i : nat) (next : Z) (buf : list Z)
      w evs r w' :
  record_loop E fuel (S todo) i next buf w = (evs, Done r w') ->
  exists w0 evs',
    spin E fuel next w = ([], Done tt w0)
    /\ w0 = with_clk (clk_n w0) w /\ (clk_n w < clk_n w0)%nat
    /\ evs = EvAdc (adc_src E (adc_n w)) :: evs'
    /\ record_loop E fuel todo (S i) (ulong_add next SAMPLING_PERIOD_US)
         (<[i := scaled (adc_src E (adc_n w)) (adc_dc_offset w)]> buf)
         (next_adc w0) = (evs', Done r w').
Proof.
  intros Hr.
  destruct (spin E fuel next w) as [e0 [[] w0|]] eqn:Hs.
  - destruct (spin_done E _ _ _ _ _ _ Hs) as (-> & Hw0 & Hlt & _).
    rewrite (record_loop_step _ _ _ _ _ _ _ Hs) in Hr.
    destruct (record_loop E fuel todo (S i) _ _ (next_adc w0)) as [evs' o] eqn:Hrest.
    rewrite prepend_pair in Hr. inversion Hr; subst evs o; clear Hr.
    exists w0, evs'. repeat split; assumption.
  - rewrite (record_loop_stuck _ _ _ _ _ _ _ Hs) in Hr. discriminate Hr.
Qed.

Lemma samples_S (k n : nat) :
  samples E k (S n) = adc_src E k :: samples E (S k) n.
Proof.
  unfold samples. cbn [seq map]. rewrite Nat.add_0_r. f_equal.
  rewrite <- seq_shift, map_map. apply map_ext. intros j. f_equal. lia.
Qed.

(** What a completed loop has done: one conversion per iteration and
    nothing else observable, the cells [i .. i+todo-1] overwritten with the
    scaled conversions in order, every other cell and the length of the
    block untouched. *)
Lemma record_loop_done (fuel todo : nat) :
  forall (i : nat) (next : Z) (buf : list Z) w evs next' buf' w',
    record_loop E fuel todo i next buf w = (evs, Done (next', buf') w') ->
    evs = map EvAdc (samples E (adc_n w) todo)
    /\ length buf' = length buf
    /\ (forall j : nat,
          buf' !! j
          = if decide ((i <= j < i + todo)%nat /\ (j < length buf)%nat)
            then Some (scaled (adc_src E (adc_n w + (j - i))%nat) (adc_dc_offset w))
            else buf !! j)
    /\ w' = with_clk (clk_n w') (with_adc (adc_n w + todo)%nat w)
    /\ (clk_n w + todo <= clk_n w')%nat.
Proof.
  induction todo as [|todo IH]; intros i next buf w evs next' buf' w' Hr.
  - cbn in Hr. inversion Hr; subst; clear Hr.
    split; [reflexivity|]. split; [reflexivity|]. split.
    + intros j. case_decide; [lia | reflexivity].
    + split; [|lia]. rewrite Nat.add_0_r. now destruct w'.
  - destruct (record_loop_inv _ _ _ _ _ _ _ _ _ Hr)
      as (w0 & evs' & _ & Hw0 & Hclk & -> & Hrest).
    destruct (IH _ _ _ _ _ _ _ _ Hrest) as (Hevs & Hlen & Hbuf & Hw' & Hclk').
    rewrite Hw0 in Hevs, Hbuf, Hw', Hclk'.
    cbn [next_adc with_clk adc_n adc_dc_offset clk_n] in Hevs, Hbuf, Hw', Hclk'.
    rewrite length_insert in Hlen, Hbuf.
    split; [now rewrite samples_S, Hevs|]. split; [exact Hlen|]. split.
    + intros j. rewrite Hbuf. clear Hbuf.
      destruct (decide (j = i)) as [->|Hne].
      * repeat case_decide; try lia.
        -- rewrite list_lookup_insert_eq by lia.
           now rewrite Nat.sub_diag, Nat.add_0_r.
        -- rewrite list_insert_ge by lia. reflexivity.
      * rewrite list_lookup_insert_ne by congruence.
        repeat case_decide; try lia; try reflexivity.
        do 3 f_equal. lia.
    + split; [|rewrite Hw0 in Hclk; cbn in Hclk; lia].
      rewrite Hw'. cbn [with_clk with_adc next_adc adc_n].
      now replace (S (adc_n w) + todo)%nat with (adc_n w + S todo)%nat by lia.
Qed.

(** The deadline after [todo] iterations, in the arithmetic of
    [unsigned long]. *)
Lemma record_loop_deadline (fuel todo : nat) :
  forall (i : nat) (next : Z) (buf : list Z) w evs next' buf' w',
    0 <= next <= ULONG_MAX ->
    record_loop E fuel todo i next buf w = (evs, Done (next', buf') w') ->
    next' = to_ulong (next + Z.of_nat todo * SAMPLING_PERIOD_US).
Proof.
  induction todo as [|todo IH]; intros i next buf w evs next' buf' w' Hn Hr.
  - cbn in Hr. inversion Hr; subst; clear Hr.
    rewrite Z.add_0_r. symmetry. apply to_ulong_small.
    unfold ULONG_MAX in Hn. lia.
  - destruct (record_loop_inv _ _ _ _ _ _ _ _ _ Hr)
      as (w0 & evs' & _ & _ & _ & _ & Hrest).
    apply IH in Hrest.
    + rewrite Hrest. unfold ulong_add, to_ulong, wrap_unsigned.
      rewrite Zplus_mod_idemp_l. f_equal. lia.
    + pose proof (to_ulong_range (next + SAMPLING_PERIOD_US)).
      unfold ulong_add, ULONG_MAX. lia.
Qed.

(** Running [a + b] iterations is running [a] of them and then [b] more
    from the state, deadline and buffer they left. *)
Lemma record_loop_split (fuel a b : nat) :
  forall (i : nat) (next : Z) (buf : list Z) w,
    record_loop E fuel (a + b) i next buf w
    = bind (record_loop E fuel a i next buf)
        (fun r => record_loop E fuel b (i + a) (fst r) (snd r)) w.
Proof.
  induction a as [|a IH]; intros i next buf w.
  - cbn [Nat.add record_loop]. rewrite ret_bind. cbn [fst snd].
    now rewrite Nat.add_0_r.
  - cbn [Nat.add].
    destruct (spin E fuel next w) as [e0 [[] w0|]] eqn:Hs.
    + destruct (spin_done E _ _ _ _ _ _ Hs) as (-> & _).
      rewrite (record_loop_step _ _ _ _ _ _ _ Hs), IH.
      replace (S i + a)%nat with (i + S a)%nat by lia.
      unfold bind at 2. rewrite (record_loop_step _ _ _ _ _ _ _ Hs).
      unfold bind, prepend.
      destruct (record_loop E fuel a (S i) _ _ (next_adc w0)) as [e1 [r w1|]];
        cbn [fst snd]; [|reflexivity].
      destruct (record_loop E fuel b (i + S a) (fst r) (snd r) w1) as [e2 o].
      cbn [fst snd]. now rewrite app_assoc.
    + rewrite (record_loop_stuck _ _ _ _ _ _ _ Hs).
      unfold bind. now rewrite (record_loop_stuck _ _ _ _ _ _ _ Hs).
Qed.

(** Whether or not the loop returned, it has only taken conversions. *)
Lemma record_loop_events (fuel todo : nat) :
  forall (i : nat) (next : Z) (buf : list Z) w,
    exists k : nat, (k <= todo)%nat
      /\ events (record_loop E fuel todo i next buf w)
         = map EvAdc (samples E (adc_n w) k).
Proof.
  induction todo as [|todo IH]; intros i next buf w.
  - exists 0%nat. split; [lia | reflexivity].
  - destruct (spin E fuel next w) as [e0 [[] w0|]] eqn:Hs.
    + destruct (spin_done E _ _ _ _ _ _ Hs) as (-> & Hw0 & _).
      rewrite (record_loop_step _ _ _ _ _ _ _ Hs), events_prepend.
      destruct (IH (S i) (ulong_add next SAMPLING_PERIOD_US)
                  (<[i := scaled (adc_src E (adc_n w)) (adc_dc_offset w)]> buf)
                  (next_adc w0)) as (k & Hk & ->).
      exists (S k). split; [lia|].
      rewrite samples_S, Hw0. reflexivity.
    + rewrite (record_loop_stuck _ _ _ _ _ _ _ Hs).
      exists 0%nat. split; [lia | reflexivity].
Qed.

(** More fuel never changes a loop that returned. *)
Lemma record_loop_mono (fuel todo : nat) :
  forall (i : nat) (next : Z) (buf : list Z) w evs r w' fuel',
    record_loop E fuel todo i next buf w = (evs, Done r w') ->
    (fuel <= fuel')%nat ->
    record_loop E fuel' todo i next buf w = (evs, Done r w').
Proof.
  induction todo as [|todo IH]; intros i next buf w evs r w' fuel' Hr Hle.
  - exact Hr.
  - destruct (record_loop_inv _ _ _ _ _ _ _ _ _ Hr)
      as (w0 & evs' & Hs & _ & _ & -> & Hrest).
    rewrite (record_loop_step _ _ _ _ _ _ _ (spin_mono E _ _ _ _ _ _ Hs Hle)).
    now rewrite (IH _ _ _ _ _ _ _ _ Hrest Hle).
Qed.

(** On a live clock the loop returns once the fuel is large enough. *)
Lemma record_loop_total (todo : nat) :
  clock_live E ->
  forall (i : nat) (next : Z) (buf : list Z) w,
    0 <= next <= ULONG_MAX ->
    exists fuel evs r w',
      record_loop E fuel todo i next buf w = (evs, Done r w').
Proof.
  intros Hlive. induction todo as [|todo IH]; intros i next buf w Hn.
  - exists 0%nat. cbn. eauto.
  - destruct (spin_total E next w Hlive Hn) as (f1 & w0 & Hs).
    destruct (IH (S i) (ulong_add next SAMPLING_PERIOD_US)
                (<[i := scaled (adc_src E (adc_n w)) (adc_dc_offset w)]> buf)
                (next_adc w0)) as (f2 & evs & r & w' & Hrest).
    { pose proof (to_ulong_range (next + SAMPLING_PERIOD_US)).
      unfold ulong_add, ULONG_MAX. lia. }
    exists (Nat.max f1 f2), (EvAdc (adc_src E (adc_n w)) :: evs), r, w'.
    rewrite (record_loop_step _ _ _ _ _ _ _
               (spin_mono E _ _ _ _ _ _ Hs (Nat.le_max_l f1 f2))).
    now rewrite (record_loop_mono _ _ _ _ _ _ _ _ _ _ Hrest (Nat.le_max_r f1 f2)).
Qed.

End Capture.

(* ------------------------------------------------------------------ *)
(** ** recordAndAlert, path by path                                    *)
(* ------------------------------------------------------------------ *)

Section Record.

Variable E : Env.

(** Allocation failed: an error line and nothing else. *)
Lemma recordAndAlert_no_memory (fuel : nat) (amp : Z) (w : World) :
  heap_ok E (heap_n w) = false ->
  recordAndAlert E fuel amp w
  = (no_memory_events amp, Done tt (next_heap (next_wall w))).
Proof.
  intros Hheap. unfold recordAndAlert, serial. exec.
  cbn [next_wall heap_n]. rewrite Hheap. reflexivity.
Qed.

(** Allocation succeeded: the routine is the sampling loop followed by the
    handoff of what the loop filled. *)
Lemma recordAndAlert_run (fuel : nat) (amp : Z) (w : World) :
  heap_ok E (heap_n w) = true ->
  recordAndAlert E fuel amp w
  = match record_loop E fuel (Z.to_nat TOTAL_SAMPLES) 0
            (to_ulong (clk_src E (clk_n w)))
            (map (heap_junk E) (seq 0 (Z.to_nat TOTAL_SAMPLES)))
            (capture_entry w) with
    | (evs, Done filled w2) =>
        (capture_start_events amp ++ evs
           ++ handoff_events (wall_src E (wall_n w))
                   (wall_src E (S (wall_n w))) (snd filled) amp
                (open_ok E (fs_n w2)) (mqtt_ok E (mqtt_n w2)),
         Done tt
           (if open_ok E (fs_n w2)
            then next_mqtt (next_wall (next_fs w2))
            else next_fs w2))
    | (evs, OutOfFuel) => (capture_start_events amp ++ evs, OutOfFuel)
    end.
Proof.
  intros Hheap. unfold recordAndAlert, serial. exec.
  cbn [next_wall heap_n]. rewrite Hheap. exec.
  cbn [next_heap next_wall clk_n]. fold (capture_entry w).
  destruct (record_loop E fuel (Z.to_nat TOTAL_SAMPLES) 0 _ _ (capture_entry w))
    as [evs [filled w2|]] eqn:Hloop.
  - assert (Hwall : wall_n w2 = S (wall_n w)).
    { destruct filled as [next' buf'].
      destruct (record_loop_done E _ _ _ _ _ _ _ _ _ _ Hloop) as (_ & _ & _ & -> & _).
      reflexivity. }
    rewrite (bind_done _ _ _ _ _ _ Hloop). exec.
    unfold handoff_events.
    destruct (open_ok E (fs_n w2)); cbn [negb].
    + unfold file_write, file_close, free_buffer, publishMqttAlert, serial.
      exec. cbn [next_fs next_wall mqtt_n wall_n]. rewrite Hwall.
      destruct (mqtt_ok E (mqtt_n w2)); unfold serial; exec;
        unfold emit, prepend; cbn [fst snd];
        rewrite <- !app_assoc; reflexivity.
    + unfold free_buffer, serial. exec.
      unfold emit, prepend; cbn [fst snd].
      rewrite <- !app_assoc. reflexivity.
  - rewrite (bind_out_of_fuel _ _ _ _ Hloop). exec. reflexivity.
Qed.

End Record.

(* ------------------------------------------------------------------ *)
(** ** A completed capture                                             *)
(* ------------------------------------------------------------------ *)

Lemma map_lookup_Some {A B} (f : A -> B) (l : list A) :
  forall (j : nat) (x : A), l !! j = Some x -> map f l !! j = Some (f x).
Proof.
  induction l as [|a l IH]; intros [|j] x Hj; try discriminate Hj.
  - now inversion Hj.
  - cbn. now apply IH.
Qed.

Lemma samples_length (E : Env) (k n : nat) : length (samples E k n) = n.
Proof. unfold samples. now rewrite length_map, length_seq. Qed.

Lemma samples_lookup (E : Env) (k n j : nat) :
  (j < n)%nat -> samples E k n !! j = Some (adc_src E (k + j)%nat).
Proof.
  intros Hj. unfold samples.
  apply (map_lookup_Some (fun j => adc_src E (k + j)%nat)).
  now apply lookup_seq_lt.
Qed.

(** A loop that ran over a whole block left nothing of the block's former
    contents: the buffer is the scaled conversions, in order. *)
Lemma record_loop_fills (E : Env) (fuel n : nat) (next : Z) (block : list Z)
      w evs nx buf w' :
  length block = n ->
  record_loop E fuel n 0 next block w = (evs, Done (nx, buf) w') ->
  buf = map (fun raw => scaled raw (adc_dc_offset w)) (samples E (adc_n w) n).
Proof.
  intros Hlen Hr.
  destruct (record_loop_done E _ _ _ _ _ _ _ _ _ _ Hr) as (_ & Hl & Hbuf & _).
  apply list_eq. intros j. rewrite Hbuf. case_decide as Hj.
  - symmetry. rewrite Nat.sub_0_r.
    apply (map_lookup_Some (fun raw => scaled raw (adc_dc_offset w))).
    apply samples_lookup. lia.
  - rewrite !lookup_ge_None_2; [reflexivity | | lia].
    rewrite length_map, samples_length. lia.
Qed.

Section Completed.

Variable E : Env.
Hypothesis Hlive : clock_live E.

(** With memory for the buffer and a live clock, [recordAndAlert] returns for
    every large enough fuel, always with the same events and state: the
    prologue, one conversion per sample, and the handoff of the buffer. *)
Lemma recordAndAlert_captures (amp : Z) (w : World) :
  heap_ok E (heap_n w) = true ->
  exists (fuel0 : nat) (w' : World),
    (forall fuel, (fuel0 <= fuel)%nat ->
       recordAndAlert E fuel amp w
       = (capture_start_events amp
            ++ map EvAdc (samples E (adc_n w) (Z.to_nat TOTAL_SAMPLES))
            ++ handoff_events (wall_src E (wall_n w))
                    (wall_src E (S (wall_n w))) (captured E w) amp
                 (open_ok E (fs_n w)) (mqtt_ok E (mqtt_n w)),
          Done tt w'))
    /\ adc_n w' = (adc_n w + Z.to_nat TOTAL_SAMPLES)%nat
    /\ adc_dc_offset w' = adc_dc_offset w
    /\ isRecording w' = isRecording w
    /\ heap_n w' = S (heap_n w)
    /\ fs_n w' = S (fs_n w).
Proof.
  intros Hheap.
  destruct (record_loop_total E (Z.to_nat TOTAL_SAMPLES) Hlive 0
              (to_ulong (clk_src E (clk_n w)))
              (map (heap_junk E) (seq 0 (Z.to_nat TOTAL_SAMPLES)))
              (capture_entry w))
    as (fuel0 & evs & [nx buf] & w2 & Hloop).
  { pose proof (to_ulong_range (clk_src E (clk_n w))). unfold ULONG_MAX. lia. }
  destruct (record_loop_done E _ _ _ _ _ _ _ _ _ _ Hloop)
    as (Hevs & _ & _ & Hw2 & _).
  pose proof (record_loop_fills E _ _ _ _ _ _ _ _ _
                ltac:(now rewrite length_map, length_seq) Hloop) as Hbuf.
  assert (Hfs : fs_n w2 = fs_n w) by (rewrite Hw2; reflexivity).
  assert (Hmq : mqtt_n w2 = mqtt_n w) by (rewrite Hw2; reflexivity).
  exists fuel0,
    (if open_ok E (fs_n w2) then next_mqtt (next_wall (next_fs w2))
     else next_fs w2).
  split.
  - intros fuel Hle.
    rewrite (recordAndAlert_run E fuel amp w Hheap).
    rewrite (record_loop_mono E _ _ _ _ _ _ _ _ _ _ Hloop Hle).
    cbn [snd]. rewrite Hfs, Hmq, Hevs, Hbuf. reflexivity.
  - destruct (open_ok E (fs_n w2)); rewrite Hw2; repeat split; reflexivity.
Qed.

End Completed.

(** Every way [recordAndAlert] can go: no memory; still sampling when the
    fuel ran out; or sampled to the end and handed off. *)
Lemma recordAndAlert_cases (E : Env) (fuel : nat) (amp : Z) (w : World) :
  recordAndAlert E fuel amp w
  = (no_memory_events amp, Done tt (next_heap (next_wall w)))
  \/ (exists k : nat,
        recordAndAlert E fuel amp w
        = (capture_start_events amp ++ map EvAdc (samples E (adc_n w) k),
           OutOfFuel))
  \/ (exists buf opened sent w',
        recordAndAlert E fuel amp w
        = (capture_start_events amp
             ++ map EvAdc (samples E (adc_n w) (Z.to_nat TOTAL_SAMPLES))
             ++ handoff_events (wall_src E (wall_n w))
                     (wall_src E (S (wall_n w))) buf amp opened sent,
           Done tt w')
        /\ isRecording w' = isRecording w
        /\ adc_dc_offset w' = adc_dc_offset w).
Proof.
  destruct (heap_ok E (heap_n w)) eqn:Hheap.
  - right. rewrite (recordAndAlert_run E fuel amp w Hheap).
    destruct (record_loop E fuel (Z.to_nat TOTAL_SAMPLES) 0
                (to_ulong (clk_src E (clk_n w)))
                (map (heap_junk E) (seq 0 (Z.to_nat TOTAL_SAMPLES)))
                (capture_entry w)) as [evs [[nx buf] w2|]] eqn:Hloop.
    + right.
      destruct (record_loop_done E _ _ _ _ _ _ _ _ _ _ Hloop)
        as (-> & _ & _ & Hw2 & _).
      exists buf, (open_ok E (fs_n w2)), (mqtt_ok E (mqtt_n w2)).
      eexists. split; [reflexivity|].
      destruct (open_ok E (fs_n w2)); rewrite Hw2; split; reflexivity.
    + left.
      destruct (record_loop_events E fuel (Z.to_nat TOTAL_SAMPLES) 0
                  (to_ulong (clk_src E (clk_n w)))
                  (map (heap_junk E) (seq 0 (Z.to_nat TOTAL_SAMPLES)))
                  (capture_entry w)) as (k & _ & Hk).
      rewrite Hloop in Hk. cbn [events fst] in Hk. subst evs.
      exists k. reflexivity.
  - left. now apply recordAndAlert_no_memory.
Qed.

(* ------------------------------------------------------------------ *)
(** ** Monitors                                                        *)
(* ------------------------------------------------------------------ *)

Section Monitors.

Context {S : Type}.
Variable step : S -> Event -> option S.

Lemma monitor_app (s : S) (l1 l2 : list Event) :
  monitor step s (l1 ++ l2)
  = match monitor step s l1 with
    | Some s' => monitor step s' l2
    | None => None
    end.
Proof.
  revert s. induction l1 as [|e l1 IH]; intros s; [reflexivity|].
  cbn [app monitor]. destruct (step s e); [apply IH | reflexivity].
Qed.

(** A state that conversions leave alone survives any number of them. *)
Lemma monitor_adc (s : S) (xs : list Z) :
  (forall v, step s (EvAdc v) = Some s) ->
  monitor step s (map EvAdc xs) = Some s.
Proof.
  intros Hs. induction xs as [|x xs IH]; [reflexivity|].
  cbn [map monitor]. now rewrite Hs.
Qed.

End Monitors.

(** The monitors do reject logs that break their discipline. *)
Example guard_rejects_second_capture :
  monitor guard_step Armed
    [EvAdc 2600; EvFlag true; EvMalloc true; EvAdc 2600; EvFlag true] = None.
Proof. reflexivity. Qed.

Example guard_rejects_second_buffer :
  monitor guard_step Armed
    [EvAdc 2600; EvFlag true; EvMalloc true; EvAdc 2600; EvMalloc true] = None.
Proof. reflexivity. Qed.

Example guard_rejects_unlock_with_live_buffer :
  monitor guard_step Armed [EvFlag true; EvMalloc true; EvFlag false] = None.
Proof. reflexivity. Qed.

Example cooldown_rejects_early_poll :
  monitor cooldown_step Ready [EvFlag true; EvFlag false; EvAdc 2600] = None.
Proof. reflexivity. Qed.

Example cooldown_rejects_short_delay :
  monitor cooldown_step Ready [EvFlag true; EvFlag false; EvDelay 1] = None.
Proof. reflexivity. Qed.

Example handoff_rejects_alert_without_file :
  monitor handoff_step Unsaved [EvOpen 0 false; EvFree; EvPublish 0 1 552 true]
  = None.
Proof. reflexivity. Qed.

Example handoff_rejects_alert_before_close :
  monitor handoff_step Unsaved [EvWrite 0 [] 0; EvPublish 0 1 552 true] = None.
Proof. reflexivity. Qed.

(** Evaluation of a monitor over the explicit event lists of the sketch. *)
Ltac watch step :=
  cbn [events outcome fst snd];
  repeat first
    [ progress cbn [monitor step app no_memory_events capture_start_events
                    handoff_events stored_events open_failed_events Z.eqb Pos.eqb]
    | rewrite monitor_app
    | rewrite monitor_adc by reflexivity ].

Section Invariants.

Variable E : Env.

(** Under the lock [recordAndAlert] requests at most one buffer, samples only
    into it, frees it before returning, and leaves the lock to its caller. *)
Lemma recordAndAlert_guarded (fuel : nat) (amp : Z) (w : World) :
  exists ph,
    monitor guard_step Locked (events (recordAndAlert E fuel amp w)) = Some ph
    /\ (forall u w', outcome (recordAndAlert E fuel amp w) = Done u w' ->
          ph = Locked /\ isRecording w' = isRecording w).
Proof.
  destruct (recordAndAlert_cases E fuel amp w)
    as [H | [(k & H) | (buf & opened & sent & w' & H & Hflag & _)]];
    rewrite H.
  - exists Locked. watch guard_step. split; [reflexivity|].
    intros u w' Hd. inversion Hd. split; reflexivity.
  - exists Filling. watch guard_step. split; [reflexivity|]. intros u w' Hd.
    discriminate Hd.
  - exists Locked. destruct opened, sent; watch guard_step;
      (split; [reflexivity|]); intros u w'' Hd; inversion Hd; subst;
      split; (reflexivity || assumption).
Qed.

(** [recordAndAlert] never touches the lock, so it starts no cooldown. *)
Lemma recordAndAlert_no_cooldown (fuel : nat) (amp : Z) (w : World) :
  monitor cooldown_step Ready (events (recordAndAlert E fuel amp w)) = Some Ready.
Proof.
  destruct (recordAndAlert_cases E fuel amp w)
    as [H | [(k & H) | (buf & opened & sent & w' & H & _)]];
    rewrite H; [| |destruct opened, sent]; watch cooldown_step; reflexivity.
Qed.

(** [recordAndAlert] publishes only what it has written and closed. *)
Lemma recordAndAlert_handoff (fuel : nat) (amp : Z) (w : World) :
  exists st,
    monitor handoff_step Unsaved (events (recordAndAlert E fuel amp w)) = Some st.
Proof.
  destruct (recordAndAlert_cases E fuel amp w)
    as [H | [(k & H) | (buf & opened & sent & w' & H & _)]];
    rewrite H; [| |destruct opened, sent]; watch handoff_step; eauto.
Qed.

(** One pass through [loop] with the lock held: nothing is sampled. *)
Lemma loop_busy (fuel : nat) (w : World) :
  isRecording w = true ->
  loop E fuel w = ([EvNet; EvDelay 1], Done tt w).
Proof.
  intros Hbusy. unfold loop, housekeeping, delay. exec.
  rewrite Hbusy. cbn [negb]. exec. reflexivity.
Qed.

(** One pass through [loop] keeps the single-capture discipline and ends
    armed. *)
Lemma loop_guarded (fuel : nat) (w : World) :
  isRecording w = false ->
  exists ph,
    monitor guard_step Armed (events (loop E fuel w)) = Some ph
    /\ (forall u w', outcome (loop E fuel w) = Done u w' ->
          ph = Armed /\ isRecording w' = false).
Proof.
  intros Hfree.
  destruct (c_abs (int_sub (adc_src E (adc_n w)) (adc_dc_offset w))
              >? AMPLITUDE_THRESHOLD) eqn:Hcmp.
  - rewrite (loop_loud E fuel w Hfree Hcmp). cbv zeta.
    destruct (recordAndAlert_guarded fuel
                (c_abs (int_sub (adc_src E (adc_n w)) (adc_dc_offset w)))
                (with_flag true (next_adc w))) as (ph & Hph & Hdone).
    destruct (recordAndAlert E fuel _ (with_flag true (next_adc w)))
      as [evs [[] w'|]].
    + destruct (Hdone tt w' eq_refl) as (-> & _).
      exists Armed. cbn [events outcome fst snd] in *. watch guard_step.
      rewrite Hph. watch guard_step. split; [reflexivity|].
      intros u w'' Hd. inversion Hd. split; reflexivity.
    + exists ph. cbn [events outcome fst snd] in *. watch guard_step.
      rewrite Hph. split; [reflexivity|]. intros u w'' Hd. discriminate Hd.
  - rewrite (loop_quiet E fuel w Hfree Hcmp). exists Armed.
    watch guard_step. split; [reflexivity|].
    intros u w' Hd. inversion Hd. split; [reflexivity | exact Hfree].
Qed.

(** One pass through [loop] keeps the cooldown discipline. *)
Lemma loop_cooldown (fuel : nat) (w : World) :
  isRecording w = false ->
  monitor cooldown_step Ready (events (loop E fuel w)) = Some Ready
  /\ (forall u w', outcome (loop E fuel w) = Done u w' -> isRecording w' = false).
Proof.
  intros Hfree.
  destruct (c_abs (int_sub (adc_src E (adc_n w)) (adc_dc_offset w))
              >? AMPLITUDE_THRESHOLD) eqn:Hcmp.
  - rewrite (loop_loud E fuel w Hfree Hcmp). cbv zeta.
    pose proof (recordAndAlert_no_cooldown fuel
                  (c_abs (int_sub (adc_src E (adc_n w)) (adc_dc_offset w)))
                  (with_flag true (next_adc w))) as Hrec.
    destruct (recordAndAlert E fuel _ (with_flag true (next_adc w)))
      as [evs [[] w'|]]; cbn [events outcome fst snd] in *;
      watch cooldown_step; rewrite Hrec; watch cooldown_step;
      (split; [reflexivity|]); intros u w'' Hd; inversion Hd; reflexivity.
  - rewrite (loop_quiet E fuel w Hfree Hcmp). watch cooldown_step.
    split; [reflexivity|]. intros u w' Hd. inversion Hd. exact Hfree.
Qed.

(** A discipline that every pass keeps, and that every returning pass ends
    in its initial state with the lock free, is kept by any number of
    passes. *)
Lemma run_invariant {S : Type} (step : S -> Event -> option S) (s0 : S)
      (fuel : nat) :
  (forall w, isRecording w = false ->
     exists s, monitor step s0 (events (loop E fuel w)) = Some s
       /\ (forall u w', outcome (loop E fuel w) = Done u w' ->
             s = s0 /\ isRecording w' = false)) ->
  forall (n : nat) (w : World), isRecording w = false ->
    exists s, monitor step s0 (events (run E fuel n w)) = Some s
      /\ (forall u w', outcome (run E fuel n w) = Done u w' ->
            s = s0 /\ isRecording w' = false).
Proof.
  intros Hloop. induction n as [|n IH]; intros w Hfree.
  - exists s0. split; [reflexivity|]. intros u w' Hd. inversion Hd; subst.
    split; [reflexivity | exact Hfree].
  - cbn [run]. destruct (Hloop w Hfree) as (s & Hs & Hdone).
    destruct (loop E fuel w) as [e1 [[] w1|]] eqn:Hl.
    + destruct (Hdone tt w1 eq_refl) as (-> & Hfree1).
      rewrite (bind_done _ _ _ _ _ _ Hl), events_prepend, outcome_prepend.
      rewrite monitor_app. cbn [events fst] in Hs. rewrite Hs.
      apply IH, Hfree1.
    + rewrite (bind_out_of_fuel _ _ _ _ Hl). exists s. split; [exact Hs|].
      intros u w' Hd. discriminate Hd.
Qed.

End Invariants.

(* ------------------------------------------------------------------ *)
(** ** Calibration                                                     *)
(* ------------------------------------------------------------------ *)

Section Calibration.

Variable E : Env.

Lemma calibrate_loop_run (todo : nat) :
  forall (sum : Z) (w : World),
    calibrate_loop E todo sum w
    = (flat_map (fun v => [EvAdc v; EvDelay 1]) (samples E (adc_n w) todo),
       Done (fold_left long_add (samples E (adc_n w) todo) sum)
            (with_adc (adc_n w + todo)%nat w)).
Proof.
  induction todo as [|todo IH]; intros sum w.
  - cbn. rewrite Nat.add_0_r. now destruct w.
  - cbn [calibrate_loop]. unfold delay. exec. rewrite IH, samples_S.
    cbn [next_adc adc_n flat_map fold_left]. rewrite prepend_pair.
    cbn [app]. do 2 f_equal. unfold with_adc.
    cbn [adc_dc_offset isRecording clk_n wall_n heap_n fs_n mqtt_n].
    f_equal. lia.
Qed.

Lemma calibrateDCOffset_run (w : World) :
  let xs := samples E (adc_n w) CALIBRATION_SAMPLES in
  let offset := to_int (long_div (fold_left long_add xs 0) 1024) in
  calibrateDCOffset E w
  = (calibration_events xs offset,
     Done tt (with_offset offset (with_adc (adc_n w + CALIBRATION_SAMPLES)%nat w))).
Proof.
  intros xs offset. unfold calibrateDCOffset, serial. exec.
  rewrite (bind_done _ _ _ _ _ _ (calibrate_loop_run CALIBRATION_SAMPLES 0 w)).
  exec. unfold emit, prepend, calibration_events. cbn [fst snd].
  fold xs. fold offset. rewrite <- app_assoc. reflexivity.
Qed.

End Calibration.

Lemma sum_list_bounds (xs : list Z) :
  Forall adc_value_ok xs ->
  0 <= sum_list xs <= ADC_MAX * Z.of_nat (length xs).
Proof.
  unfold adc_value_ok.
  induction 1 as [|x xs Hx _ IH]; cbn [sum_list fold_right length]; [lia|].
  fold (sum_list xs). unfold ADC_MAX in *. lia.
Qed.

(** The 32-bit accumulator holds the exact sum as long as it has room for
    the conversions still to come. *)
Lemma fold_long_add_exact (xs : list Z) :
  Forall adc_value_ok xs ->
  forall sum : Z,
    0 <= sum -> sum + ADC_MAX * Z.of_nat (length xs) < 2 ^ 31 ->
    fold_left long_add xs sum = sum + sum_list xs.
Proof.
  unfold adc_value_ok, ADC_MAX.
  induction 1 as [|x xs Hx _ IH]; intros sum H0 Hroom;
    cbn [fold_left sum_list fold_right length] in *; [lia|].
  fold (sum_list xs).
  assert (Hadd : long_add sum x = sum + x).
  { unfold long_add, to_long. apply to_int_small. lia. }
  rewrite Hadd, IH; lia.
Qed.

Lemma samples_valid (E : Env) (k n : nat) :
  (forall j, (j < n)%nat -> adc_value_ok (adc_src E (k + j)%nat)) ->
  Forall adc_value_ok (samples E k n).
Proof.
  intros H. unfold samples. apply List.Forall_forall. intros x Hx.
  apply in_map_iff in Hx as (j & <- & Hj). apply in_seq in Hj. apply H. lia.
Qed.

(** A counter that advances by one at every poll is live. *)
Lemma ticking_clock_live (E : Env) (c : Z) :
  (forall k, clk_src E k = c + Z.of_nat k) -> clock_live E.
Proof.
  intros Hclk k d Hd. unfold ULONG_MAX in Hd.
  exists (Z.to_nat ((d - c - Z.of_nat k) mod 2 ^ 32)).
  rewrite Hclk. unfold to_ulong, wrap_unsigned.
  rewrite Nat2Z.inj_add, Z2Nat.id by (apply Z.mod_pos_bound; lia).
  replace (c + (Z.of_nat k + (d - c - Z.of_nat k) mod 2 ^ 32))
    with ((c + Z.of_nat k) + (d - c - Z.of_nat k) mod 2 ^ 32) by lia.
  rewrite Zplus_mod_idemp_r.
  replace (c + Z.of_nat k + (d - c - Z.of_nat k)) with d by lia.
  rewrite Z.mod_small; lia.
Qed.

Lemma bench_clock_live : clock_live bench.
Proof. apply (ticking_clock_live bench 0). reflexivity. Qed.

(** Conversion to [int16_t] only looks at the low 16 bits, so the 32-bit
    reductions of the intermediate [int] results do not show. *)
Lemma to_int16_to_int (z : Z) : to_int16 (to_int z) = to_int16 z.
Proof.
  unfold to_int16, to_int, wrap_signed.
  change (2 ^ (32 - 1)) with (2 ^ 31). change (2 ^ (16 - 1)) with (2 ^ 15).
  f_equal.
  rewrite (Z.mod_eq (z + 2 ^ 31) (2 ^ 32)) by lia.
  replace (z + 2 ^ 31 - 2 ^ 32 * ((z + 2 ^ 31) / 2 ^ 32) - 2 ^ 31 + 2 ^ 15)
    with (z + 2 ^ 15 + (- (2 ^ 16 * ((z + 2 ^ 31) / 2 ^ 32))) * 2 ^ 16) by lia.
  apply Z_mod_plus_full.
Qed.

Lemma scaled_wraps (raw dc : Z) :
  scaled raw dc = to_int16 ((raw - dc) * GAIN_FACTOR).
Proof.
  unfold scaled, int_mul, int_sub. rewrite to_int16_to_int.
  unfold to_int16, to_int, wrap_signed, GAIN_FACTOR.
  change (2 ^ (32 - 1)) with (2 ^ 31). change (2 ^ (16 - 1)) with (2 ^ 15).
  f_equal.
  rewrite (Z.mod_eq (raw - dc + 2 ^ 31) (2 ^ 32)) by lia.
  replace ((raw - dc + 2 ^ 31 - 2 ^ 32 * ((raw - dc + 2 ^ 31) / 2 ^ 32) - 2 ^ 31)
             * 8 + 2 ^ 15)
    with ((raw - dc) * 8 + 2 ^ 15
          + (- (2 ^ 19 * ((raw - dc + 2 ^ 31) / 2 ^ 32))) * 2 ^ 16) by lia.
  apply Z_mod_plus_full.
Qed.

Lemma loop_polls (E : Env) (fuel : nat) (w : World) :
  isRecording w = false ->
  exists tail,
    events (loop E fuel w) = EvNet :: EvAdc (adc_src E (adc_n w)) :: tail.
Proof.
  intros Hfree.
  destruct (c_abs (int_sub (adc_src E (adc_n w)) (adc_dc_offset w))
              >? AMPLITUDE_THRESHOLD) eqn:Hcmp.
  - rewrite (loop_loud E fuel w Hfree Hcmp). cbv zeta.
    destruct (outcome (recordAndAlert E fuel _ (with_flag true (next_adc w))));
      cbn [events fst app]; eauto.
  - rewrite (loop_quiet E fuel w Hfree Hcmp). cbn [events fst]. eauto.
Qed.

Lemma run_cooldown (E : Env) (fuel n : nat) :
  forall w, isRecording w = false ->
    monitor cooldown_step Ready (events (run E fuel n w)) = Some Ready.
Proof.
  induction n as [|n IH]; intros w Hfree; [reflexivity|].
  cbn [run]. destruct (loop_cooldown E fuel w Hfree) as (Hmon & Hdone).
  destruct (loop E fuel w) as [e1 [[] w1|]] eqn:Hl; cbn [events fst] in Hmon.
  - rewrite (bind_done _ _ _ _ _ _ Hl), events_prepend, monitor_app, Hmon.
    apply IH. now apply (Hdone tt w1).
  - now rewrite (bind_out_of_fuel _ _ _ _ Hl).
Qed.

(* ------------------------------------------------------------------ *)
(** ** Trigger threshold                                               *)
(* ------------------------------------------------------------------ *)

(** The scenarios of the specification, offset 2048 and threshold 500. *)
Example reading_2400_stays_armed :
  loop (bench_reading 2400) 0 armed_2048
  = ([EvNet; EvAdc 2400; EvDelay 1], Done tt (next_adc armed_2048)).
Proof. vm_compute. reflexivity. Qed.

Example reading_at_threshold_stays_armed :
  loop (bench_reading 2548) 0 armed_2048
  = ([EvNet; EvAdc 2548; EvDelay 1], Done tt (next_adc armed_2048))
  /\ loop (bench_reading 1548) 0 armed_2048
     = ([EvNet; EvAdc 1548; EvDelay 1], Done tt (next_adc armed_2048)).
Proof. split; vm_compute; reflexivity. Qed.

Example reading_past_threshold_triggers :
  events (loop (bench_reading 2549) 0 armed_2048)
  = [EvNet; EvAdc 2549; EvFlag true] ++ capture_start_events 501
  /\ events (loop (bench_reading 1547) 0 armed_2048)
     = [EvNet; EvAdc 1547; EvFlag true] ++ capture_start_events 501.
Proof. split; vm_compute; reflexivity. Qed.

(** C1. While the pipeline is armed ([isRecording] false), for every
    calibrated offset and every conversion of the 12-bit ADC, one pass
    through [loop] takes the lock and starts a capture if and only if
    |sample - DCOffset| > 500. At exactly 500 nothing is triggered; at or
    below 500 the pass consists of the one conversion and leaves the
    pipeline armed; above 500 [recordAndAlert] is entered with that
    amplitude. *)
Theorem trigger_iff_amplitude_exceeds_threshold
        (E : Env) (fuel : nat) (w : World) :
  isRecording w = false ->
  adc_value_ok (adc_dc_offset w) ->
  adc_value_ok (adc_src E (adc_n w)) ->
  let sample := adc_src E (adc_n w) in
  let amplitude := Z.abs (sample - adc_dc_offset w) in
  (capture_triggered (events (loop E fuel w)) = true
   <-> amplitude > AMPLITUDE_THRESHOLD)
  /\ (amplitude = AMPLITUDE_THRESHOLD ->
      capture_triggered (events (loop E fuel w)) = false)
  /\ (amplitude <= AMPLITUDE_THRESHOLD ->
      loop E fuel w = ([EvNet; EvAdc sample; EvDelay 1], Done tt (next_adc w)))
  /\ (amplitude > AMPLITUDE_THRESHOLD ->
      exists tail,
        events (loop E fuel w)
        = [EvNet; EvAdc sample; EvFlag true]
            ++ events (recordAndAlert E fuel amplitude
                         (with_flag true (next_adc w)))
            ++ tail).
Proof.
  intros Hfree Hdc Hs sample amplitude.
  pose proof (amplitude_exact _ _ Hs Hdc) as Hamp.
  fold sample in Hamp. fold amplitude in Hamp.
  destruct (amplitude >? AMPLITUDE_THRESHOLD) eqn:Hcmp.
  - assert (Hgt : amplitude > AMPLITUDE_THRESHOLD).
    { rewrite Z.gtb_ltb in Hcmp. apply Z.ltb_lt in Hcmp. lia. }
    assert (Hloud := loop_loud E fuel w Hfree).
    fold sample in Hloud. rewrite Hamp in Hloud. specialize (Hloud Hcmp).
    cbv zeta in Hloud.
    assert (Hev : exists tail,
               events (loop E fuel w)
               = [EvNet; EvAdc sample; EvFlag true]
                   ++ events (recordAndAlert E fuel amplitude
                                (with_flag true (next_adc w))) ++ tail).
    { rewrite Hloud.
      destruct (outcome (recordAndAlert E fuel amplitude
                           (with_flag true (next_adc w)))).
      - eexists. reflexivity.
      - exists []. now rewrite app_nil_r. }
    destruct Hev as (tail & Hev).
    assert (Htrig : capture_triggered (events (loop E fuel w)) = true).
    { rewrite Hev. unfold capture_triggered.
      cbn [app existsb is_lock orb]. reflexivity. }
    repeat split; try (intros; lia); try (intros; assumption).
    exists tail. exact Hev.
  - assert (Hle : amplitude <= AMPLITUDE_THRESHOLD).
    { rewrite Z.gtb_ltb in Hcmp. apply Z.ltb_ge in Hcmp. lia. }
    assert (Hquiet := loop_quiet E fuel w Hfree).
    fold sample in Hquiet. rewrite Hamp in Hquiet. specialize (Hquiet Hcmp).
    assert (Htrig : capture_triggered (events (loop E fuel w)) = false).
    { rewrite Hquiet. reflexivity. }
    repeat split; try (intros; lia); try (intros; assumption).
    intros Htrue. rewrite Htrig in Htrue. discriminate Htrue.
Qed.

Lemma trigger_iff_amplitude_exceeds_threshold_witness :
  isRecording armed_2048 = false
  /\ adc_value_ok (adc_dc_offset armed_2048)
  /\ adc_value_ok (adc_src bench_loud (adc_n armed_2048))
  /\ capture_triggered (events (loop bench_loud 200 armed_2048)) = true
  /\ loop bench 200 armed_2048 = ([EvNet; EvAdc 2048; EvDelay 1],
                                  Done tt (next_adc armed_2048)).
Proof.
  assert (H0 : isRecording armed_2048 = false) by reflexivity.
  assert (H1 : adc_value_ok (adc_dc_offset armed_2048))
    by (unfold adc_value_ok, ADC_MAX; cbn; lia).
  assert (H2 : adc_value_ok (adc_src bench_loud (adc_n armed_2048)))
    by (unfold adc_value_ok, ADC_MAX; cbn; lia).
  assert (H3 : adc_value_ok (adc_src bench (adc_n armed_2048)))
    by (unfold adc_value_ok, ADC_MAX; cbn; lia).
  split; [exact H0|]. split; [exact H1|]. split; [exact H2|]. split.
  - apply (trigger_iff_amplitude_exceeds_threshold bench_loud 200 armed_2048
             H0 H1 H2).
    unfold AMPLITUDE_THRESHOLD. cbn. lia.
  - apply (trigger_iff_amplitude_exceeds_threshold bench 200 armed_2048
             H0 H1 H3).
    unfold AMPLITUDE_THRESHOLD. cbn. lia.
Defined.

(* ------------------------------------------------------------------ *)
(** ** Capture                                                         *)
(* ------------------------------------------------------------------ *)

Example scaled_at_full_scale :
  scaled 4095 0 = 32760 /\ scaled 0 4095 = -32760 /\ scaled 2600 2048 = 4416.
Proof. repeat split. Qed.

Example scaled_wraps_past_int16 :
  scaled 5000 0 = 40000 - 2 ^ 16 /\ scaled 0 5000 = 2 ^ 16 - 40000.
Proof. split; reflexivity. Qed.

Example three_samples_on_the_bench :
  record_loop bench 200 3 0 1 [7; 7; 7; 7] (capture_entry armed_2048)
  = ([EvAdc 2048; EvAdc 2049; EvAdc 2050],
     Done (376, [0; 8; 16; 7])
          (with_clk 252 (with_adc 3 (capture_entry armed_2048)))).
Proof. vm_compute. reflexivity. Qed.

Example wait_longer_than_the_fuel :
  record_loop bench 100 3 0 1 [7; 7; 7; 7] (capture_entry armed_2048)
  = ([EvAdc 2048], OutOfFuel).
Proof. vm_compute. reflexivity. Qed.

Lemma TOTAL_SAMPLES_value : TOTAL_SAMPLES = 24000.
Proof. reflexivity. Qed.

Lemma total_samples_nat : Z.of_nat (Z.to_nat TOTAL_SAMPLES) = 24000.
Proof. rewrite TOTAL_SAMPLES_value. apply Z2Nat.id. lia. Qed.

(** C2. Whatever trigger amplitude is passed in, once the buffer has been
    allocated (and the microsecond counter keeps counting) [recordAndAlert]
    returns, having taken exactly one conversion for each of the
    SAMPLE_RATE * RECORD_DURATION_SECONDS = 24000 iterations of its loop,
    none skipped and none cut short, and hands off a buffer of exactly
    24000 elements. *)
Theorem capture_fills_whole_buffer (E : Env) (amp : Z) (w : World) :
  clock_live E ->
  heap_ok E (heap_n w) = true ->
  exists (fuel0 : nat) (w' : World),
    (forall fuel, (fuel0 <= fuel)%nat ->
       recordAndAlert E fuel amp w
       = (capture_start_events amp
            ++ map EvAdc (samples E (adc_n w) (Z.to_nat TOTAL_SAMPLES))
            ++ handoff_events (wall_src E (wall_n w))
                    (wall_src E (S (wall_n w))) (captured E w) amp
                 (open_ok E (fs_n w)) (mqtt_ok E (mqtt_n w)),
          Done tt w'))
    /\ Z.of_nat (length (captured E w)) = SAMPLE_RATE * RECORD_DURATION_SECONDS
    /\ Z.of_nat (length (captured E w)) = 24000
    /\ Z.of_nat (length (samples E (adc_n w) (Z.to_nat TOTAL_SAMPLES))) = 24000
    /\ Z.of_nat (adc_n w') = Z.of_nat (adc_n w) + 24000.
Proof.
  intros Hlive Hheap.
  destruct (recordAndAlert_captures E Hlive amp w Hheap)
    as (fuel0 & w' & Hrun & Hadc & _).
  exists fuel0, w'.
  assert (Hlen : Z.of_nat (length (captured E w)) = 24000).
  { unfold captured. rewrite length_map, samples_length.
    exact total_samples_nat. }
  split; [exact Hrun|]. split; [rewrite Hlen; reflexivity|].
  split; [exact Hlen|]. split.
  - rewrite samples_length. exact total_samples_nat.
  - now rewrite Hadc, Nat2Z.inj_add, total_samples_nat.
Qed.

Lemma capture_fills_whole_buffer_witness :
  clock_live bench_loud
  /\ heap_ok bench_loud (heap_n armed_2048) = true
  /\ exists (fuel0 : nat) (w' : World),
       (forall fuel, (fuel0 <= fuel)%nat ->
          outcome (recordAndAlert bench_loud fuel 552 armed_2048) = Done tt w')
       /\ Z.of_nat (length (captured bench_loud armed_2048)) = 24000.
Proof.
  assert (Hlive : clock_live bench_loud)
    by (apply (ticking_clock_live bench_loud 0); reflexivity).
  split; [exact Hlive|]. split; [reflexivity|].
  destruct (capture_fills_whole_buffer bench_loud 552 armed_2048 Hlive eq_refl)
    as (fuel0 & w' & Hrun & _ & Hlen & _).
  exists fuel0, w'. split; [|exact Hlen].
  intros fuel Hle. now rewrite (Hrun fuel Hle).
Defined.

(** C3, as the code has it. Within one capture the deadline waited for
    before the sample of index i is (start + i * period) mod 2^32: the
    deadline is an [unsigned long] advanced by one period per iteration
    from the previous deadline, whatever the clock reads in between, so any
    two runs from the same start time have the same deadlines. It equals
    start + i * period as long as that sum stays within 32 bits. The period
    is round(1,000,000 / SAMPLE_RATE) = 125 microseconds. On a counter that
    keeps counting every deadline is reached. *)
Theorem deadlines_advance_by_one_period
        (E : Env) (fuel i : nat) (start : Z) (block : list Z) (w : World) (d : Z) :
  0 <= start <= ULONG_MAX ->
  deadline_of_sample E fuel i start block w = Some d ->
  d = (start + Z.of_nat i * SAMPLING_PERIOD_US) mod 2 ^ 32
  /\ (start + Z.of_nat i * SAMPLING_PERIOD_US <= ULONG_MAX ->
      d = start + Z.of_nat i * SAMPLING_PERIOD_US)
  /\ (forall d', deadline_of_sample E fuel (S i) start block w = Some d' ->
        d' = (d + SAMPLING_PERIOD_US) mod 2 ^ 32)
  /\ (forall E' fuel' block' w' d',
        deadline_of_sample E' fuel' i start block' w' = Some d' -> d' = d)
  /\ (clock_live E ->
      exists fuel1 d1, deadline_of_sample E fuel1 (S i) start block w = Some d1)
  /\ SAMPLING_PERIOD_US = c_round 1000000 SAMPLE_RATE
  /\ SAMPLING_PERIOD_US = 125.
Proof.
  assert (Hclosed : forall E0 fuel0 i0 block0 w0 d0,
             0 <= start <= ULONG_MAX ->
             deadline_of_sample E0 fuel0 i0 start block0 w0 = Some d0 ->
             d0 = (start + Z.of_nat i0 * SAMPLING_PERIOD_US) mod 2 ^ 32).
  { intros E0 fuel0 i0 block0 w0 d0 Hs Hd. unfold deadline_of_sample in Hd.
    destruct (record_loop E0 fuel0 i0 0 start block0 w0)
      as [evs [[nx buf] w1|]] eqn:Hloop; [|discriminate Hd].
    inversion Hd; subst.
    exact (record_loop_deadline E0 _ _ _ _ _ _ _ _ _ _ Hs Hloop). }
  intros Hstart Hd. pose proof (Hclosed _ _ _ _ _ _ Hstart Hd) as Hi.
  split; [exact Hi|]. split.
  { intros Hfit. rewrite Hi. apply Z.mod_small.
    assert (HP : SAMPLING_PERIOD_US = 125) by reflexivity.
    rewrite HP in *. unfold ULONG_MAX in *. lia. }
  split.
  { intros d' Hd'. rewrite (Hclosed _ _ _ _ _ _ Hstart Hd'), Hi.
    rewrite Zplus_mod_idemp_l. f_equal. lia. }
  split.
  { intros E' fuel' block' w' d' Hd'.
    now rewrite (Hclosed _ _ _ _ _ _ Hstart Hd'), Hi. }
  split; [|split; reflexivity].
  intros Hlive.
  destruct (record_loop_total E (S i) Hlive 0 start block w Hstart)
    as (fuel1 & evs & [d1 buf] & w1 & Hloop).
  exists fuel1, d1. unfold deadline_of_sample. now rewrite Hloop.
Qed.

Lemma deadlines_advance_by_one_period_witness :
  0 <= 1 <= ULONG_MAX
  /\ deadline_of_sample bench 200 3 1 [0; 0; 0] (capture_entry armed_2048)
     = Some 376
  /\ 376 = 1 + 3 * SAMPLING_PERIOD_US.
Proof.
  assert (Hs : 0 <= 1 <= ULONG_MAX) by (unfold ULONG_MAX; lia).
  assert (Hd : deadline_of_sample bench 200 3 1 [0; 0; 0]
                 (capture_entry armed_2048) = Some 376) by (vm_compute; reflexivity).
  split; [exact Hs|]. split; [exact Hd|].
  apply (deadlines_advance_by_one_period bench 200 3 1 [0; 0; 0]
           (capture_entry armed_2048) 376 Hs Hd).
  vm_compute. discriminate.
Defined.

(** C3 as stated fails when the counter of [micros()] is about to start
    over: a capture that starts at 4294967200 waits for its second sample
    until the counter reads 29, not 4294967200 + 125. *)
Lemma deadline_wraps_with_the_counter :
  let start := to_ulong (clk_src bench_late (clk_n armed_2048)) in
  start = 4294967200
  /\ deadline_of_sample bench_late 10 1 start [0; 0] (capture_entry armed_2048)
     = Some 29
  /\ 29 <> start + 1 * SAMPLING_PERIOD_US.
Proof.
  cbv zeta. split; [reflexivity|]. split; [vm_compute; reflexivity|].
  vm_compute. discriminate.
Qed.

(** C4. The buffer a capture fills, and hands to the file when the file
    opens, holds at index j the value (raw_j - DCOffset) * GAIN_FACTOR
    converted to [int16_t], where raw_j is the j-th conversion of the
    capture: the value congruent to the product modulo 2^16 that lies in
    [-32768, 32767]. Whenever the product fits that range the element is
    exactly (raw_j - DCOffset) * 8, and the products of 12-bit conversions
    and a 12-bit offset always fit. *)
Theorem stored_samples_are_scaled_and_wrapped (E : Env) (amp : Z) (w : World) :
  clock_live E ->
  heap_ok E (heap_n w) = true ->
  (exists (fuel0 : nat) (w' : World),
     forall fuel, (fuel0 <= fuel)%nat ->
       recordAndAlert E fuel amp w
       = (capture_start_events amp
            ++ map EvAdc (samples E (adc_n w) (Z.to_nat TOTAL_SAMPLES))
            ++ handoff_events (wall_src E (wall_n w))
                    (wall_src E (S (wall_n w))) (captured E w) amp
                 (open_ok E (fs_n w)) (mqtt_ok E (mqtt_n w)),
          Done tt w'))
  /\ (forall fuel evs nx buf w2,
        record_loop E fuel (Z.to_nat TOTAL_SAMPLES) 0
          (to_ulong (clk_src E (clk_n w)))
          (map (heap_junk E) (seq 0 (Z.to_nat TOTAL_SAMPLES)))
          (capture_entry w) = (evs, Done (nx, buf) w2) ->
        buf = captured E w)
  /\ (forall j : nat, (j < Z.to_nat TOTAL_SAMPLES)%nat ->
        let raw := adc_src E (adc_n w + j)%nat in
        let product := (raw - adc_dc_offset w) * GAIN_FACTOR in
        captured E w !! j = Some (to_int16 product)
        /\ (to_int16 product - product) mod 2 ^ 16 = 0
        /\ - 2 ^ 15 <= to_int16 product < 2 ^ 15
        /\ (- 2 ^ 15 <= product < 2 ^ 15 ->
            captured E w !! j = Some ((raw - adc_dc_offset w) * 8))
        /\ (adc_value_ok raw -> adc_value_ok (adc_dc_offset w) ->
            captured E w !! j = Some ((raw - adc_dc_offset w) * 8))).
Proof.
  intros Hlive Hheap. split; [|split].
  { destruct (recordAndAlert_captures E Hlive amp w Hheap)
      as (fuel0 & w' & Hrun & _).
    exists fuel0, w'. exact Hrun. }
  { intros fuel evs nx buf w2 Hloop.
    apply (record_loop_fills E _ _ _ _ _ _ _ _ _
             ltac:(now rewrite length_map, length_seq) Hloop). }
  intros j Hj raw product.
  assert (Hcell : captured E w !! j = Some (to_int16 product)).
  { unfold captured.
    rewrite (map_lookup_Some (fun raw => scaled raw (adc_dc_offset w))
               _ j raw (samples_lookup E _ _ _ Hj)).
    now rewrite scaled_wraps. }
  assert (Hfits : - 2 ^ 15 <= product < 2 ^ 15 ->
                  captured E w !! j = Some ((raw - adc_dc_offset w) * 8)).
  { intros Hp. rewrite Hcell. now rewrite (to_int16_small product Hp). }
  split; [exact Hcell|]. split.
  { unfold to_int16, wrap_signed. change (2 ^ (16 - 1)) with (2 ^ 15).
    rewrite (Z.mod_eq (product + 2 ^ 15) (2 ^ 16)) by lia.
    replace (product + 2 ^ 15 - 2 ^ 16 * ((product + 2 ^ 15) / 2 ^ 16)
             - 2 ^ 15 - product)
      with ((- ((product + 2 ^ 15) / 2 ^ 16)) * 2 ^ 16) by lia.
    apply Z_mod_mult. }
  split.
  { unfold to_int16, wrap_signed. change (2 ^ (16 - 1)) with (2 ^ 15).
    pose proof (Z.mod_pos_bound (product + 2 ^ 15) (2 ^ 16)). lia. }
  split; [exact Hfits|].
  intros Hraw Hdc. apply Hfits.
  unfold adc_value_ok, ADC_MAX in *. subst product. unfold GAIN_FACTOR. lia.
Qed.

Lemma stored_samples_are_scaled_and_wrapped_witness :
  clock_live bench_loud
  /\ heap_ok bench_loud (heap_n armed_2048) = true
  /\ captured bench_loud armed_2048 !! 7%nat = Some ((2600 - 2048) * 8).
Proof.
  assert (Hlive : clock_live bench_loud)
    by (apply (ticking_clock_live bench_loud 0); reflexivity).
  split; [exact Hlive|]. split; [reflexivity|].
  destruct (stored_samples_are_scaled_and_wrapped bench_loud 552 armed_2048
              Hlive eq_refl) as (_ & _ & Hcells).
  assert (Hj : (7 < Z.to_nat TOTAL_SAMPLES)%nat)
    by (rewrite TOTAL_SAMPLES_value; lia).
  destruct (Hcells 7%nat Hj) as (_ & _ & _ & Hfits & _).
  assert (Hp : - 2 ^ 15
               <= (adc_src bench_loud (adc_n armed_2048 + 7)
                   - adc_dc_offset armed_2048) * GAIN_FACTOR < 2 ^ 15)
    by (change (- 2 ^ 15 <= (2600 - 2048) * 8 < 2 ^ 15); lia).
  exact (Hfits Hp).
Defined.

(* ------------------------------------------------------------------ *)
(** ** Calibration                                                     *)
(* ------------------------------------------------------------------ *)

(** Integer division of the exact sum: what the accumulator and the final
    division of [calibrateDCOffset] compute on 12-bit conversions. *)
Lemma truncated_mean_exact (xs : list Z) :
  Forall adc_value_ok xs -> length xs = 1024%nat ->
  to_int (long_div (fold_left long_add xs 0) 1024) = sum_list xs / 1024
  /\ 1024 * (sum_list xs / 1024) <= sum_list xs < 1024 * (sum_list xs / 1024) + 1024
  /\ adc_value_ok (sum_list xs / 1024).
Proof.
  intros Hxs Hlen.
  pose proof (sum_list_bounds xs Hxs) as Hsum.
  pose proof (fold_long_add_exact xs Hxs 0) as Hacc.
  rewrite Hlen in Hsum, Hacc. unfold ADC_MAX in Hsum, Hacc.
  replace (Z.of_nat 1024) with 1024 in Hsum, Hacc by reflexivity.
  rewrite Hacc by lia. rewrite Z.add_0_l.
  pose proof (Z.mul_div_le (sum_list xs) 1024).
  pose proof (Z.mul_succ_div_gt (sum_list xs) 1024).
  assert (Hq : 0 <= sum_list xs / 1024 <= 4095).
  { split; [apply Z.div_pos; lia|].
    apply Z.lt_succ_r, Z.div_lt_upper_bound; lia. }
  split; [|split; [lia | unfold adc_value_ok, ADC_MAX; lia]].
  unfold long_div, to_long. rewrite Z.quot_div_nonneg by lia.
  change (wrap_signed 32) with to_int.
  rewrite (to_int_small (sum_list xs / 1024)) by lia.
  apply to_int_small. lia.
Qed.

(** C5, as the code has it. For every sequence of 1024 conversions of the
    12-bit ADC, [calibrateDCOffset] returns and leaves in [adc_dc_offset]
    the mean of those conversions truncated to an integer: the quotient of
    their sum by 1024 in integer division, the largest integer not above
    the mean. The result is again a 12-bit value. *)
Theorem calibration_returns_truncated_mean (E : Env) (w : World) :
  (forall j, (j < CALIBRATION_SAMPLES)%nat ->
             adc_value_ok (adc_src E (adc_n w + j)%nat)) ->
  let xs := samples E (adc_n w) CALIBRATION_SAMPLES in
  exists w',
    calibrateDCOffset E w
    = (calibration_events xs (sum_list xs / 1024), Done tt w')
    /\ calibrated_offset E w = Some (sum_list xs / 1024)
    /\ adc_dc_offset w' = sum_list xs / 1024
    /\ 1024 * adc_dc_offset w' <= sum_list xs < 1024 * adc_dc_offset w' + 1024
    /\ adc_value_ok (adc_dc_offset w')
    /\ length xs = 1024%nat.
Proof.
  intros Hok. cbv zeta.
  pose proof (samples_valid E _ _ Hok) as Hxs.
  pose proof (samples_length E (adc_n w) CALIBRATION_SAMPLES) as Hlen.
  pose proof (calibrateDCOffset_run E w) as Hrun. cbv zeta in Hrun.
  unfold calibrated_offset.
  remember (samples E (adc_n w) CALIBRATION_SAMPLES) as xs eqn:Hxsdef.
  change CALIBRATION_SAMPLES with 1024%nat in Hlen.
  destruct (truncated_mean_exact xs Hxs Hlen) as (Hoff & Hfloor & Hrange).
  rewrite Hoff in Hrun. rewrite Hrun.
  eexists. split; [reflexivity|].
  cbn [outcome snd with_offset adc_dc_offset].
  split; [reflexivity|]. split; [reflexivity|]. split; [exact Hfloor|].
  split; [exact Hrange | exact Hlen].
Qed.

Lemma bench_conversions_valid (k : nat) : adc_value_ok (adc_src bench k).
Proof.
  unfold adc_value_ok, ADC_MAX. cbn [adc_src bench].
  pose proof (Nat.mod_upper_bound k 4). lia.
Qed.

Lemma calibration_returns_truncated_mean_witness :
  (forall j, (j < CALIBRATION_SAMPLES)%nat ->
             adc_value_ok (adc_src bench (adc_n power_on + j)%nat))
  /\ calibrated_offset bench power_on = Some 2049.
Proof.
  assert (H : forall j, (j < CALIBRATION_SAMPLES)%nat ->
                adc_value_ok (adc_src bench (adc_n power_on + j)%nat))
    by (intros j _; apply bench_conversions_valid).
  split; [exact H|].
  destruct (calibration_returns_truncated_mean bench power_on H)
    as (w' & _ & Hoff & _).
  rewrite Hoff. vm_compute. reflexivity.
Defined.

(** C5 as stated fails: with 256 conversions reading 2048 and 768 reading
    2049 the mean is 2048.75, whose nearest integer is 2049; the calibration
    leaves 2048. *)
Lemma calibration_is_not_rounded :
  let xs := samples bench_bias (adc_n power_on) CALIBRATION_SAMPLES in
  length xs = 1024%nat
  /\ sum_list xs = 2048 * 1024 + 768
  /\ spec_rounded_mean xs = 2049
  /\ calibrated_offset bench_bias power_on = Some 2048
  /\ calibrated_offset bench_bias power_on <> Some (spec_rounded_mean xs).
Proof.
  cbv zeta.
  split; [vm_compute; reflexivity|]. split; [vm_compute; reflexivity|].
  split; [vm_compute; reflexivity|]. split; [vm_compute; reflexivity|].
  vm_compute. discriminate.
Qed.

(** C9. The offset a calibration leaves depends only on the 1024
    conversions it reads: two calibrations that read the same sequence --
    in whatever state they start, in particular a second one started where
    a first one ended -- return, print the same and leave the same
    [adc_dc_offset]. *)
Theorem calibration_is_repeatable (E1 E2 : Env) (w1 w2 : World) :
  samples E1 (adc_n w1) CALIBRATION_SAMPLES
  = samples E2 (adc_n w2) CALIBRATION_SAMPLES ->
  exists evs w1' w2',
    calibrateDCOffset E1 w1 = (evs, Done tt w1')
    /\ calibrateDCOffset E2 w2 = (evs, Done tt w2')
    /\ adc_dc_offset w1' = adc_dc_offset w2'
    /\ calibrated_offset E1 w1 = calibrated_offset E2 w2.
Proof.
  intros Hsame.
  pose proof (calibrateDCOffset_run E1 w1) as H1.
  pose proof (calibrateDCOffset_run E2 w2) as H2.
  cbv zeta in H1, H2. rewrite <- Hsame in H2.
  do 3 eexists. split; [exact H1|]. split; [exact H2|].
  split; [cbn [with_offset adc_dc_offset]; reflexivity|].
  unfold calibrated_offset. rewrite H1, H2.
  cbn [outcome snd with_offset adc_dc_offset]. reflexivity.
Qed.

Lemma calibration_is_repeatable_witness :
  samples bench (adc_n power_on) CALIBRATION_SAMPLES
  = samples bench (adc_n (with_offset 2049 (with_adc 1024 power_on)))
      CALIBRATION_SAMPLES
  /\ calibrated_offset bench power_on
     = calibrated_offset bench (with_offset 2049 (with_adc 1024 power_on)).
Proof.
  assert (H : samples bench (adc_n power_on) CALIBRATION_SAMPLES
              = samples bench (adc_n (with_offset 2049 (with_adc 1024 power_on)))
                  CALIBRATION_SAMPLES) by (vm_compute; reflexivity).
  split; [exact H|].
  destruct (calibration_is_repeatable bench bench power_on
              (with_offset 2049 (with_adc 1024 power_on)) H)
    as (evs & w1' & w2' & _ & _ & _ & Heq).
  exact Heq.
Defined.

(* ------------------------------------------------------------------ *)
(** ** Lock, cooldown and failures                                     *)
(* ------------------------------------------------------------------ *)

(** A pass while armed on a loud sample, as the code runs it: the flag is
    stored, then [recordAndAlert] and the rest of the pass run in the state
    with the flag set. *)
Lemma loop_takes_the_lock (E : Env) (fuel : nat) (w : World) :
  isRecording w = false ->
  (c_abs (int_sub (adc_src E (adc_n w)) (adc_dc_offset w)) >? AMPLITUDE_THRESHOLD) = true ->
  loop E fuel w
  = prepend [EvNet; EvAdc (adc_src E (adc_n w)); EvFlag true]
      ((recordAndAlert E fuel (c_abs (int_sub (adc_src E (adc_n w)) (adc_dc_offset w))) ;;
        set_recording false ;; delay 2000 ;; delay 1)
         (with_flag true (next_adc w))).
Proof.
  intros Hfree Hcmp. unfold loop, housekeeping. exec.
  rewrite Hfree. cbn [negb]. exec.
  cbn [next_adc adc_dc_offset]. rewrite Hcmp. exec. reflexivity.
Qed.

(** The sampling loop never writes the flag. *)
Lemma record_loop_keeps_the_lock (E : Env) (fuel todo i : nat) (next : Z)
      (buf : list Z) (w : World) evs r w' :
  record_loop E fuel todo i next buf w = (evs, Done r w') ->
  isRecording w' = isRecording w.
Proof.
  intros Hr. destruct r as [next' buf'].
  destruct (record_loop_done E _ _ _ _ _ _ _ _ _ _ Hr) as (_ & _ & _ & -> & _).
  reflexivity.
Qed.

Lemma events_bind_prefix {A B} (m : M A) (k : A -> M B) (w : World) :
  exists tail, events (bind m k w) = events (m w) ++ tail.
Proof.
  unfold bind, events. destruct (m w) as [e1 [a w1|]]; cbn [fst].
  - destruct (k a w1) as [e2 o]. now exists e2.
  - exists []. now rewrite app_nil_r.
Qed.

(** With memory for the buffer, [recordAndAlert] begins with its two
    lines, the successful allocation and the report of the capture. *)
Lemma recordAndAlert_starts (E : Env) (fuel : nat) (amp : Z) (w : World) :
  heap_ok E (heap_n w) = true ->
  exists tail,
    events (recordAndAlert E fuel amp w) = capture_start_events amp ++ tail.
Proof.
  intros Hheap. rewrite (recordAndAlert_run E fuel amp w Hheap).
  destruct (record_loop E fuel (Z.to_nat TOTAL_SAMPLES) 0 _ _ _)
    as [evs [filled w2|]]; cbn [events fst]; eauto.
Qed.

(** C6. Over any number of passes through [loop] starting with the lock
    free, the single-capture discipline is kept. In the event log: the
    lock ([isRecording]) is taken before a buffer is requested, at most
    one buffer is alive at any time, the lock is released only after
    [recordAndAlert] is over and the buffer freed, and every pass that
    returns leaves the lock free. In the state: a pass that triggers
    stores the flag before it does anything else, [recordAndAlert] and the
    release run in the state with [isRecording] set, the flag is still set
    after every iteration of the sampling loop and when [recordAndAlert]
    returns, and it is cleared only by the assignment that follows. A pass
    entered with the flag set takes no conversion, evaluates no trigger and
    starts no capture. *)
Theorem single_capture_invariant (E : Env) (fuel n : nat) (w : World) :
  isRecording w = false ->
  (exists ph,
     monitor guard_step Armed (events (run E fuel n w)) = Some ph
     /\ (forall u w', outcome (run E fuel n w) = Done u w' ->
           ph = Armed /\ isRecording w' = false))
  /\ (forall amp w0, isRecording w0 = true ->
        exists ph,
          monitor guard_step Locked (events (recordAndAlert E fuel amp w0))
          = Some ph
          /\ (forall u w', outcome (recordAndAlert E fuel amp w0) = Done u w' ->
                ph = Locked /\ isRecording w' = true))
  /\ (forall w0, isRecording w0 = true ->
        loop E fuel w0 = ([EvNet; EvDelay 1], Done tt w0))
  /\ (forall w0,
        isRecording w0 = false ->
        (c_abs (int_sub (adc_src E (adc_n w0)) (adc_dc_offset w0))
           >? AMPLITUDE_THRESHOLD) = true ->
        let amplitude := c_abs (int_sub (adc_src E (adc_n w0)) (adc_dc_offset w0)) in
        let busy := with_flag true (next_adc w0) in
        isRecording busy = true
        /\ loop E fuel w0
           = prepend [EvNet; EvAdc (adc_src E (adc_n w0)); EvFlag true]
               ((recordAndAlert E fuel amplitude ;;
                 set_recording false ;; delay 2000 ;; delay 1) busy)
        /\ (forall u w', outcome (recordAndAlert E fuel amplitude busy) = Done u w' ->
              isRecording w' = true
              /\ outcome (loop E fuel w0) = Done tt (with_flag false w')
              /\ isRecording (with_flag false w') = false))
  /\ (forall w0 todo i next buf evs r w',
        isRecording w0 = true ->
        record_loop E fuel todo i next buf w0 = (evs, Done r w') ->
        isRecording w' = true).
Proof.
  intros Hfree. split; [|split; [|split; [|split]]].
  - apply run_invariant; [|exact Hfree]. intros w0. apply loop_guarded.
  - intros amp w0 Hbusy.
    destruct (recordAndAlert_guarded E fuel amp w0) as (ph & Hph & Hdone).
    exists ph. split; [exact Hph|]. intros u w' Hd.
    destruct (Hdone u w' Hd) as (-> & Hflag). split; [reflexivity|congruence].
  - intros w0. apply loop_busy.
  - intros w0 Hfree0 Hcmp amplitude busy.
    split; [reflexivity|]. split; [exact (loop_takes_the_lock E fuel w0 Hfree0 Hcmp)|].
    intros u w' Hd.
    destruct (recordAndAlert_guarded E fuel amplitude busy) as (ph & _ & Hdone).
    destruct (Hdone u w' Hd) as (_ & Hflag).
    split; [rewrite Hflag; reflexivity|]. split; [|reflexivity].
    pose proof (loop_loud E fuel w0 Hfree0 Hcmp) as Hloud. cbv zeta in Hloud.
    fold amplitude in Hloud. fold busy in Hloud. rewrite Hd in Hloud.
    rewrite Hloud. reflexivity.
  - intros w0 todo i next buf evs r w' Hbusy Hr.
    rewrite (record_loop_keeps_the_lock E _ _ _ _ _ _ _ _ _ Hr). exact Hbusy.
Qed.

Lemma single_capture_invariant_witness :
  isRecording armed_2048 = false
  /\ (exists ph,
        monitor guard_step Armed (events (run bench_loud 200 3 armed_2048))
        = Some ph)
  /\ isRecording (with_flag true (next_adc armed_2048)) = true
  /\ (exists tail,
        events (loop bench_loud 200 armed_2048)
        = [EvNet; EvAdc 2600; EvFlag true] ++ capture_start_events 552 ++ tail).
Proof.
  split; [reflexivity|].
  destruct (single_capture_invariant bench_loud 200 3 armed_2048 eq_refl)
    as ((ph & Hph & _) & _ & _ & Hlock & _).
  split; [exists ph; exact Hph|].
  destruct (Hlock armed_2048 eq_refl eq_refl) as (Hbusy & Hloop & _).
  split; [exact Hbusy|].
  rewrite Hloop, events_prepend.
  destruct (events_bind_prefix
              (recordAndAlert bench_loud 200
                 (c_abs (int_sub (adc_src bench_loud (adc_n armed_2048))
                           (adc_dc_offset armed_2048))))
              (fun _ => set_recording false ;; delay 2000 ;; delay 1)
              (with_flag true (next_adc armed_2048))) as (tail & ->).
  destruct (recordAndAlert_starts bench_loud 200
              (c_abs (int_sub (adc_src bench_loud (adc_n armed_2048))
                        (adc_dc_offset armed_2048)))
              (with_flag true (next_adc armed_2048)) eq_refl) as (rest & ->).
  exists (rest ++ tail). rewrite <- app_assoc. reflexivity.
Defined.

(** C7. Whenever [recordAndAlert] returns -- with a recording stored, after
    a failed allocation or after a failed open alike -- the pass through
    [loop] releases the lock and then does nothing but [delay(2000)] and
    [delay(1)]; over any number of passes, the first thing that happens
    after the lock is released is that 2000 ms delay, so no conversion is
    taken and no trigger evaluated before it has elapsed. *)
Theorem cooldown_follows_every_capture (E : Env) (fuel n : nat) (w : World) :
  isRecording w = false ->
  monitor cooldown_step Ready (events (run E fuel n w)) = Some Ready
  /\ (forall w0 u w',
        isRecording w0 = false ->
        (c_abs (int_sub (adc_src E (adc_n w0)) (adc_dc_offset w0))
           >? AMPLITUDE_THRESHOLD) = true ->
        let amplitude := c_abs (int_sub (adc_src E (adc_n w0)) (adc_dc_offset w0)) in
        let r := recordAndAlert E fuel amplitude (with_flag true (next_adc w0)) in
        outcome r = Done u w' ->
        loop E fuel w0
        = ([EvNet; EvAdc (adc_src E (adc_n w0)); EvFlag true] ++ events r
             ++ [EvFlag false; EvDelay 2000; EvDelay 1],
           Done tt (with_flag false w'))).
Proof.
  intros Hfree. split; [now apply run_cooldown|].
  intros w0 u w' Hfree0 Hcmp amplitude r Hd.
  pose proof (loop_loud E fuel w0 Hfree0 Hcmp) as Hloud. cbv zeta in Hloud.
  fold amplitude in Hloud. fold r in Hloud. rewrite Hd in Hloud. exact Hloud.
Qed.

Lemma cooldown_follows_every_capture_witness :
  isRecording armed_2048 = false
  /\ monitor cooldown_step Ready (events (run bench_no_memory 5 3 armed_2048))
     = Some Ready.
Proof.
  split; [reflexivity|].
  apply (cooldown_follows_every_capture bench_no_memory 5 3 armed_2048 eq_refl).
Defined.

(** C8. When the allocation at the start of a capture fails,
    [recordAndAlert] returns at once: it has reported the error and has
    taken no conversion, polled no clock, opened or written no file and
    published nothing. The pass through [loop] then releases the lock and
    goes through the cooldown, with that one allocation attempt and no
    other; the following pass finds the lock free and polls the ADC
    again. *)
Theorem allocation_failure_aborts_capture (E : Env) (fuel : nat) (w : World) :
  isRecording w = false ->
  (c_abs (int_sub (adc_src E (adc_n w)) (adc_dc_offset w))
     >? AMPLITUDE_THRESHOLD) = true ->
  heap_ok E (heap_n w) = false ->
  let amplitude := c_abs (int_sub (adc_src E (adc_n w)) (adc_dc_offset w)) in
  let entry := with_flag true (next_adc w) in
  let after := next_heap (next_wall entry) in
  recordAndAlert E fuel amplitude entry = (no_memory_events amplitude, Done tt after)
  /\ adc_n after = adc_n entry /\ clk_n after = clk_n entry
  /\ fs_n after = fs_n entry /\ mqtt_n after = mqtt_n entry
  /\ heap_n after = S (heap_n w)
  /\ loop E fuel w
     = ([EvNet; EvAdc (adc_src E (adc_n w)); EvFlag true]
          ++ no_memory_events amplitude
          ++ [EvFlag false; EvDelay 2000; EvDelay 1],
        Done tt (with_flag false after))
  /\ isRecording (with_flag false after) = false
  /\ (exists tail,
        events (loop E fuel (with_flag false after))
        = EvNet :: EvAdc (adc_src E (S (adc_n w))) :: tail).
Proof.
  intros Hfree Hcmp Hheap amplitude entry after.
  assert (Hrec : recordAndAlert E fuel amplitude entry
                 = (no_memory_events amplitude, Done tt after))
    by (apply recordAndAlert_no_memory; exact Hheap).
  split; [exact Hrec|]. do 5 (split; [reflexivity|]). split.
  - pose proof (loop_loud E fuel w Hfree Hcmp) as Hloud. cbv zeta in Hloud.
    fold amplitude in Hloud. fold entry in Hloud. rewrite Hrec in Hloud.
    exact Hloud.
  - split; [reflexivity|].
    apply (loop_polls E fuel (with_flag false after)). reflexivity.
Qed.

Lemma allocation_failure_aborts_capture_witness :
  isRecording armed_2048 = false
  /\ (c_abs (int_sub (adc_src bench_no_memory (adc_n armed_2048))
                     (adc_dc_offset armed_2048))
        >? AMPLITUDE_THRESHOLD) = true
  /\ heap_ok bench_no_memory (heap_n armed_2048) = false
  /\ events (loop bench_no_memory 0 armed_2048)
     = [EvNet; EvAdc 2600; EvFlag true] ++ no_memory_events 552
         ++ [EvFlag false; EvDelay 2000; EvDelay 1].
Proof.
  split; [reflexivity|]. split; [reflexivity|]. split; [reflexivity|].
  destruct (allocation_failure_aborts_capture bench_no_memory 0 armed_2048
              eq_refl eq_refl eq_refl)
    as (_ & _ & _ & _ & _ & _ & Hloop & _).
  rewrite Hloop. reflexivity.
Defined.

(** C10. When the recording file cannot be opened after a complete capture,
    [recordAndAlert] reports the error, frees the buffer and returns:
    nothing is written and nothing is published. In every run of
    [recordAndAlert], whatever its path, an alert is published only after
    the buffer has been written to the file and the file closed. *)
Theorem open_failure_skips_write_and_alert (E : Env) (amp : Z) (w : World) :
  clock_live E ->
  heap_ok E (heap_n w) = true ->
  open_ok E (fs_n w) = false ->
  (exists (fuel0 : nat) (w' : World),
     (forall fuel, (fuel0 <= fuel)%nat ->
        recordAndAlert E fuel amp w
        = (capture_start_events amp
             ++ map EvAdc (samples E (adc_n w) (Z.to_nat TOTAL_SAMPLES))
             ++ [EvOpen (wall_src E (wall_n w)) false;
                 EvSerial "ERROR: Could not open file for writing." [];
                 EvFree],
           Done tt w'))
     /\ mqtt_n w' = mqtt_n w)
  /\ (forall fuel amp0 w0,
        exists st,
          monitor handoff_step Unsaved (events (recordAndAlert E fuel amp0 w0))
          = Some st).
Proof.
  intros Hlive Hheap Hopen. split.
  - destruct (record_loop_total E (Z.to_nat TOTAL_SAMPLES) Hlive 0
                (to_ulong (clk_src E (clk_n w)))
                (map (heap_junk E) (seq 0 (Z.to_nat TOTAL_SAMPLES)))
                (capture_entry w))
      as (fuel0 & evs & [nx buf] & w2 & Hloop).
    { pose proof (to_ulong_range (clk_src E (clk_n w))). unfold ULONG_MAX. lia. }
    destruct (record_loop_done E _ _ _ _ _ _ _ _ _ _ Hloop)
      as (Hevs & _ & _ & Hw2 & _).
    assert (Hfs : fs_n w2 = fs_n w) by (rewrite Hw2; reflexivity).
    assert (Hmq : mqtt_n w2 = mqtt_n w) by (rewrite Hw2; reflexivity).
    exists fuel0, (next_fs w2). split; [|exact Hmq].
    intros fuel Hle.
    rewrite (recordAndAlert_run E fuel amp w Hheap).
    rewrite (record_loop_mono E _ _ _ _ _ _ _ _ _ _ Hloop Hle).
    rewrite Hfs, Hopen, Hevs. reflexivity.
  - intros fuel amp0 w0. apply recordAndAlert_handoff.
Qed.

Lemma open_failure_skips_write_and_alert_witness :
  clock_live bench_no_file
  /\ heap_ok bench_no_file (heap_n armed_2048) = true
  /\ open_ok bench_no_file (fs_n armed_2048) = false
  /\ exists (fuel0 : nat) (w' : World),
       (forall fuel, (fuel0 <= fuel)%nat ->
          outcome (recordAndAlert bench_no_file fuel 552 armed_2048) = Done tt w')
       /\ mqtt_n w' = mqtt_n armed_2048.
Proof.
  assert (Hlive : clock_live bench_no_file)
    by (apply (ticking_clock_live bench_no_file 0); reflexivity).
  split; [exact Hlive|]. split; [reflexivity|]. split; [reflexivity|].
  destruct (open_failure_skips_write_and_alert bench_no_file 552 armed_2048
              Hlive eq_refl eq_refl) as ((fuel0 & w' & Hrun & Hmq) & _).
  exists fuel0, w'. split; [|exact Hmq].
  intros fuel Hle. now rewrite (Hrun fuel Hle).
Defined.


(* ------------------------------------------------------------------ *)
(** ** Further properties of the capture and of the trigger            *)
(* ------------------------------------------------------------------ *)

Lemma bind_done_inv {A B} (m : M A) (k : A -> M B) w evs b w' :
  bind m k w = (evs, Done b w') ->
  exists e1 a w1 e2,
    m w = (e1, Done a w1) /\ k a w1 = (e2, Done b w') /\ evs = e1 ++ e2.
Proof.
  unfold bind. destruct (m w) as [e1 [a w1|]]; [|discriminate].
  destruct (k a w1) as [e2 o] eqn:Hk. intros H. inversion H; subst.
  exists e1, a, w1, e2. repeat split; assumption.
Qed.

(** The last reading of the counter before a conversion is at or past the
    deadline of that conversion. *)
Lemma record_loop_waits (E : Env) (fuel j : nat) (start : Z) (block : list Z)
      w evs nx buf w' :
  0 <= start <= ULONG_MAX ->
  record_loop E fuel (S j) 0 start block w = (evs, Done (nx, buf) w') ->
  to_ulong (start + Z.of_nat j * SAMPLING_PERIOD_US)
  <= to_ulong (clk_src E (pred (clk_n w'))).
Proof.
  intros Hstart Hrun.
  replace (S j) with (j + 1)%nat in Hrun by lia.
  rewrite record_loop_split in Hrun.
  apply bind_done_inv in Hrun as (e1 & [d b1] & w1 & e2 & Hpre & Hlast & _).
  cbn [fst snd] in Hlast.
  rewrite (record_loop_deadline E _ _ _ _ _ _ _ _ _ _ Hstart Hpre) in Hlast.
  apply record_loop_inv in Hlast as (w0 & evs' & Hspin & _ & _ & _ & Hend).
  cbn in Hend. inversion Hend; subst.
  apply spin_done in Hspin as (_ & _ & _ & Hd). exact Hd.
Qed.

(** Every way [recordAndAlert] can go, with the buffer it hands off. *)
Lemma recordAndAlert_paths (E : Env) (fuel : nat) (amp : Z) (w : World) :
  (heap_ok E (heap_n w) = false
   /\ recordAndAlert E fuel amp w
      = (no_memory_events amp, Done tt (next_heap (next_wall w))))
  \/ (heap_ok E (heap_n w) = true
      /\ exists k : nat,
           recordAndAlert E fuel amp w
           = (capture_start_events amp ++ map EvAdc (samples E (adc_n w) k),
              OutOfFuel))
  \/ (heap_ok E (heap_n w) = true
      /\ exists w',
           recordAndAlert E fuel amp w
           = (capture_start_events amp
                ++ map EvAdc (samples E (adc_n w) (Z.to_nat TOTAL_SAMPLES))
                ++ handoff_events (wall_src E (wall_n w))
                        (wall_src E (S (wall_n w))) (captured E w) amp
                     (open_ok E (fs_n w)) (mqtt_ok E (mqtt_n w)),
              Done tt w')
           /\ isRecording w' = isRecording w
           /\ adc_dc_offset w' = adc_dc_offset w
           /\ mqtt_n w' = (if open_ok E (fs_n w) then S (mqtt_n w) else mqtt_n w)).
Proof.
  destruct (heap_ok E (heap_n w)) eqn:Hheap.
  - right. rewrite (recordAndAlert_run E fuel amp w Hheap).
    destruct (record_loop E fuel (Z.to_nat TOTAL_SAMPLES) 0
                (to_ulong (clk_src E (clk_n w)))
                (map (heap_junk E) (seq 0 (Z.to_nat TOTAL_SAMPLES)))
                (capture_entry w)) as [evs [[nx buf] w2|]] eqn:Hloop.
    + right. split; [reflexivity|].
      destruct (record_loop_done E _ _ _ _ _ _ _ _ _ _ Hloop)
        as (Hevs & _ & _ & Hw2 & _).
      pose proof (record_loop_fills E _ _ _ _ _ _ _ _ _
                    ltac:(now rewrite length_map, length_seq) Hloop) as Hbuf.
      assert (Hfs : fs_n w2 = fs_n w) by (rewrite Hw2; reflexivity).
      assert (Hmq : mqtt_n w2 = mqtt_n w) by (rewrite Hw2; reflexivity).
      eexists. cbn [snd]. rewrite Hfs, Hmq, Hevs, Hbuf.
      split; [reflexivity|].
      destruct (open_ok E (fs_n w)); rewrite Hw2; repeat split; reflexivity.
    + left. split; [reflexivity|].
      destruct (record_loop_events E fuel (Z.to_nat TOTAL_SAMPLES) 0
                  (to_ulong (clk_src E (clk_n w)))
                  (map (heap_junk E) (seq 0 (Z.to_nat TOTAL_SAMPLES)))
                  (capture_entry w)) as (k & _ & Hk).
      rewrite Hloop in Hk. cbn [events fst] in Hk. subst evs.
      exists k. reflexivity.
  - left. split; [reflexivity|]. now apply recordAndAlert_no_memory.
Qed.

Lemma captured_length (E : Env) (w : World) :
  Z.of_nat (length (captured E w)) = 24000.
Proof.
  unfold captured. rewrite length_map, samples_length. exact total_samples_nat.
Qed.

(** *** The conversion of the trigger amplitude to [float] *)

Lemma to_float_exact (n : Z) : Z.abs n <= 2 ^ 24 -> to_float n = n.
Proof.
  intros Hn. unfold to_float.
  destruct (Z.abs n <? 2 ^ 24) eqn:Hlt; [reflexivity|].
  apply Z.ltb_ge in Hlt.
  assert (H : n = 2 ^ 24 \/ n = - 2 ^ 24) by lia.
  destruct H as [-> | ->]; vm_compute; reflexivity.
Qed.

(** The rounding of [to_float], with the exponent [e] of the last place. *)
Lemma to_float_rounds (n : Z) :
  2 ^ 24 <= Z.abs n ->
  let e := Z.log2 (Z.abs n) - 23 in
  0 < e
  /\ to_float n mod 2 ^ e = 0
  /\ 2 * Z.abs (to_float n - n) <= 2 ^ e
  /\ 2 ^ 23 * 2 ^ e <= Z.abs (to_float n) <= 2 ^ 24 * 2 ^ e.
Proof.
  intros Hn e.
  assert (Hm : 0 < Z.abs n) by lia.
  pose proof (Z.log2_spec (Z.abs n) Hm) as Hlog.
  assert (Hlog24 : 24 <= Z.log2 (Z.abs n)).
  { apply Z.log2_le_pow2; lia. }
  assert (He : 0 < e) by (unfold e; lia).
  assert (Hpow : 2 ^ Z.log2 (Z.abs n) = 2 ^ 23 * 2 ^ e).
  { unfold e. rewrite <- Z.pow_add_r by lia. f_equal. lia. }
  assert (Hpow' : 2 ^ Z.succ (Z.log2 (Z.abs n)) = 2 ^ 24 * 2 ^ e).
  { unfold e. rewrite <- Z.pow_add_r by lia. f_equal. lia. }
  rewrite Hpow, Hpow' in Hlog.
  assert (Hhalf : 2 ^ e = 2 * 2 ^ (e - 1)).
  { replace e with (Z.succ (e - 1)) at 1 by lia. apply Z.pow_succ_r. lia. }
  assert (Hpe : 0 < 2 ^ (e - 1)) by (apply Z.pow_pos_nonneg; lia).
  unfold to_float. fold e.
  destruct (Z.abs n <? 2 ^ 24) eqn:Hlt; [apply Z.ltb_lt in Hlt; lia|].
  rewrite Z.shiftr_div_pow2, Z.land_ones by lia.
  pose proof (Z.div_mod (Z.abs n) (2 ^ e) ltac:(lia)) as Hdm.
  pose proof (Z.mod_pos_bound (Z.abs n) (2 ^ e) ltac:(lia)) as Hr.
  set (q := Z.abs n / 2 ^ e) in *. set (r := Z.abs n mod 2 ^ e) in *.
  set (up := if (2 ^ (e - 1) <? r) || ((r =? 2 ^ (e - 1)) && Z.odd q) then 1 else 0).
  assert (Hq : 2 ^ 23 <= q < 2 ^ 24) by nia.
  assert (Hup : (up = 0 /\ r <= 2 ^ (e - 1)) \/ (up = 1 /\ 2 ^ (e - 1) <= r)).
  { unfold up. destruct (2 ^ (e - 1) <? r) eqn:H1; cbn [orb].
    - apply Z.ltb_lt in H1. right. lia.
    - apply Z.ltb_ge in H1. destruct (r =? 2 ^ (e - 1)) eqn:H2; cbn [andb].
      + apply Z.eqb_eq in H2. destruct (Z.odd q); [right | left]; lia.
      + left. lia. }
  split; [exact He|]. split.
  { rewrite Z.mul_assoc. apply Z.mod_mul. lia. }
  assert (Hs : (Z.sgn n = 1 /\ n = Z.abs n) \/ (Z.sgn n = -1 /\ n = - Z.abs n)) by lia.
  clearbody q r up. clear Hlt Hlog24 Hpow Hpow'.
  remember (Z.abs n) as m eqn:Em. clear Em.
  remember (2 ^ e) as P eqn:EP. remember (2 ^ (e - 1)) as H eqn:EH.
  clear EP EH.
  destruct Hs as [(-> & ->) | (-> & ->)];
    destruct Hup as [(-> & Hle) | (-> & Hle)]; subst P m;
    (split; [lia | nia]).
Qed.

Lemma to_float_of_int (n : Z) :
  - 2 ^ 31 <= n < 2 ^ 31 -> Z.abs (to_float n - n) <= 64.
Proof.
  intros Hn.
  destruct (Z_le_gt_dec (Z.abs n) (2 ^ 24)) as [Hs | Hl].
  - rewrite to_float_exact by exact Hs. rewrite Z.sub_diag. cbn. lia.
  - destruct (Z.eq_dec n (- 2 ^ 31)) as [-> | Hne]; [vm_compute; discriminate|].
    destruct (to_float_rounds n ltac:(lia)) as (He & _ & Herr & _).
    cbv zeta in *.
    assert (Hlog : Z.log2 (Z.abs n) < 31).
    { apply Z.log2_lt_pow2; lia. }
    assert (Hpow : 2 ^ (Z.log2 (Z.abs n) - 23) <= 2 ^ 7).
    { apply Z.pow_le_mono_r; lia. }
    change (2 ^ 7) with 128 in Hpow. lia.
Qed.

Example float_of_16777217 : to_float 16777217 = 16777216.
Proof. reflexivity. Qed.
Example float_of_16777219 : to_float 16777219 = 16777220.
Proof. reflexivity. Qed.
Example float_of_minus_16777219 : to_float (-16777219) = -16777220.
Proof. reflexivity. Qed.
Example float_of_int_max : to_float (2 ^ 31 - 1) = 2 ^ 31.
Proof. reflexivity. Qed.

(** An alert in the log of [recordAndAlert] is the one of its stored
    recording. *)
Lemma recordAndAlert_alert (E : Env) (fuel : nat) (amp : Z) (w : World)
      (name : Filename) (stamp a : Z) (ok : bool) :
  In (EvPublish name stamp a ok) (events (recordAndAlert E fuel amp w)) ->
  name = wall_src E (wall_n w) /\ stamp = wall_src E (S (wall_n w))
  /\ a = to_float amp
  /\ In (EvWrite name (captured E w) (TOTAL_SAMPLES * 2))
        (events (recordAndAlert E fuel amp w))
  /\ In (EvClose name) (events (recordAndAlert E fuel amp w)).
Proof.
  destruct (recordAndAlert_paths E fuel amp w)
    as [(_ & H) | [(_ & k & H) | (_ & w' & H & _)]];
    rewrite H; cbn [events fst]; intros Hin.
  - cbn in Hin. intuition discriminate.
  - apply in_app_or in Hin as [Hin | Hin].
    + cbn in Hin. intuition discriminate.
    + apply in_map_iff in Hin as (x & Hx & _). discriminate Hx.
  - apply in_app_or in Hin as [Hin | Hin];
      [cbn in Hin; intuition discriminate|].
    apply in_app_or in Hin as [Hin | Hin];
      [apply in_map_iff in Hin as (x & Hx & _); discriminate Hx|].
    unfold handoff_events in *.
    destruct (open_ok E (fs_n w)).
    + assert (Hpub : name = wall_src E (wall_n w)
                     /\ stamp = wall_src E (S (wall_n w)) /\ a = to_float amp).
      { unfold stored_events in Hin. cbn [In] in Hin.
        repeat (destruct Hin as [Hin | Hin]; try discriminate Hin).
        - inversion Hin. split; [reflexivity|]. split; reflexivity.
        - contradiction. }
      destruct Hpub as (-> & -> & ->).
      split; [reflexivity|]. split; [reflexivity|]. split; [reflexivity|].
      split; apply in_or_app; right; apply in_or_app; right;
        unfold stored_events; cbn [In]; auto.
    + cbn in Hin. intuition discriminate.
Qed.

(** X1. An alert always belongs to a stored recording: whenever
    [recordAndAlert] publishes, the alert carries the file name taken from
    the clock at entry, as its time stamp the next reading of the clock,
    and as its amplitude [(float)triggerAmplitude / 2048.0], that is the
    amplitude the routine was called with rounded to a 24-bit significand,
    in 2048ths: the amplitude itself up to 2^24 in magnitude, and within
    64 of it (1/32 after the division) for every [int]. The log holds the
    write of the whole buffer (24000 samples, 48000 bytes) to that same
    file and the close of that file. *)
Theorem alert_names_the_stored_recording
        (E : Env) (fuel : nat) (amp : Z) (w : World)
        (name : Filename) (stamp a : Z) (ok : bool) :
  In (EvPublish name stamp a ok) (events (recordAndAlert E fuel amp w)) ->
  name = wall_src E (wall_n w)
  /\ stamp = wall_src E (S (wall_n w))
  /\ a = to_float amp
  /\ (Z.abs amp <= 2 ^ 24 -> a = amp)
  /\ (- 2 ^ 31 <= amp < 2 ^ 31 -> Z.abs (a - amp) <= 64)
  /\ In (EvWrite name (captured E w) 48000) (events (recordAndAlert E fuel amp w))
  /\ In (EvClose name) (events (recordAndAlert E fuel amp w))
  /\ Z.of_nat (length (captured E w)) = 24000.
Proof.
  intros Hin.
  destruct (recordAndAlert_alert E fuel amp w name stamp a ok Hin)
    as (Hn & Hs & Ha & Hw & Hc).
  split; [exact Hn|]. split; [exact Hs|]. split; [exact Ha|].
  split; [intros Hsmall; rewrite Ha; now apply to_float_exact|].
  split; [intros Hint; rewrite Ha; now apply to_float_of_int|].
  split; [exact Hw|]. split; [exact Hc | apply captured_length].
Qed.

Lemma bench_loud_live : clock_live bench_loud.
Proof. apply (ticking_clock_live bench_loud 0). reflexivity. Qed.

Lemma alert_names_the_stored_recording_witness :
  exists fuel : nat,
    In (EvPublish 1751456133 1751456133 552 true)
       (events (recordAndAlert bench_loud fuel 552 armed_2048))
    /\ In (EvClose 1751456133)
          (events (recordAndAlert bench_loud fuel 552 armed_2048)).
Proof.
  destruct (recordAndAlert_captures bench_loud bench_loud_live 552 armed_2048
              eq_refl) as (fuel0 & w' & Hrun & _).
  exists fuel0.
  assert (Hin : In (EvPublish 1751456133 1751456133 552 true)
                   (events (recordAndAlert bench_loud fuel0 552 armed_2048))).
  { rewrite (Hrun fuel0 (Nat.le_refl fuel0)). cbn [events fst].
    apply in_or_app; right. apply in_or_app; right.
    change (In (EvPublish 1751456133 1751456133 552 true)
               (stored_events 1751456133 1751456133
                  (captured bench_loud armed_2048) 552 true)).
    unfold stored_events. cbn [In]. auto 10. }
  split; [exact Hin|].
  apply (alert_names_the_stored_recording bench_loud fuel0 552 armed_2048
           1751456133 1751456133 552 true Hin).
Defined.

(** X2. An alert published during a pass through [loop] reports the
    amplitude of the very conversion that triggered the capture,
    |sample - DCOffset| (in 2048ths; the conversion to [float] is exact in
    this range), which lies above the threshold and within the range of the
    converter, under the file name read from the clock when the capture
    began and with the next reading of the clock as its time stamp. *)
Theorem alert_reports_the_trigger_amplitude
        (E : Env) (fuel : nat) (w : World) (name : Filename) (stamp a : Z)
        (ok : bool) :
  isRecording w = false ->
  adc_value_ok (adc_dc_offset w) ->
  adc_value_ok (adc_src E (adc_n w)) ->
  In (EvPublish name stamp a ok) (events (loop E fuel w)) ->
  a = Z.abs (adc_src E (adc_n w) - adc_dc_offset w)
  /\ AMPLITUDE_THRESHOLD < a <= ADC_MAX
  /\ name = wall_src E (wall_n w)
  /\ stamp = wall_src E (S (wall_n w)).
Proof.
  intros Hfree Hdc Hs Hin.
  pose proof (amplitude_exact _ _ Hs Hdc) as Hamp.
  destruct (c_abs (int_sub (adc_src E (adc_n w)) (adc_dc_offset w))
              >? AMPLITUDE_THRESHOLD) eqn:Hcmp.
  - rewrite (loop_loud E fuel w Hfree Hcmp) in Hin. cbv zeta in Hin.
    assert (Hrec : In (EvPublish name stamp a ok)
                      (events (recordAndAlert E fuel
                                 (c_abs (int_sub (adc_src E (adc_n w))
                                                 (adc_dc_offset w)))
                                 (with_flag true (next_adc w))))).
    { destruct (outcome (recordAndAlert E fuel _ (with_flag true (next_adc w))));
        cbn [events fst] in Hin;
        apply in_app_or in Hin as [Hin | Hin].
      - cbn [In] in Hin. intuition discriminate.
      - apply in_app_or in Hin as [Hin | Hin]; [exact Hin|].
        cbn [In] in Hin. intuition discriminate.
      - cbn [In] in Hin. intuition discriminate.
      - exact Hin. }
    apply recordAndAlert_alert in Hrec as (Hname & Hstamp & Ha & _).
    rewrite Hamp in Ha, Hcmp.
    rewrite Z.gtb_ltb in Hcmp. apply Z.ltb_lt in Hcmp.
    assert (Hrange : Z.abs (adc_src E (adc_n w) - adc_dc_offset w) <= ADC_MAX).
    { unfold adc_value_ok, ADC_MAX in *. lia. }
    rewrite to_float_exact in Ha
      by (unfold ADC_MAX in Hrange; lia).
    split; [exact Ha|]. split; [rewrite Ha; lia|].
    split; [exact Hname | exact Hstamp].
  - rewrite (loop_quiet E fuel w Hfree Hcmp) in Hin.
    cbn in Hin. intuition discriminate.
Qed.

Lemma alert_reports_the_trigger_amplitude_witness :
  isRecording armed_2048 = false
  /\ adc_value_ok (adc_dc_offset armed_2048)
  /\ adc_value_ok (adc_src bench_loud (adc_n armed_2048))
  /\ exists fuel : nat,
       In (EvPublish 1751456133 1751456133 552 true)
          (events (loop bench_loud fuel armed_2048))
       /\ AMPLITUDE_THRESHOLD < 552 <= ADC_MAX.
Proof.
  assert (H0 : isRecording armed_2048 = false) by reflexivity.
  assert (H1 : adc_value_ok (adc_dc_offset armed_2048))
    by (unfold adc_value_ok, ADC_MAX; cbn; lia).
  assert (H2 : adc_value_ok (adc_src bench_loud (adc_n armed_2048)))
    by (unfold adc_value_ok, ADC_MAX; cbn; lia).
  split; [exact H0|]. split; [exact H1|]. split; [exact H2|].
  destruct (recordAndAlert_captures bench_loud bench_loud_live 552
              (with_flag true (next_adc armed_2048)) eq_refl)
    as (fuel0 & w' & Hrun & _).
  exists fuel0.
  assert (Hin : In (EvPublish 1751456133 1751456133 552 true)
                   (events (loop bench_loud fuel0 armed_2048))).
  { rewrite (loop_loud bench_loud fuel0 armed_2048 H0 eq_refl). cbv zeta.
    change (c_abs (int_sub (adc_src bench_loud (adc_n armed_2048))
                           (adc_dc_offset armed_2048))) with 552.
    rewrite (Hrun fuel0 (Nat.le_refl fuel0)). cbn [outcome events fst snd].
    apply in_or_app; right. apply in_or_app; left.
    apply in_or_app; right. apply in_or_app; right.
    change (In (EvPublish 1751456133 1751456133 552 true)
               (stored_events 1751456133 1751456133
                  (captured bench_loud (with_flag true (next_adc armed_2048)))
                  552 true)).
    unfold stored_events. cbn [In]. auto 10. }
  split; [exact Hin|].
  destruct (alert_reports_the_trigger_amplitude bench_loud fuel0 armed_2048
              1751456133 1751456133 552 true H0 H1 H2 Hin) as (_ & Hrange & _).
  exact Hrange.
Defined.

Lemma spin_with_mqtt (answers : nat -> bool) (E : Env) (fuel : nat) (d : Z) :
  forall w, spin (with_mqtt answers E) fuel d w = spin E fuel d w.
Proof.
  induction fuel as [|fuel IH]; intros w; [reflexivity|].
  rewrite !spin_unfold. cbn [with_mqtt clk_src].
  destruct (to_ulong (clk_src E (clk_n w)) <? d); [apply IH | reflexivity].
Qed.

Lemma record_loop_with_mqtt (answers : nat -> bool) (E : Env) (fuel todo : nat) :
  forall i next buf w,
    record_loop (with_mqtt answers E) fuel todo i next buf w
    = record_loop E fuel todo i next buf w.
Proof.
  induction todo as [|todo IH]; intros i next buf w; [reflexivity|].
  destruct (spin E fuel next w) as [e0 [[] w0|]] eqn:Hs.
  - destruct (spin_done E _ _ _ _ _ _ Hs) as (-> & _).
    rewrite (record_loop_step E _ _ _ _ _ _ _ Hs).
    rewrite <- spin_with_mqtt with (answers := answers) in Hs.
    rewrite (record_loop_step (with_mqtt answers E) _ _ _ _ _ _ _ Hs).
    cbn [with_mqtt adc_src]. now rewrite IH.
  - rewrite (record_loop_stuck E _ _ _ _ _ _ _ Hs).
    rewrite <- spin_with_mqtt with (answers := answers) in Hs.
    now rewrite (record_loop_stuck (with_mqtt answers E) _ _ _ _ _ _ _ Hs).
Qed.

(** X3. Alerts are best effort: whatever the broker answers to the
    publish, [recordAndAlert] ends in the same state, and its log is the
    same but for the broker's answer and the Success / Failed line. A failed
    alert loses no recording, is not retried and changes nothing else. *)
Theorem failed_alert_changes_nothing_else
        (E : Env) (answers : nat -> bool) (fuel : nat) (amp : Z) (w : World) :
  outcome (recordAndAlert (with_mqtt answers E) fuel amp w)
  = outcome (recordAndAlert E fuel amp w)
  /\ map blank_alert_result (events (recordAndAlert (with_mqtt answers E) fuel amp w))
     = map blank_alert_result (events (recordAndAlert E fuel amp w)).
Proof.
  destruct (heap_ok E (heap_n w)) eqn:Hheap.
  - rewrite (recordAndAlert_run E fuel amp w Hheap).
    rewrite (recordAndAlert_run (with_mqtt answers E) fuel amp w Hheap).
    rewrite record_loop_with_mqtt.
    cbn [with_mqtt clk_src heap_junk wall_src open_ok mqtt_ok].
    destruct (record_loop E fuel (Z.to_nat TOTAL_SAMPLES) 0 _ _ (capture_entry w))
      as [evs [filled w2|]]; [|split; reflexivity].
    cbn [outcome events fst snd]. split; [reflexivity|].
    rewrite !map_app. do 2 f_equal. unfold handoff_events.
    destruct (open_ok E (fs_n w2)); [|reflexivity].
    destruct (answers (mqtt_n w2)), (mqtt_ok E (mqtt_n w2)); reflexivity.
  - rewrite (recordAndAlert_no_memory E fuel amp w Hheap).
    rewrite (recordAndAlert_no_memory (with_mqtt answers E) fuel amp w Hheap).
    split; reflexivity.
Qed.

(** X4. Away from the wrap of the 32-bit counter the loop never samples
    early. [clk_src] gives the time of each reading of [micros()] in
    microseconds since boot. If the deadline of the conversion of index j,
    start + j * 125, still fits 32 bits, and the counter had not started
    over at the last reading before that conversion, then this reading was
    at or past start + j * 125; the loop has polled the counter at least
    once for each conversion so far and has taken exactly j + 1
    conversions. Once the deadline has gone past 2^32 the comparison of
    line 198 no longer holds the loop back: see
    [early_samples_at_the_counter_wrap]. *)
Theorem conversions_wait_for_their_deadline
        (E : Env) (fuel j : nat) (start : Z) (block : list Z) (w : World)
        (evs : list Event) (nx : Z) (buf : list Z) (w' : World) :
  0 <= start ->
  start + Z.of_nat j * SAMPLING_PERIOD_US <= ULONG_MAX ->
  0 <= clk_src E (pred (clk_n w')) <= ULONG_MAX ->
  record_loop E fuel (S j) 0 start block w = (evs, Done (nx, buf) w') ->
  start + Z.of_nat j * SAMPLING_PERIOD_US <= clk_src E (pred (clk_n w'))
  /\ (clk_n w + S j <= clk_n w')%nat
  /\ adc_n w' = (adc_n w + S j)%nat.
Proof.
  intros Hstart Hfits Hclock Hrun.
  assert (Hperiod : 0 <= Z.of_nat j * SAMPLING_PERIOD_US).
  { change SAMPLING_PERIOD_US with 125. lia. }
  split.
  - assert (Hstart' : 0 <= start <= ULONG_MAX) by lia.
    pose proof (record_loop_waits E fuel j start block w evs nx buf w' Hstart' Hrun)
      as Hwait.
    unfold ULONG_MAX in *.
    rewrite !to_ulong_small in Hwait by lia. exact Hwait.
  - destruct (record_loop_done E _ _ _ _ _ _ _ _ _ _ Hrun)
      as (_ & _ & _ & Hw' & Hclk).
    split; [exact Hclk|]. rewrite Hw'. reflexivity.
Qed.

Lemma conversions_wait_for_their_deadline_witness :
  0 <= 1
  /\ 1 + Z.of_nat 2 * SAMPLING_PERIOD_US <= ULONG_MAX
  /\ record_loop bench 200 3 0 1 [7; 7; 7; 7] (capture_entry armed_2048)
     = ([EvAdc 2048; EvAdc 2049; EvAdc 2050],
        Done (376, [0; 8; 16; 7])
             (with_clk 252 (with_adc 3 (capture_entry armed_2048))))
  /\ 1 + Z.of_nat 2 * SAMPLING_PERIOD_US <= clk_src bench 251.
Proof.
  assert (Hs : 0 <= 1) by lia.
  assert (Hf : 1 + Z.of_nat 2 * SAMPLING_PERIOD_US <= ULONG_MAX)
    by (vm_compute; discriminate).
  assert (Hc : 0 <= clk_src bench
                      (pred (clk_n (with_clk 252
                                      (with_adc 3 (capture_entry armed_2048)))))
               <= ULONG_MAX)
    by (split; vm_compute; discriminate).
  assert (Hr : record_loop bench 200 3 0 1 [7; 7; 7; 7] (capture_entry armed_2048)
               = ([EvAdc 2048; EvAdc 2049; EvAdc 2050],
                  Done (376, [0; 8; 16; 7])
                       (with_clk 252 (with_adc 3 (capture_entry armed_2048)))))
    by (vm_compute; reflexivity).
  split; [exact Hs|]. split; [exact Hf|]. split; [exact Hr|].
  apply (conversions_wait_for_their_deadline bench 200 2 1 [7; 7; 7; 7]
           (capture_entry armed_2048) _ _ _ _ Hs Hf Hc Hr).
Defined.

(** At the wrap of the counter the loop does sample early: 96 microseconds
    before the counter starts over, the deadlines of the second and third
    conversions have wrapped to 29 and 154, every reading of the counter is
    above them, and the three conversions are taken at three consecutive
    polls, the third one 247 microseconds before it is due. *)
Example early_samples_at_the_counter_wrap :
  record_loop bench_late 200 3 0 4294967200 [7; 7; 7; 7] (capture_entry armed_2048)
  = ([EvAdc 2048; EvAdc 2049; EvAdc 2050],
     Done (279, [0; 8; 16; 7])
          (with_clk 4 (with_adc 3 (capture_entry armed_2048))))
  /\ clk_src bench_late 3 = 4294967200 + 2 * SAMPLING_PERIOD_US - 247.
Proof. split; vm_compute; reflexivity. Qed.

(** A loop that is behind its schedule takes each conversion after a single
    poll. *)
Lemma record_loop_behind (E : Env) (fuel todo : nat) :
  forall (i : nat) (start : Z) (block : list Z) (w : World),
    (0 < fuel)%nat ->
    0 <= start <= ULONG_MAX ->
    (forall j, (j < todo)%nat ->
               to_ulong (start + Z.of_nat j * SAMPLING_PERIOD_US)
               <= to_ulong (clk_src E (clk_n w + j)%nat)) ->
    exists nx buf w',
      record_loop E fuel todo i start block w
      = (map EvAdc (samples E (adc_n w) todo), Done (nx, buf) w')
      /\ clk_n w' = (clk_n w + todo)%nat.
Proof.
  induction todo as [|todo IH]; intros i start block w Hfuel Hstart Hlate.
  - exists start, block, w. split; [reflexivity | lia].
  - destruct fuel as [|fuel]; [lia|].
    assert (Hs : spin E (S fuel) start w = ([], Done tt (next_clk w))).
    { rewrite spin_unfold.
      pose proof (Hlate 0%nat ltac:(lia)) as H0.
      rewrite Z.mul_0_l, Z.add_0_r, Nat.add_0_r in H0.
      rewrite to_ulong_small in H0 by (unfold ULONG_MAX in Hstart; lia).
      destruct (Z.ltb_spec (to_ulong (clk_src E (clk_n w))) start);
        [lia | reflexivity]. }
    rewrite (record_loop_step E _ _ _ _ _ _ _ Hs).
    destruct (IH (S i) (ulong_add start SAMPLING_PERIOD_US)
                (<[i := scaled (adc_src E (adc_n w)) (adc_dc_offset w)]> block)
                (next_adc (next_clk w))) as (nx & buf & w' & Hrun & Hclk).
    + lia.
    + pose proof (to_ulong_range (start + SAMPLING_PERIOD_US)).
      unfold ulong_add, ULONG_MAX. lia.
    + intros j Hj. pose proof (Hlate (S j) ltac:(lia)) as HSj.
      cbn [next_adc next_clk clk_n].
      replace (S (clk_n w) + j)%nat with (clk_n w + S j)%nat by lia.
      replace (to_ulong (ulong_add start SAMPLING_PERIOD_US
                         + Z.of_nat j * SAMPLING_PERIOD_US))
        with (to_ulong (start + Z.of_nat (S j) * SAMPLING_PERIOD_US));
        [exact HSj|].
      unfold ulong_add, to_ulong, wrap_unsigned.
      rewrite Zplus_mod_idemp_l. f_equal. lia.
    + exists nx, buf, w'. rewrite Hrun, prepend_pair, samples_S.
      cbn [next_adc next_clk adc_n clk_n] in *.
      split; [reflexivity | lia].
Qed.

(** X5. Catching up: when the counter is already at or past the deadline
    of every remaining conversion -- the loop is behind its schedule -- the
    loop does not wait at all: it takes each conversion after exactly one
    poll of the counter, back to back, and returns. *)
Theorem late_loop_samples_back_to_back
        (E : Env) (fuel todo i : nat) (start : Z) (block : list Z) (w : World) :
  (0 < fuel)%nat ->
  0 <= start <= ULONG_MAX ->
  (forall j, (j < todo)%nat ->
             (start + Z.of_nat j * SAMPLING_PERIOD_US) mod 2 ^ 32
             <= to_ulong (clk_src E (clk_n w + j)%nat)) ->
  exists nx buf w',
    record_loop E fuel todo i start block w
    = (map EvAdc (samples E (adc_n w) todo), Done (nx, buf) w')
    /\ clk_n w' = (clk_n w + todo)%nat.
Proof. intros Hfuel Hstart Hlate. now apply record_loop_behind. Qed.

Lemma late_loop_samples_back_to_back_witness :
  (0 < 1)%nat /\ 0 <= 0 <= ULONG_MAX
  /\ exists nx buf w',
       record_loop bench_behind 1 (Z.to_nat TOTAL_SAMPLES) 0 0
         (map (heap_junk bench_behind) (seq 0 (Z.to_nat TOTAL_SAMPLES)))
         (capture_entry armed_2048)
       = (map EvAdc (samples bench_behind (adc_n (capture_entry armed_2048))
                       (Z.to_nat TOTAL_SAMPLES)),
          Done (nx, buf) w')
       /\ clk_n w' = (clk_n (capture_entry armed_2048) + Z.to_nat TOTAL_SAMPLES)%nat.
Proof.
  assert (Hs : 0 <= 0 <= ULONG_MAX) by (unfold ULONG_MAX; lia).
  split; [lia|]. split; [exact Hs|].
  apply (late_loop_samples_back_to_back bench_behind 1); [lia | exact Hs |].
  intros j Hj. rewrite TOTAL_SAMPLES_value in Hj.
  assert (HP : SAMPLING_PERIOD_US = 125) by reflexivity. rewrite HP.
  unfold to_ulong, wrap_unsigned. cbn [bench_behind clk_src].
  change (clk_n (capture_entry armed_2048)) with 1%nat.
  assert (Hj' : Z.of_nat j < 24000) by lia.
  rewrite !Z.mod_small; lia.
Defined.

(* ------------------------------------------------------------------ *)
(** ** Further properties of the calibration and of the idle loop      *)
(* ------------------------------------------------------------------ *)

Lemma sum_list_between (lo hi : Z) (xs : list Z) :
  Forall (fun x => lo <= x <= hi) xs ->
  lo * Z.of_nat (length xs) <= sum_list xs <= hi * Z.of_nat (length xs).
Proof.
  induction 1 as [|x xs Hx _ IH]; cbn [sum_list fold_right length]; [lia|].
  fold (sum_list xs). lia.
Qed.

(** The offset left by a calibration whose conversions all lie between [lo]
    and [hi] lies between them too. *)
Lemma calibrated_offset_between (E : Env) (w : World) (lo hi : Z) :
  0 <= lo -> hi <= ADC_MAX ->
  (forall j, (j < CALIBRATION_SAMPLES)%nat ->
             lo <= adc_src E (adc_n w + j)%nat <= hi) ->
  exists v w',
    calibrateDCOffset E w
    = (calibration_events (samples E (adc_n w) CALIBRATION_SAMPLES) v, Done tt w')
    /\ w' = with_offset v (with_adc (adc_n w + CALIBRATION_SAMPLES)%nat w)
    /\ lo <= v <= hi.
Proof.
  intros Hlo Hhi Hband.
  assert (Hok : forall j, (j < CALIBRATION_SAMPLES)%nat ->
                          adc_value_ok (adc_src E (adc_n w + j)%nat)).
  { intros j Hj. specialize (Hband j Hj). unfold adc_value_ok. lia. }
  pose proof (samples_valid E _ _ Hok) as Hxs.
  pose proof (samples_length E (adc_n w) CALIBRATION_SAMPLES) as Hlen.
  assert (Hin : Forall (fun x => lo <= x <= hi)
                       (samples E (adc_n w) CALIBRATION_SAMPLES)).
  { unfold samples. apply List.Forall_forall. intros x Hx.
    apply in_map_iff in Hx as (j & <- & Hj). apply in_seq in Hj.
    apply Hband. lia. }
  pose proof (calibrateDCOffset_run E w) as Hrun. cbv zeta in Hrun.
  remember (samples E (adc_n w) CALIBRATION_SAMPLES) as xs eqn:Hxsdef.
  change CALIBRATION_SAMPLES with 1024%nat in Hlen.
  destruct (truncated_mean_exact xs Hxs Hlen) as (Hoff & Hfloor & _).
  pose proof (sum_list_between lo hi xs Hin) as Hsum. rewrite Hlen in Hsum.
  replace (Z.of_nat 1024) with 1024 in Hsum by reflexivity.
  rewrite Hoff in Hrun.
  exists (sum_list xs / 1024). eexists. split; [exact Hrun|].
  split; [reflexivity|].
  split.
  - apply Z.div_le_lower_bound; lia.
  - apply Z.lt_succ_r, Z.div_lt_upper_bound; lia.
Qed.

(** X6. The calibrated offset lies within the range of the conversions it
    averaged: if every one of the 1024 conversions is between lo and hi, so
    is the offset; a constant input v is calibrated to exactly v. *)
Theorem calibrated_offset_within_sample_range
        (E : Env) (w : World) (lo hi : Z) :
  0 <= lo -> hi <= ADC_MAX ->
  (forall j, (j < CALIBRATION_SAMPLES)%nat ->
             lo <= adc_src E (adc_n w + j)%nat <= hi) ->
  exists v, calibrated_offset E w = Some v
            /\ lo <= v <= hi
            /\ (lo = hi -> v = lo).
Proof.
  intros Hlo Hhi Hband.
  destruct (calibrated_offset_between E w lo hi Hlo Hhi Hband)
    as (v & w' & Hrun & Hw' & Hv).
  exists v. unfold calibrated_offset. rewrite Hrun. cbn [outcome snd].
  rewrite Hw'. cbn [with_offset adc_dc_offset].
  split; [reflexivity|]. split; [exact Hv | lia].
Qed.

Lemma calibrated_offset_within_sample_range_witness :
  0 <= 2048 /\ 2051 <= ADC_MAX
  /\ (forall j, (j < CALIBRATION_SAMPLES)%nat ->
                2048 <= adc_src bench (adc_n power_on + j)%nat <= 2051)
  /\ exists v, calibrated_offset bench power_on = Some v /\ 2048 <= v <= 2051.
Proof.
  assert (H : forall j, (j < CALIBRATION_SAMPLES)%nat ->
                        2048 <= adc_src bench (adc_n power_on + j)%nat <= 2051).
  { intros j _. cbn [adc_src bench].
    pose proof (Nat.mod_upper_bound (adc_n power_on + j) 4). lia. }
  assert (Hhi : 2051 <= ADC_MAX) by (unfold ADC_MAX; lia).
  split; [lia|]. split; [exact Hhi|]. split; [exact H|].
  destruct (calibrated_offset_within_sample_range bench power_on 2048 2051
              ltac:(lia) Hhi H) as (v & Hv & Hr & _).
  exists v. split; assumption.
Defined.

(** Passes through [loop] over conversions that all stay within the
    threshold of the offset. *)
Lemma run_quiet (E : Env) (fuel n : nat) :
  forall w,
    isRecording w = false ->
    adc_value_ok (adc_dc_offset w) ->
    (forall j, (j < n)%nat ->
               adc_value_ok (adc_src E (adc_n w + j)%nat)
               /\ Z.abs (adc_src E (adc_n w + j)%nat - adc_dc_offset w)
                  <= AMPLITUDE_THRESHOLD) ->
    run E fuel n w
    = (flat_map (fun v => [EvNet; EvAdc v; EvDelay 1]) (samples E (adc_n w) n),
       Done tt (with_adc (adc_n w + n)%nat w)).
Proof.
  induction n as [|n IH]; intros w Hfree Hdc Hquiet.
  - cbn. rewrite Nat.add_0_r. now destruct w.
  - destruct (Hquiet 0%nat ltac:(lia)) as (Hs & Habs).
    rewrite Nat.add_0_r in Hs, Habs.
    assert (Hcmp : (c_abs (int_sub (adc_src E (adc_n w)) (adc_dc_offset w))
                      >? AMPLITUDE_THRESHOLD) = false).
    { rewrite (amplitude_exact _ _ Hs Hdc), Z.gtb_ltb. apply Z.ltb_ge. lia. }
    cbn [run].
    rewrite (bind_done _ _ _ _ _ _ (loop_quiet E fuel w Hfree Hcmp)).
    rewrite IH.
    + rewrite prepend_pair, samples_S. cbn [flat_map app next_adc adc_n].
      do 2 f_equal. unfold with_adc.
      cbn [adc_dc_offset isRecording clk_n wall_n heap_n fs_n mqtt_n next_adc].
      f_equal. lia.
    + exact Hfree.
    + exact Hdc.
    + intros j Hj. cbn [next_adc adc_n adc_dc_offset].
      replace (S (adc_n w) + j)%nat with (adc_n w + S j)%nat by lia.
      apply Hquiet. lia.
Qed.

Lemma polls_take_no_lock (xs : list Z) :
  existsb is_lock (flat_map (fun v => [EvNet; EvAdc v; EvDelay 1]) xs) = false.
Proof.
  induction xs as [|x xs IH]; [reflexivity|].
  cbn [flat_map app existsb is_lock orb]. exact IH.
Qed.

Lemma calibration_takes_no_lock (xs : list Z) :
  existsb is_lock (flat_map (fun v => [EvAdc v; EvDelay 1]) xs) = false.
Proof.
  induction xs as [|x xs IH]; [reflexivity|].
  cbn [flat_map app existsb is_lock orb]. exact IH.
Qed.


Example heap_rejects_store_after_free :
  monitor heap_step NoBlock [EvMalloc true; EvAdc 1; EvFree; EvAdc 2] = None.
Proof. reflexivity. Qed.

Example heap_rejects_double_free :
  monitor heap_step NoBlock [EvMalloc true; EvFree; EvFree] = None.
Proof. reflexivity. Qed.

Example heap_rejects_write_after_failed_allocation :
  monitor heap_step NoBlock [EvMalloc false; EvWrite 0 [] 48000] = None.
Proof. reflexivity. Qed.


(* ------------------------------------------------------------------ *)
(** ** Text: lengths, padding, digits                                  *)
(* ------------------------------------------------------------------ *)

Lemma str_length_app (a b : string) :
  String.length (a ++ b) = (String.length a + String.length b)%nat.
Proof. induction a as [|c a IH]; cbn; [reflexivity | now rewrite IH]. Qed.

Lemma str_app_assoc (a b c : string) :
  ((a ++ b) ++ c = a ++ (b ++ c))%string.
Proof. induction a as [|x a IH]; cbn; [reflexivity | now rewrite IH]. Qed.

Lemma str_app_nil_r (a : string) : (a ++ EmptyString)%string = a.
Proof. induction a as [|x a IH]; cbn; [reflexivity | now rewrite IH]. Qed.

Lemma substring_whole (s : string) (n : nat) :
  (String.length s <= n)%nat -> substring 0 n s = s.
Proof.
  revert n. induction s as [|c s IH]; intros [|n] Hn; cbn in *;
    try reflexivity; try lia.
  f_equal. apply IH. lia.
Qed.

Lemma substring_take (a b : string) :
  substring 0 (String.length a) (a ++ b) = a.
Proof. induction a as [|c a IH]; cbn; [now destruct b | now rewrite IH]. Qed.

Lemma substring_skip (a b : string) (n m : nat) :
  (String.length a <= n)%nat ->
  substring n m (a ++ b) = substring (n - String.length a) m b.
Proof.
  revert n. induction a as [|c a IH]; intros n Hn; cbn in *.
  - now rewrite Nat.sub_0_r.
  - destruct n as [|n]; [lia|]. cbn. apply IH. lia.
Qed.

Lemma prefix_app (p s : string) : String.prefix p (p ++ s) = true.
Proof.
  induction p as [|c p IH]; cbn; [now destruct s|].
  destruct (ascii_dec c c); [exact IH | contradiction].
Qed.

Lemma zeros_length (n : nat) : String.length (zeros n) = n.
Proof. induction n as [|n IH]; cbn; [reflexivity | now rewrite IH]. Qed.

Lemma zeros_snoc (n : nat) : (zeros n ++ "0")%string = zeros (S n).
Proof. induction n as [|n IH]; cbn in *; [reflexivity | now rewrite IH]. Qed.

Lemma pad_zero_snoc (w : nat) (s : string) (c : ascii) :
  pad_zero (S w) (s ++ String c EmptyString) = (pad_zero w s ++ String c EmptyString)%string.
Proof.
  unfold pad_zero. rewrite str_length_app, str_app_assoc. cbn [String.length].
  now replace (S w - (String.length s + 1))%nat with (w - String.length s)%nat by lia.
Qed.

Lemma digit_char_0 : digit_char 0 = "0"%char.
Proof. reflexivity. Qed.

Lemma digit_value_char (d : Z) : 0 <= d < 16 -> digit_value (digit_char d) = d.
Proof.
  intros Hd.
  assert (H : d = 0 \/ d = 1 \/ d = 2 \/ d = 3 \/ d = 4 \/ d = 5 \/ d = 6
              \/ d = 7 \/ d = 8 \/ d = 9 \/ d = 10 \/ d = 11 \/ d = 12
              \/ d = 13 \/ d = 14 \/ d = 15) by lia.
  repeat (destruct H as [-> | H]; [reflexivity|]). subst. reflexivity.
Qed.

Lemma fixed_length (base : Z) (w : nat) :
  forall n, String.length (fixed base w n) = w.
Proof.
  induction w as [|w IH]; intros n; cbn [fixed]; [reflexivity|].
  rewrite str_length_app, IH. cbn. lia.
Qed.

Lemma fixed_zero (base : Z) (w : nat) : 0 < base -> fixed base w 0 = zeros w.
Proof.
  intros Hb. induction w as [|w IH]; [reflexivity|].
  cbn [fixed]. rewrite Z.div_0_l, Z.mod_0_l by lia.
  rewrite IH, digit_char_0. apply zeros_snoc.
Qed.

Lemma digits_small (base : Z) (fuel : nat) (n : Z) :
  n < base -> digits base (S fuel) n = String (digit_char n) EmptyString.
Proof.
  intros Hn. cbn [digits].
  destruct (Z.ltb_spec n base); [reflexivity | lia].
Qed.

Lemma digits_large (base : Z) (fuel : nat) (n : Z) :
  base <= n ->
  digits base (S fuel) n
  = (digits base fuel (n / base) ++ String (digit_char (n mod base)) EmptyString)%string.
Proof.
  intros Hn. cbn [digits].
  destruct (Z.ltb_spec n base); [lia | reflexivity].
Qed.

(** A number below base^(w+1), printed and padded with zeros to w+1
    digits, is the number in exactly w+1 digits. *)
Lemma pad_digits_fixed (base : Z) (w : nat) :
  2 <= base ->
  forall (fuel : nat) (n : Z),
    (w < fuel)%nat -> 0 <= n < base ^ Z.of_nat (S w) ->
    pad_zero (S w) (digits base fuel n) = fixed base (S w) n
    /\ (String.length (digits base fuel n) <= S w)%nat.
Proof.
  intros Hb. induction w as [|w IH]; intros fuel n Hfuel Hn.
  - destruct fuel as [|fuel]; [lia|].
    change (base ^ Z.of_nat 1) with (base ^ 1) in Hn. rewrite Z.pow_1_r in Hn.
    rewrite digits_small by lia. cbn [fixed]. rewrite Z.mod_small by lia.
    split; [reflexivity | cbn; lia].
  - destruct fuel as [|fuel]; [lia|].
    destruct (Z.lt_ge_cases n base) as [Hlt | Hge].
    + rewrite digits_small by lia. split; [|cbn; lia].
      cbn [fixed]. rewrite (Z.div_small n base), (Z.mod_small n base) by lia.
      rewrite (Z.mod_0_l base), (Z.div_0_l base) by lia.
      rewrite fixed_zero by lia. rewrite digit_char_0, zeros_snoc.
      unfold pad_zero. cbn [String.length].
      replace (S (S w) - 1)%nat with (S w) by lia.
      now rewrite <- zeros_snoc, str_app_assoc.
    + rewrite digits_large by lia.
      assert (Hq : 0 <= n / base < base ^ Z.of_nat (S w)).
      { split; [apply Z.div_pos; lia|].
        apply Z.div_lt_upper_bound; [lia|].
        replace (Z.of_nat (S (S w))) with (Z.succ (Z.of_nat (S w))) in Hn by lia.
        rewrite Z.pow_succ_r in Hn by lia. lia. }
      destruct (IH fuel (n / base) ltac:(lia) Hq) as (Hpad & Hlen).
      split.
      * rewrite pad_zero_snoc, Hpad. reflexivity.
      * rewrite str_length_app. cbn [String.length]. lia.
Qed.

Lemma parse_snoc (base : Z) (s : string) (c : ascii) :
  forall acc,
    parse base acc (s ++ String c EmptyString) = parse base acc s * base + digit_value c.
Proof.
  induction s as [|x s IH]; intros acc; cbn; [reflexivity | apply IH].
Qed.

(** Reading back a number written in exactly [w] digits. *)
Lemma parse_fixed (base : Z) (w : nat) :
  2 <= base <= 16 ->
  forall n, 0 <= n < base ^ Z.of_nat w -> parse base 0 (fixed base w n) = n.
Proof.
  intros Hb. induction w as [|w IH]; intros n Hn.
  - cbn in *. lia.
  - cbn [fixed]. rewrite parse_snoc.
    replace (Z.of_nat (S w)) with (Z.succ (Z.of_nat w)) in Hn by lia.
    rewrite Z.pow_succ_r in Hn by lia.
    rewrite IH.
    + rewrite digit_value_char by (pose proof (Z.mod_pos_bound n base); lia).
      pose proof (Z.div_mod n base ltac:(lia)). lia.
    + split; [apply Z.div_pos; lia|]. apply Z.div_lt_upper_bound; lia.
Qed.

Lemma fmt_04X_fixed (n : Z) : 0 <= n < 65536 -> fmt_04X n = fixed 16 4 n.
Proof.
  intros Hn. unfold fmt_04X.
  apply (pad_digits_fixed 16 3 ltac:(lia) 8 n); [lia|].
  change (16 ^ Z.of_nat 4) with 65536. exact Hn.
Qed.

Lemma fmt_02d_fixed (n : Z) : 0 <= n < 100 -> fmt_02d n = fixed 10 2 n.
Proof.
  intros Hn. unfold fmt_02d.
  apply (pad_digits_fixed 10 1 ltac:(lia) 10 n); [lia|].
  change (10 ^ Z.of_nat 2) with 100. exact Hn.
Qed.

Lemma fmt_d_fixed (y : Z) : 1000 <= y < 10000 -> fmt_d y = fixed 10 4 y.
Proof.
  intros Hy. unfold fmt_d.
  assert (H1 : 100 <= y / 10 < 1000)
    by (split; [apply Z.div_le_lower_bound | apply Z.div_lt_upper_bound]; lia).
  assert (H2 : 10 <= y / 10 / 10 < 100)
    by (split; [apply Z.div_le_lower_bound | apply Z.div_lt_upper_bound]; lia).
  assert (H3 : 1 <= y / 10 / 10 / 10 < 10)
    by (split; [apply Z.div_le_lower_bound | apply Z.div_lt_upper_bound]; lia).
  rewrite (digits_large 10 9 y) by lia.
  rewrite (digits_large 10 8 (y / 10)) by lia.
  rewrite (digits_large 10 7 (y / 10 / 10)) by lia.
  rewrite (digits_small 10 6 (y / 10 / 10 / 10)) by lia.
  cbn [fixed]. rewrite (Z.mod_small (y / 10 / 10 / 10) 10) by lia.
  reflexivity.
Qed.


(* ------------------------------------------------------------------ *)
(** ** Device identifier and topic                                     *)
(* ------------------------------------------------------------------ *)

Lemma chip_tag_range (chipid : Z) : 0 <= chip_tag chipid < 65536.
Proof.
  unfold chip_tag, wrap_unsigned. change (2 ^ 16) with 65536.
  apply Z.mod_pos_bound. lia.
Qed.

Lemma device_id_text (chipid : Z) :
  device_id chipid = ("esp32-audio-" ++ fixed 16 4 (chip_tag chipid))%string.
Proof.
  unfold device_id, snprintf, DEVICE_ID_PREFIX.
  rewrite fmt_04X_fixed by apply chip_tag_range.
  apply substring_whole.
  rewrite !str_length_app, fixed_length. cbn. lia.
Qed.

Lemma device_id_length (chipid : Z) : String.length (device_id chipid) = 16%nat.
Proof. rewrite device_id_text, str_length_app, fixed_length. reflexivity. Qed.

Lemma mqtt_topic_text (chipid : Z) :
  mqtt_topic chipid = ("esp32/audio_alerts/" ++ device_id chipid)%string.
Proof.
  unfold mqtt_topic, snprintf. apply substring_whole.
  rewrite str_length_app, device_id_length. cbn. lia.
Qed.

Lemma str_app_inv_head (p a b : string) : (p ++ a = p ++ b)%string -> a = b.
Proof.
  induction p as [|c p IH]; cbn; intros H; [exact H|].
  inversion H. now apply IH.
Qed.

(** X10. Neither [snprintf] of [setup] ever truncates: for every value of
    the eFuse MAC the device identifier is "esp32-audio-" followed by four
    upper-case hexadecimal digits, 16 characters in a buffer of 25, and the
    topic is "esp32/audio_alerts/" followed by the identifier, 35
    characters in a buffer of 50. *)
Theorem device_id_and_topic_are_never_truncated (chipid : Z) :
  device_id chipid = ("esp32-audio-" ++ fixed 16 4 (chip_tag chipid))%string
  /\ String.length (device_id chipid) = 16%nat
  /\ mqtt_topic chipid = ("esp32/audio_alerts/" ++ device_id chipid)%string
  /\ String.length (mqtt_topic chipid) = 35%nat
  /\ startsWith (device_id chipid) DEVICE_ID_PREFIX = true.
Proof.
  pose proof (device_id_length chipid) as Hlen.
  pose proof (mqtt_topic_text chipid) as Htopic.
  split; [apply device_id_text|]. split; [exact Hlen|].
  split; [exact Htopic|]. split.
  - rewrite Htopic, str_length_app, Hlen. reflexivity.
  - rewrite device_id_text. unfold startsWith, DEVICE_ID_PREFIX.
    change ("esp32-audio-" ++ fixed 16 4 (chip_tag chipid))%string
      with ("esp32-audio" ++ ("-" ++ fixed 16 4 (chip_tag chipid)))%string.
    apply prefix_app.
Qed.

Example device_id_of_the_readme :
  device_id (45307 * 2 ^ 32 + 305419896) = "esp32-audio-B0FB"%string
  /\ mqtt_topic (45307 * 2 ^ 32 + 305419896)
     = "esp32/audio_alerts/esp32-audio-B0FB"%string.
Proof. split; reflexivity. Qed.

Lemma tag_of_device_id (chipid : Z) : tag_of_id (device_id chipid) = chip_tag chipid.
Proof.
  rewrite device_id_text. unfold tag_of_id.
  change (substring 12 4 ("esp32-audio-" ++ fixed 16 4 (chip_tag chipid)))
    with (substring 0 4 (fixed 16 4 (chip_tag chipid))).
  rewrite substring_whole by (rewrite fixed_length; lia).
  apply parse_fixed; [lia|]. change (16 ^ Z.of_nat 4) with 65536.
  apply chip_tag_range.
Qed.

(** X11. The device identifier carries bits 32..47 of the eFuse MAC and
    nothing else: that 16-bit tag can be read back from the identifier, and
    two chips get the same identifier (and the same topic) exactly when
    their MACs agree on those bits. *)
Theorem device_id_identifies_the_chip_tag (c1 c2 : Z) :
  tag_of_id (device_id c1) = chip_tag c1
  /\ chip_tag c1 = (c1 mod 2 ^ 64) / 2 ^ 32 mod 2 ^ 16
  /\ (device_id c1 = device_id c2 <-> chip_tag c1 = chip_tag c2)
  /\ (mqtt_topic c1 = mqtt_topic c2 <-> chip_tag c1 = chip_tag c2).
Proof.
  split; [apply tag_of_device_id|]. split.
  { unfold chip_tag, wrap_unsigned. now rewrite Z.shiftr_div_pow2 by lia. }
  assert (Hid : device_id c1 = device_id c2 <-> chip_tag c1 = chip_tag c2).
  { split; intros H.
    - rewrite <- (tag_of_device_id c1), <- (tag_of_device_id c2). now rewrite H.
    - rewrite !device_id_text. now rewrite H. }
  split; [exact Hid|]. split; intros H.
  - apply Hid. rewrite !mqtt_topic_text in H.
    exact (str_app_inv_head _ _ _ H).
  - unfold mqtt_topic. apply Hid in H. now rewrite H.
Qed.


(* ------------------------------------------------------------------ *)
(** ** Name of a recording                                             *)
(* ------------------------------------------------------------------ *)

(** A path laid out as the format lays it out, in fields of the widths the
    format gives them. *)
Lemma path_layout (Y Mo D h mi se : string) :
  String.length Y = 4%nat -> String.length Mo = 2%nat ->
  String.length D = 2%nat -> String.length h = 2%nat ->
  String.length mi = 2%nat -> String.length se = 2%nat ->
  let name := ("recording_" ++ Y ++ Mo ++ D ++ "_" ++ h ++ mi ++ se ++ ".bin")%string in
  let p := ("/" ++ name)%string in
  String.length p = 30%nat
  /\ substring 11 4 p = Y /\ substring 15 2 p = Mo /\ substring 17 2 p = D
  /\ substring 20 2 p = h /\ substring 22 2 p = mi /\ substring 24 2 p = se
  /\ endsWith name ".bin" = true /\ endsWith p ".bin" = true.
Proof.
  intros HY HMo HD Hh Hmi Hse.
  destruct Y as [|y1 [|y2 [|y3 [|y4 [|]]]]]; try discriminate HY.
  destruct Mo as [|m1 [|m2 [|]]]; try discriminate HMo.
  destruct D as [|d1 [|d2 [|]]]; try discriminate HD.
  destruct h as [|h1 [|h2 [|]]]; try discriminate Hh.
  destruct mi as [|i1 [|i2 [|]]]; try discriminate Hmi.
  destruct se as [|s1 [|s2 [|]]]; try discriminate Hse.
  cbv zeta. repeat split.
Qed.

Lemma recording_name_fixed (t : Tm) :
  tm_ok t ->
  recording_name t
  = ("recording_" ++ fixed 10 4 (1900 + tm_year t) ++ fixed 10 2 (tm_mon t + 1)
       ++ fixed 10 2 (tm_mday t) ++ "_" ++ fixed 10 2 (tm_hour t)
       ++ fixed 10 2 (tm_min t) ++ fixed 10 2 (tm_sec t) ++ ".bin")%string.
Proof.
  intros (Hy & Hmo & Hd & Hh & Hmi & Hs). unfold recording_name.
  rewrite fmt_d_fixed by lia. rewrite !fmt_02d_fixed by lia. reflexivity.
Qed.

Lemma recording_path_layout (t : Tm) :
  tm_ok t ->
  let p := ("/" ++ recording_name t)%string in
  recording_path t = Some p
  /\ String.length p = 30%nat
  /\ endsWith (recording_name t) ".bin" = true
  /\ endsWith p ".bin" = true
  /\ tm_of_path p = t.
Proof.
  intros Hok. pose proof Hok as (Hy & Hmo & Hd & Hh & Hmi & Hs).
  cbv zeta. unfold recording_path.
  rewrite (recording_name_fixed t Hok).
  destruct (path_layout (fixed 10 4 (1900 + tm_year t))
              (fixed 10 2 (tm_mon t + 1)) (fixed 10 2 (tm_mday t))
              (fixed 10 2 (tm_hour t)) (fixed 10 2 (tm_min t))
              (fixed 10 2 (tm_sec t)))
    as (Hlen & HY & HMo & HD & Hh' & Hmi' & Hse & He1 & He2);
    try apply fixed_length.
  cbv zeta in *.
  split.
  { unfold strftime. rewrite Hlen. reflexivity. }
  split; [exact Hlen|]. split; [exact He1|]. split; [exact He2|].
  unfold tm_of_path. rewrite HY, HMo, HD, Hh', Hmi', Hse.
  rewrite (parse_fixed 10 4) by (change (10 ^ Z.of_nat 4) with 10000; lia).
  rewrite !(parse_fixed 10 2) by (change (10 ^ Z.of_nat 2) with 100; lia).
  destruct t; cbn. f_equal; lia.
Qed.

(** X12. The name of a recording always fits: for every broken-down time
    in a four-digit year [strftime] produces the 30 characters
    "/recording_YYYYMMDD_HHMMSS.bin" in the buffer of 64. Without its
    leading slash the name begins with "recording", the test of the purge in
    [clearOldRecordings], and the path ends with ".bin", the test of the
    listing of the web page. *)
Theorem recording_path_fits_and_passes_both_filters (t : Tm) :
  tm_ok t ->
  recording_path t = Some ("/" ++ recording_name t)%string
  /\ String.length ("/" ++ recording_name t)%string = 30%nat
  /\ startsWith (recording_name t) "recording" = true
  /\ endsWith (recording_name t) ".bin" = true
  /\ endsWith ("/" ++ recording_name t)%string ".bin" = true
  /\ startsWith ("/" ++ recording_name t)%string "recording" = false.
Proof.
  intros Hok.
  destruct (recording_path_layout t Hok) as (Hp & Hlen & He1 & He2 & _).
  split; [exact Hp|]. split; [exact Hlen|]. split.
  { unfold startsWith, recording_name.
    change ("recording_" ++ ?x)%string with ("recording" ++ ("_" ++ x))%string.
    change (String.prefix "recording"
              ("recording" ++ ("_" ++ (fmt_d (1900 + tm_year t) ++
                 fmt_02d (tm_mon t + 1) ++ fmt_02d (tm_mday t) ++ "_" ++
                 fmt_02d (tm_hour t) ++ fmt_02d (tm_min t) ++
                 fmt_02d (tm_sec t) ++ ".bin"))) = true).
    apply prefix_app. }
  split; [exact He1|]. split; [exact He2|]. reflexivity.
Qed.

Lemma tm_example_ok : tm_ok tm_example.
Proof. unfold tm_ok. cbn. lia. Qed.

Lemma recording_path_fits_and_passes_both_filters_witness :
  tm_ok tm_example
  /\ recording_path tm_example = Some "/recording_20250702_113533.bin"%string.
Proof.
  split; [exact tm_example_ok|].
  destruct (recording_path_fits_and_passes_both_filters tm_example tm_example_ok)
    as (Hp & _).
  rewrite Hp. reflexivity.
Defined.

(** X13. The time of a capture can be read back from the name of its
    recording, so captures triggered in different seconds never share a
    file: two broken-down times with the same path are the same. *)
Theorem recording_path_identifies_the_second (t1 t2 : Tm) :
  tm_ok t1 -> tm_ok t2 ->
  (forall p, recording_path t1 = Some p -> tm_of_path p = t1)
  /\ (recording_path t1 = recording_path t2 -> t1 = t2).
Proof.
  intros H1 H2.
  destruct (recording_path_layout t1 H1) as (Hp1 & _ & _ & _ & Hr1).
  destruct (recording_path_layout t2 H2) as (Hp2 & _ & _ & _ & Hr2).
  cbv zeta in *. split.
  - intros p Hp. rewrite Hp1 in Hp. inversion Hp; subst. exact Hr1.
  - intros Heq. rewrite Hp1, Hp2 in Heq.
    pose proof (f_equal (option_map tm_of_path) Heq) as Hs.
    cbn [option_map] in Hs. rewrite Hr1, Hr2 in Hs. now inversion Hs.
Qed.

Lemma recording_path_identifies_the_second_witness :
  tm_ok tm_example /\ tm_ok tm_example
  /\ tm_of_path "/recording_20250702_113533.bin" = tm_example.
Proof.
  split; [exact tm_example_ok|]. split; [exact tm_example_ok|].
  apply (recording_path_identifies_the_second tm_example tm_example
           tm_example_ok tm_example_ok).
  reflexivity.
Defined.


(* ------------------------------------------------------------------ *)
(** ** Equations of the boot monad                                     *)
(* ------------------------------------------------------------------ *)

Lemma after_nil {A} (r : list Trace * Result A) : after [] r = r.
Proof. now destruct r. Qed.

Lemma after_pair {A} (t t' : list Trace) (r : Result A) :
  after t (t', r) = (t ++ t', r).
Proof. reflexivity. Qed.

Lemma after_after {A} (t1 t2 : list Trace) (r : list Trace * Result A) :
  after t1 (after t2 r) = after (t1 ++ t2) r.
Proof. unfold after. cbn [fst snd]. now rewrite app_assoc. Qed.

Lemma trace_of_after {A} (t : list Trace) (r : list Trace * Result A) :
  trace_of (after t r) = t ++ trace_of r.
Proof. reflexivity. Qed.

Lemma result_of_after {A} (t : list Trace) (r : list Trace * Result A) :
  result_of (after t r) = result_of r.
Proof. reflexivity. Qed.

Lemma sbind_returned {A B} (m : MT A) (k : A -> MT B) s t a s1 :
  m s = (t, Returned a s1) -> sbind m k s = after t (k a s1).
Proof. unfold sbind, after. intros ->. now destruct (k a s1). Qed.

Lemma sbind_blocked {A B} (m : MT A) (k : A -> MT B) s t :
  m s = (t, Blocked) -> sbind m k s = (t, Blocked).
Proof. unfold sbind. now intros ->. Qed.

Lemma sbind_assoc {A B C} (m : MT A) (f : A -> MT B) (g : B -> MT C) s :
  sbind (sbind m f) g s = sbind m (fun a => sbind (f a) g) s.
Proof.
  unfold sbind. destruct (m s) as [t1 [a s1|]]; [|reflexivity].
  destruct (f a s1) as [t2 [b s2|]]; [|reflexivity].
  destruct (g b s2) as [t3 r]. now rewrite app_assoc.
Qed.

Lemma with_core_same (s : Sys) : with_core (core s) s = s.
Proof. now destruct s. Qed.

Lemma sret_bind {A B} (a : A) (k : A -> MT B) s : sbind (sret a) k s = k a s.
Proof. rewrite (sbind_returned _ _ _ [] a s) by reflexivity. apply after_nil. Qed.

Section BootSteps.

Context {R : Type}.
Variable B : Board.
Variable E : Env.

Lemma say_bind (text : string) (k : unit -> MT R) s :
  sbind (say text) k s = after [Say text] (k tt s).
Proof. now apply sbind_returned. Qed.

Lemma say_int_bind (n : Z) (k : unit -> MT R) s :
  sbind (say_int n) k s = after [SayInt n] (k tt s).
Proof. now apply sbind_returned. Qed.

Lemma call_bind (what : string) (k : unit -> MT R) s :
  sbind (call what) k s = after [Call what] (k tt s).
Proof. now apply sbind_returned. Qed.

Lemma pause_bind (ms : Z) (k : unit -> MT R) s :
  sbind (pause ms) k s = after [Core (EvDelay ms)] (k tt s).
Proof.
  apply sbind_returned. unfold pause, lift, delay, emit. cbn [map].
  now rewrite with_core_same.
Qed.

Lemma wifi_status_bind (k : bool -> MT R) s :
  sbind (wifi_status B) k s = k (wifi_up B (wifi_n s)) (next_wifi s).
Proof.
  rewrite (sbind_returned _ _ _ [] (wifi_up B (wifi_n s)) (next_wifi s))
    by reflexivity.
  apply after_nil.
Qed.

Lemma link_connected_bind (k : bool -> MT R) s :
  sbind (link_connected B) k s = k (link_up B (up_n s)) (next_up s).
Proof.
  rewrite (sbind_returned _ _ _ [] (link_up B (up_n s)) (next_up s))
    by reflexivity.
  apply after_nil.
Qed.

Lemma link_connect_bind (k : bool -> MT R) s :
  sbind (link_connect B) k s
  = after [Call "mqttClient.connect"] (k (link_try B (try_n s)) (next_try s)).
Proof. now apply sbind_returned. Qed.

Lemma link_get_state_bind (k : Z -> MT R) s :
  sbind (link_get_state B) k s = k (link_state B (try_n s)) s.
Proof.
  rewrite (sbind_returned _ _ _ [] (link_state B (try_n s)) s) by reflexivity.
  apply after_nil.
Qed.

Lemma fs_close_bind (name : string) (k : unit -> MT R) s :
  sbind (fs_close name) k s = after [FsClose name] (k tt s).
Proof. now apply sbind_returned. Qed.

Lemma fs_remove_bind (path : string) (k : bool -> MT R) s :
  sbind (fs_remove B path) k s
  = after [FsRemove path (remove_ok B (rm_n s))]
      (k (remove_ok B (rm_n s)) (next_rm s)).
Proof. now apply sbind_returned. Qed.

Lemma time_now_sbind (k : Z -> MT R) s :
  sbind (lift (time_now E)) k s
  = k (wall_src E (wall_n (core s))) (with_core (next_wall (core s)) s).
Proof.
  rewrite (sbind_returned _ _ _ [] (wall_src E (wall_n (core s)))
             (with_core (next_wall (core s)) s)) by reflexivity.
  apply after_nil.
Qed.

End BootSteps.

(** Symbolic execution of straight-line code of the boot phase. *)
Ltac sexec :=
  repeat first
    [ rewrite sbind_assoc
    | rewrite say_bind | rewrite say_int_bind | rewrite call_bind
    | rewrite pause_bind | rewrite sret_bind
    | rewrite wifi_status_bind | rewrite link_connected_bind
    | rewrite link_connect_bind | rewrite link_get_state_bind
    | rewrite fs_close_bind | rewrite fs_remove_bind | rewrite time_now_sbind
    | rewrite after_after | rewrite after_pair ].

(** *** Projections of a trace *)

Lemma remove_requests_app (t1 t2 : list Trace) :
  remove_requests (t1 ++ t2) = remove_requests t1 ++ remove_requests t2.
Proof. apply flat_map_app. Qed.

Lemma deleted_app (t1 t2 : list Trace) : deleted (t1 ++ t2) = deleted t1 ++ deleted t2.
Proof. apply flat_map_app. Qed.

Lemma deleted_map_core (evs : list Event) : deleted (map Core evs) = [].
Proof. induction evs as [|e evs IH]; [reflexivity | exact IH]. Qed.

Lemma closed_app (t1 t2 : list Trace) : closed (t1 ++ t2) = closed t1 ++ closed t2.
Proof. apply flat_map_app. Qed.

Lemma conversions_app (t1 t2 : list Trace) :
  conversions (t1 ++ t2) = conversions t1 ++ conversions t2.
Proof. apply flat_map_app. Qed.

Lemma waited_app (t1 t2 : list Trace) : waited (t1 ++ t2) = waited t1 + waited t2.
Proof.
  unfold waited. rewrite flat_map_app.
  induction (flat_map _ t1) as [|x xs IH]; cbn [app fold_right]; lia.
Qed.

Lemma ticks_S (n : nat) :
  ticks (S n) = [Core (EvDelay 500); Say "."%string] ++ ticks n.
Proof. reflexivity. Qed.

Lemma ticks_waited (n : nat) : waited (ticks n) = 500 * Z.of_nat n.
Proof.
  induction n as [|n IH]; [reflexivity|].
  rewrite ticks_S, waited_app, IH. unfold waited at 1. cbn. lia.
Qed.

Lemma ticks_deleted (n : nat) : deleted (ticks n) = [].
Proof.
  induction n as [|n IH]; [reflexivity|].
  rewrite ticks_S, deleted_app, IH. reflexivity.
Qed.

Lemma ticks_quiet (n : nat) :
  conversions (ticks n) = [] /\ remove_requests (ticks n) = [] /\ closed (ticks n) = [].
Proof.
  induction n as [|n (IH1 & IH2 & IH3)]; [repeat split|].
  rewrite ticks_S, conversions_app, remove_requests_app, closed_app, IH1, IH2, IH3.
  repeat split.
Qed.


(* ------------------------------------------------------------------ *)
(** ** clearOldRecordings                                              *)
(* ------------------------------------------------------------------ *)

Section Purge.

Variable B : Board.

(** The loop over the directory returns whatever the removals answer; it
    closes every file it was given and asks to remove exactly those whose
    name begins with "recording", under "/" and their name. *)
Lemma purge_run (names : list string) :
  forall s,
    exists t,
      purge B names s
      = (t, Returned tt (with_rm (rm_n s + length (List.filter is_recording names))%nat s))
      /\ remove_requests t = map (String.append "/") (List.filter is_recording names)
      /\ closed t = names
      /\ conversions t = [] /\ waited t = 0.
Proof.
  induction names as [|fname rest IH]; intros s.
  - exists []. cbn. rewrite Nat.add_0_r. repeat split. now destruct s.
  - cbn [purge List.filter].
    change (is_recording fname) with (startsWith fname "recording").
    destruct (startsWith fname "recording") eqn:Hrec.
    + sexec.
      destruct (IH (next_rm s)) as (t & Hrun & Hrm & Hcl & Hcv & Hw).
      assert (Hst : with_rm (rm_n (next_rm s)
                             + length (List.filter is_recording rest))%nat
                      (next_rm s)
                    = with_rm (rm_n s + length (fname :: List.filter is_recording rest))%nat s).
      { unfold with_rm, next_rm.
        cbn [core deviceId mqttTopic wifi_n up_n try_n rm_n length].
        f_equal. lia. }
      destruct (remove_ok B (rm_n s)); sexec; rewrite Hrun, after_pair, Hst;
        eexists; (split; [reflexivity|]);
        rewrite ?remove_requests_app, ?closed_app, ?conversions_app, ?waited_app,
          Hrm, Hcl, Hcv, Hw; repeat split.
    + sexec. destruct (IH s) as (t & Hrun & Hrm & Hcl & Hcv & Hw).
      rewrite Hrun, after_pair. eexists. split; [reflexivity|].
      rewrite ?remove_requests_app, ?closed_app, ?conversions_app, ?waited_app,
        Hrm, Hcl, Hcv, Hw. repeat split.
Qed.

Lemma clearOldRecordings_run (s : Sys) :
  exists t,
    clearOldRecordings B s
    = (t, Returned tt
            (with_rm (rm_n s + length (List.filter is_recording (listing B)))%nat s))
    /\ remove_requests t = map (String.append "/") (List.filter is_recording (listing B))
    /\ closed t = listing B
    /\ conversions t = [] /\ waited t = 0.
Proof.
  unfold clearOldRecordings. sexec.
  destruct (purge_run (listing B) s) as (t & Hrun & Hrm & Hcl & Hcv & Hw).
  rewrite (sbind_returned _ _ _ _ _ _ Hrun). sexec.
  unfold say, after. cbn [fst snd].
  eexists. split; [reflexivity|].
  rewrite ?remove_requests_app, ?closed_app, ?conversions_app, ?waited_app,
    Hrm, Hcl, Hcv, Hw.
  cbn. rewrite !app_nil_r. repeat split.
Qed.

(** The files the purge deletes are those among its requests that
    [SPIFFS.remove] answers with success. *)
Lemma purge_deleted (names : list string) :
  forall s,
    deleted (trace_of (purge B names s))
    = answered (remove_ok B) (rm_n s)
        (map (String.append "/") (List.filter is_recording names)).
Proof.
  induction names as [|fname rest IH]; intros s; [reflexivity|].
  cbn [purge List.filter].
  change (is_recording fname) with (startsWith fname "recording").
  destruct (startsWith fname "recording") eqn:Hrec.
  - sexec. cbn [map answered].
    destruct (remove_ok B (rm_n s)); sexec;
      rewrite !trace_of_after, !deleted_app, IH; reflexivity.
  - sexec. rewrite !trace_of_after, !deleted_app, IH. reflexivity.
Qed.

Lemma clearOldRecordings_deleted (s : Sys) :
  deleted (trace_of (clearOldRecordings B s))
  = answered (remove_ok B) (rm_n s)
      (map (String.append "/") (List.filter is_recording (listing B))).
Proof.
  unfold clearOldRecordings. sexec.
  destruct (purge_run (listing B) s) as (t & Hrun & _).
  pose proof (purge_deleted (listing B) s) as Hdel.
  rewrite Hrun in Hdel. cbn [trace_of fst] in Hdel.
  rewrite (sbind_returned _ _ _ _ _ _ Hrun). sexec.
  unfold say, after. cbn [trace_of fst snd].
  rewrite !deleted_app, Hdel. cbn. now rewrite app_nil_r.
Qed.

End Purge.

(** X14. The purge at boot asks to remove exactly the recordings: it
    always returns, whatever the removals answer; it closes every file the
    directory yields, once; and it asks to remove the path "/" + name for
    exactly the names that begin with "recording", in directory order. A
    name without that beginning -- one that the file system reports with its
    leading slash included -- is never asked for. *)
Theorem purge_removes_exactly_the_recordings (B : Board) (s : Sys) :
  exists t s',
    clearOldRecordings B s = (t, Returned tt s')
    /\ core s' = core s
    /\ closed t = listing B
    /\ remove_requests t = map (String.append "/") (List.filter is_recording (listing B))
    /\ (forall name,
          In ("/" ++ name)%string (remove_requests t)
          <-> In name (listing B) /\ startsWith name "recording" = true)
    /\ (forall name, startsWith name "/" = true ->
                     ~ In ("/" ++ name)%string (remove_requests t)).
Proof.
  destruct (clearOldRecordings_run B s) as (t & Hrun & Hrm & Hcl & _).
  exists t. eexists. split; [exact Hrun|]. split; [reflexivity|].
  split; [exact Hcl|]. split; [exact Hrm|].
  assert (Hiff : forall name,
             In ("/" ++ name)%string (remove_requests t)
             <-> In name (listing B) /\ startsWith name "recording" = true).
  { intros name. rewrite Hrm, in_map_iff. split.
    - intros (n & Heq & Hin). apply filter_In in Hin as (Hin & Hrec).
      cbn in Heq. inversion Heq; subst. split; [exact Hin | exact Hrec].
    - intros (Hin & Hrec). exists name. split; [reflexivity|].
      apply filter_In. split; [exact Hin | exact Hrec]. }
  split; [exact Hiff|].
  intros name Hslash Hin. apply Hiff in Hin as (_ & Hrec).
  unfold startsWith in *.
  destruct name as [|c name]; [vm_compute in Hslash; discriminate Hslash|].
  cbn [String.prefix] in Hslash, Hrec.
  destruct (ascii_dec "/" c) as [<-|]; [|discriminate Hslash].
  destruct (ascii_dec "r" "/") as [Hc|]; [discriminate Hc | discriminate Hrec].
Qed.

Example purge_on_the_lab_board :
  remove_requests (trace_of (clearOldRecordings lab_board reset))
  = ["/recording_20250702_113533.bin"%string;
     "/recording_20250702_120000.bin"%string]
  /\ closed (trace_of (clearOldRecordings lab_board reset)) = listing lab_board.
Proof. split; reflexivity. Qed.

(** X15. What a capture stores, the next boot purges: if the directory
    lists a recording under the name [strftime] gave it (without the leading
    slash), the purge asks to remove exactly the path [recordAndAlert]
    opened. *)
Theorem purge_targets_the_path_of_a_recording (B : Board) (s : Sys) (t : Tm) :
  tm_ok t ->
  In (recording_name t) (listing B) ->
  exists p,
    recording_path t = Some p
    /\ In p (remove_requests (trace_of (clearOldRecordings B s))).
Proof.
  intros Hok Hin.
  destruct (recording_path_layout t Hok) as (Hp & _).
  destruct (clearOldRecordings_run B s) as (tr & Hrun & Hrm & _).
  eexists. split; [exact Hp|].
  rewrite Hrun. cbn [trace_of fst]. rewrite Hrm.
  apply in_map_iff. exists (recording_name t). split; [reflexivity|].
  apply filter_In. split; [exact Hin|].
  unfold is_recording, startsWith, recording_name.
  change (String.prefix "recording"
            ("recording" ++ ("_" ++ (fmt_d (1900 + tm_year t) ++
               fmt_02d (tm_mon t + 1) ++ fmt_02d (tm_mday t) ++ "_" ++
               fmt_02d (tm_hour t) ++ fmt_02d (tm_min t) ++
               fmt_02d (tm_sec t) ++ ".bin"))) = true).
  apply prefix_app.
Qed.

Lemma purge_targets_the_path_of_a_recording_witness :
  tm_ok tm_example
  /\ In (recording_name tm_example) (listing lab_board)
  /\ In "/recording_20250702_113533.bin"%string
        (remove_requests (trace_of (clearOldRecordings lab_board reset))).
Proof.
  assert (Hin : In (recording_name tm_example) (listing lab_board))
    by (left; reflexivity).
  split; [exact tm_example_ok|]. split; [exact Hin|].
  destruct (purge_targets_the_path_of_a_recording lab_board reset tm_example
              tm_example_ok Hin) as (p & Hp & Hrm).
  assert (Heq : p = "/recording_20250702_113533.bin"%string).
  { assert (Hc : recording_path tm_example
                 = Some "/recording_20250702_113533.bin"%string) by reflexivity.
    rewrite Hc in Hp. now inversion Hp. }
  rewrite <- Heq. exact Hrm.
Defined.


(* ------------------------------------------------------------------ *)
(** ** The waits of the boot phase and the broker link                 *)
(* ------------------------------------------------------------------ *)

Section Waits.

Variable B : Board.
Variable E : Env.

(** As long as the WiFi is down the wait goes on: a bound of [n] polls
    that all read "not connected" ends blocked after [n] rounds. *)
Lemma wifi_wait_down (n : nat) :
  forall s,
    (forall j, (j < n)%nat -> wifi_up B (wifi_n s + j) = false) ->
    wifi_wait B n s = (ticks n, Blocked).
Proof.
  induction n as [|n IH]; intros s Hdown; [reflexivity|].
  cbn [wifi_wait]. sexec.
  pose proof (Hdown 0%nat ltac:(lia)) as H0. rewrite Nat.add_0_r in H0.
  rewrite H0. sexec. rewrite IH.
  - rewrite after_pair. reflexivity.
  - intros j Hj. cbn [next_wifi wifi_n].
    replace (S (wifi_n s) + j)%nat with (wifi_n s + S j)%nat by lia.
    apply Hdown. lia.
Qed.

(** The wait ends at the first poll that reads "connected". *)
Lemma wifi_wait_up (k : nat) :
  forall fuel s,
    (forall j, (j < k)%nat -> wifi_up B (wifi_n s + j) = false) ->
    wifi_up B (wifi_n s + k) = true ->
    (k < fuel)%nat ->
    wifi_wait B fuel s = (ticks k, Returned tt (with_wifi (wifi_n s + S k) s)).
Proof.
  induction k as [|k IH]; intros fuel s Hdown Hup Hfuel;
    (destruct fuel as [|fuel]; [lia|]); cbn [wifi_wait]; sexec.
  - rewrite Nat.add_0_r in Hup. rewrite Hup. unfold sret.
    do 2 f_equal. unfold next_wifi, with_wifi. f_equal. lia.
  - pose proof (Hdown 0%nat ltac:(lia)) as H0. rewrite Nat.add_0_r in H0.
    rewrite H0. sexec. rewrite (IH fuel (next_wifi s)).
    + rewrite after_pair. cbn [next_wifi wifi_n]. do 2 f_equal.
      unfold with_wifi, next_wifi.
      cbn [core deviceId mqttTopic rm_n up_n try_n]. f_equal. lia.
    + intros j Hj. cbn [next_wifi wifi_n].
      replace (S (wifi_n s) + j)%nat with (wifi_n s + S j)%nat by lia.
      apply Hdown. lia.
    + cbn [next_wifi wifi_n].
      now replace (S (wifi_n s) + k)%nat with (wifi_n s + S k)%nat by lia.
    + lia.
Qed.

Lemma connectWiFi_down (n : nat) (s : Sys) :
  (forall j, (j < n)%nat -> wifi_up B (wifi_n s + j) = false) ->
  connectWiFi B n s
  = ([Say "Connecting to WiFi..."; Call "WiFi.begin"] ++ ticks n, Blocked).
Proof.
  intros Hdown. unfold connectWiFi. sexec.
  rewrite (sbind_blocked _ _ _ _ (wifi_wait_down n s Hdown)). reflexivity.
Qed.

Lemma connectWiFi_up (k fuel : nat) (s : Sys) :
  (forall j, (j < k)%nat -> wifi_up B (wifi_n s + j) = false) ->
  wifi_up B (wifi_n s + k) = true ->
  (k < fuel)%nat ->
  connectWiFi B fuel s
  = ([Say "Connecting to WiFi..."; Call "WiFi.begin"] ++ ticks k
       ++ [Say "WiFi Connected."; Say ("IP Address: " ++ local_ip B)],
     Returned tt (with_wifi (wifi_n s + S k) s)).
Proof.
  intros Hdown Hup Hfuel. unfold connectWiFi. sexec.
  rewrite (sbind_returned _ _ _ _ _ _ (wifi_wait_up k fuel s Hdown Hup Hfuel)).
  sexec. unfold say, after. cbn [fst snd].
  rewrite <- !app_assoc. reflexivity.
Qed.

(** The same two facts for the wait on the wall clock. *)
Lemma time_wait_unset (n : nat) :
  forall s,
    (forall j, (j < n)%nat -> wall_src E (wall_n (core s) + j) < 10000) ->
    time_wait E n s = (ticks n, Blocked).
Proof.
  induction n as [|n IH]; intros s Hunset; [reflexivity|].
  cbn [time_wait]. sexec.
  pose proof (Hunset 0%nat ltac:(lia)) as H0. rewrite Nat.add_0_r in H0.
  destruct (Z.ltb_spec (wall_src E (wall_n (core s))) 10000); [|lia].
  sexec. rewrite IH.
  - rewrite after_pair. reflexivity.
  - intros j Hj. cbn [with_core core next_wall wall_n].
    replace (S (wall_n (core s)) + j)%nat with (wall_n (core s) + S j)%nat by lia.
    apply Hunset. lia.
Qed.

Lemma time_wait_set (k : nat) :
  forall fuel s,
    (forall j, (j < k)%nat -> wall_src E (wall_n (core s) + j) < 10000) ->
    10000 <= wall_src E (wall_n (core s) + k) ->
    (k < fuel)%nat ->
    time_wait E fuel s
    = (ticks k,
       Returned tt (with_core (with_wall (wall_n (core s) + S k) (core s)) s)).
Proof.
  induction k as [|k IH]; intros fuel s Hunset Hset Hfuel;
    (destruct fuel as [|fuel]; [lia|]); cbn [time_wait]; sexec.
  - rewrite Nat.add_0_r in Hset.
    destruct (Z.ltb_spec (wall_src E (wall_n (core s))) 10000); [lia|].
    unfold sret. do 2 f_equal. unfold with_core, next_wall, with_wall.
    do 2 f_equal. lia.
  - pose proof (Hunset 0%nat ltac:(lia)) as H0. rewrite Nat.add_0_r in H0.
    destruct (Z.ltb_spec (wall_src E (wall_n (core s))) 10000); [|lia].
    sexec. rewrite (IH fuel (with_core (next_wall (core s)) s)).
    + rewrite after_pair. cbn [with_core core next_wall wall_n]. do 2 f_equal.
      unfold with_core, with_wall, next_wall.
      cbn [core deviceId mqttTopic wifi_n rm_n up_n try_n adc_dc_offset
           isRecording adc_n clk_n heap_n fs_n mqtt_n wall_n].
      do 2 f_equal. lia.
    + intros j Hj. cbn [with_core core next_wall wall_n].
      replace (S (wall_n (core s)) + j)%nat with (wall_n (core s) + S j)%nat by lia.
      apply Hunset. lia.
    + cbn [with_core core next_wall wall_n].
      now replace (S (wall_n (core s)) + k)%nat
        with (wall_n (core s) + S k)%nat by lia.
    + lia.
Qed.

Lemma initTime_unset (n : nat) (s : Sys) :
  (forall j, (j < n)%nat -> wall_src E (wall_n (core s) + j) < 10000) ->
  initTime E n s = ([Call "configTime"; Say "Syncing time..."] ++ ticks n, Blocked).
Proof.
  intros Hunset. unfold initTime. sexec.
  rewrite (sbind_blocked _ _ _ _ (time_wait_unset n s Hunset)). reflexivity.
Qed.

Lemma initTime_set (k fuel : nat) (s : Sys) :
  (forall j, (j < k)%nat -> wall_src E (wall_n (core s) + j) < 10000) ->
  10000 <= wall_src E (wall_n (core s) + k) ->
  (k < fuel)%nat ->
  initTime E fuel s
  = ([Call "configTime"; Say "Syncing time..."] ++ ticks k ++ [Say " done."],
     Returned tt (with_core (with_wall (wall_n (core s) + S k) (core s)) s)).
Proof.
  intros Hunset Hset Hfuel. unfold initTime. sexec.
  rewrite (sbind_returned _ _ _ _ _ _ (time_wait_set k fuel s Hunset Hset Hfuel)).
  unfold say, after. cbn [fst snd]. rewrite <- !app_assoc. reflexivity.
Qed.

End Waits.

(** X16. [connectWiFi] never gives up and never returns early. If the
    first k polls of the WiFi status read "not connected", then with a bound
    of at most k polls it is still waiting, having printed no "WiFi
    Connected."; and if poll k reads "connected" it returns right then,
    after exactly k rounds of [delay(500)] -- 500 * k ms of waiting -- with
    the core state untouched. *)
Theorem wifi_wait_ends_at_first_connected_poll
        (B : Board) (fuel k : nat) (s : Sys) :
  (forall j, (j < k)%nat -> wifi_up B (wifi_n s + j) = false) ->
  ((fuel <= k)%nat ->
     connectWiFi B fuel s
     = ([Say "Connecting to WiFi..."; Call "WiFi.begin"] ++ ticks fuel, Blocked))
  /\ (wifi_up B (wifi_n s + k) = true -> (k < fuel)%nat ->
      connectWiFi B fuel s
      = ([Say "Connecting to WiFi..."; Call "WiFi.begin"] ++ ticks k
           ++ [Say "WiFi Connected."; Say ("IP Address: " ++ local_ip B)],
         Returned tt (with_wifi (wifi_n s + S k) s))
      /\ waited (trace_of (connectWiFi B fuel s)) = 500 * Z.of_nat k
      /\ core (with_wifi (wifi_n s + S k) s) = core s).
Proof.
  intros Hdown. split.
  - intros Hle. apply connectWiFi_down. intros j Hj. apply Hdown. lia.
  - intros Hup Hfuel.
    pose proof (connectWiFi_up B k fuel s Hdown Hup Hfuel) as Hrun.
    split; [exact Hrun|]. split; [|reflexivity].
    rewrite Hrun. cbn [trace_of fst].
    rewrite !waited_app, ticks_waited. unfold waited. cbn. lia.
Qed.

Lemma wifi_wait_ends_at_first_connected_poll_witness :
  (forall j, (j < 2)%nat -> wifi_up lab_board (wifi_n reset + j) = false)
  /\ waited (trace_of (connectWiFi lab_board 5 reset)) = 1000
  /\ result_of (connectWiFi lab_board 2 reset) = Blocked.
Proof.
  assert (H : forall j, (j < 2)%nat -> wifi_up lab_board (wifi_n reset + j) = false).
  { intros j Hj. cbn [wifi_up lab_board wifi_n reset Nat.add].
    apply Nat.leb_gt. lia. }
  split; [exact H|].
  destruct (wifi_wait_ends_at_first_connected_poll lab_board 5 2 reset H)
    as (_ & Hup).
  destruct (Hup eq_refl ltac:(lia)) as (_ & Hw & _).
  split; [exact Hw|].
  destruct (wifi_wait_ends_at_first_connected_poll lab_board 2 2 reset H)
    as (Hdown & _).
  rewrite (Hdown (Nat.le_refl 2)). reflexivity.
Defined.

(** X17. [initTime] returns only once the wall clock reads at least
    10000 s: if the first k readings are below 10000 it is still waiting
    within any bound of at most k readings, and if reading k is at least
    10000 it returns right then, after exactly k rounds of [delay(500)],
    having changed nothing in the core but the count of clock readings. *)
Theorem time_wait_ends_at_first_set_reading
        (E : Env) (fuel k : nat) (s : Sys) :
  (forall j, (j < k)%nat -> wall_src E (wall_n (core s) + j) < 10000) ->
  ((fuel <= k)%nat ->
     initTime E fuel s
     = ([Call "configTime"; Say "Syncing time..."] ++ ticks fuel, Blocked))
  /\ (10000 <= wall_src E (wall_n (core s) + k) -> (k < fuel)%nat ->
      initTime E fuel s
      = ([Call "configTime"; Say "Syncing time..."] ++ ticks k ++ [Say " done."],
         Returned tt (with_core (with_wall (wall_n (core s) + S k) (core s)) s))
      /\ waited (trace_of (initTime E fuel s)) = 500 * Z.of_nat k).
Proof.
  intros Hunset. split.
  - intros Hle. apply initTime_unset. intros j Hj. apply Hunset. lia.
  - intros Hset Hfuel.
    pose proof (initTime_set E k fuel s Hunset Hset Hfuel) as Hrun.
    split; [exact Hrun|].
    rewrite Hrun. cbn [trace_of fst].
    rewrite !waited_app, ticks_waited. unfold waited. cbn. lia.
Qed.

Lemma time_wait_ends_at_first_set_reading_witness :
  (forall j, (j < 1)%nat -> wall_src bench_synced (wall_n (core reset) + j) < 10000)
  /\ waited (trace_of (initTime bench_synced 5 reset)) = 500.
Proof.
  assert (H : forall j, (j < 1)%nat ->
                        wall_src bench_synced (wall_n (core reset) + j) < 10000).
  { intros j Hj. assert (j = 0%nat) as -> by lia. cbn. lia. }
  split; [exact H|].
  destruct (time_wait_ends_at_first_set_reading bench_synced 5 1 reset H)
    as (_ & Hset).
  destruct (Hset ltac:(cbn; lia) ltac:(lia)) as (_ & Hw). exact Hw.
Defined.


Section Link.

Variable B : Board.

Lemma mqtt_attempt_shift (t0 j : nat) :
  mqtt_attempt B (S t0) j = mqtt_attempt B t0 (S j).
Proof.
  unfold mqtt_attempt.
  replace (S t0 + j)%nat with (t0 + S j)%nat by lia.
  now replace (S t0 + S j)%nat with (t0 + S (S j))%nat by lia.
Qed.

Lemma attempts_shift (t0 n : nat) :
  flat_map (mqtt_attempt B (S t0)) (seq 0 n)
  = flat_map (mqtt_attempt B t0) (seq 1 n).
Proof.
  rewrite <- seq_shift, flat_map_concat_map, flat_map_concat_map, map_map.
  f_equal. apply map_ext. intros j. apply mqtt_attempt_shift.
Qed.

(** One round of the loop of [connectMQTT] when the link is down. *)
Lemma connectMQTT_round (fuel : nat) (s : Sys) :
  link_up B (up_n s) = false ->
  connectMQTT B (S fuel) s
  = after (mqtt_attempt B (try_n s) 0)
      (connectMQTT B fuel (next_try (next_up s))).
Proof.
  intros Hdown. cbn [connectMQTT]. sexec. rewrite Hdown. sexec.
  cbn [next_up try_n]. unfold mqtt_attempt. rewrite Nat.add_0_r.
  destruct (link_try B (try_n s)); sexec.
  - reflexivity.
  - cbn [next_try try_n]. now replace (try_n s + 1)%nat with (S (try_n s)) by lia.
Qed.

Lemma connectMQTT_down (n : nat) :
  forall s,
    (forall j, (j < n)%nat -> link_up B (up_n s + j) = false) ->
    connectMQTT B n s = (flat_map (mqtt_attempt B (try_n s)) (seq 0 n), Blocked).
Proof.
  induction n as [|n IH]; intros s Hdown; [reflexivity|].
  pose proof (Hdown 0%nat ltac:(lia)) as H0. rewrite Nat.add_0_r in H0.
  rewrite (connectMQTT_round n s H0), IH.
  - rewrite after_pair. cbn [next_try next_up try_n].
    rewrite attempts_shift. reflexivity.
  - intros j Hj. cbn [next_try next_up up_n].
    replace (S (up_n s) + j)%nat with (up_n s + S j)%nat by lia.
    apply Hdown. lia.
Qed.

Lemma connectMQTT_up (k : nat) :
  forall fuel s,
    (forall j, (j < k)%nat -> link_up B (up_n s + j) = false) ->
    link_up B (up_n s + k) = true ->
    (k < fuel)%nat ->
    connectMQTT B fuel s
    = (flat_map (mqtt_attempt B (try_n s)) (seq 0 k),
       Returned tt (with_link (up_n s + S k) (try_n s + k) s)).
Proof.
  induction k as [|k IH]; intros fuel s Hdown Hup Hfuel;
    (destruct fuel as [|fuel]; [lia|]).
  - cbn [connectMQTT]. sexec. rewrite Nat.add_0_r in Hup. rewrite Hup.
    unfold sret. cbn [seq flat_map]. do 2 f_equal.
    unfold next_up, with_link. f_equal; lia.
  - pose proof (Hdown 0%nat ltac:(lia)) as H0. rewrite Nat.add_0_r in H0.
    rewrite (connectMQTT_round fuel s H0).
    rewrite (IH fuel (next_try (next_up s))).
    + rewrite after_pair. cbn [next_try next_up try_n up_n].
      rewrite attempts_shift. cbn [seq flat_map]. do 2 f_equal.
      unfold with_link, next_try, next_up.
      cbn [core deviceId mqttTopic wifi_n rm_n]. f_equal; lia.
    + intros j Hj. cbn [next_try next_up up_n].
      replace (S (up_n s) + j)%nat with (up_n s + S j)%nat by lia.
      apply Hdown. lia.
    + cbn [next_try next_up up_n].
      now replace (S (up_n s) + k)%nat with (up_n s + S k)%nat by lia.
    + lia.
Qed.

Lemma attempts_waited (t0 : nat) (k : nat) :
  forall a,
    waited (flat_map (mqtt_attempt B t0) (seq a k))
    = 5000 * Z.of_nat
               (length (List.filter (fun j => negb (link_try B (t0 + j))) (seq a k))).
Proof.
  induction k as [|k IH]; intros a; [reflexivity|].
  cbn [seq flat_map List.filter]. rewrite waited_app, IH.
  unfold mqtt_attempt. destruct (link_try B (t0 + a)); cbn [negb length].
  - unfold waited at 1. cbn. lia.
  - unfold waited at 1. cbn. lia.
Qed.

Lemma attempts_quiet (t0 : nat) (k : nat) :
  forall a, conversions (flat_map (mqtt_attempt B t0) (seq a k)) = [].
Proof.
  induction k as [|k IH]; intros a; [reflexivity|].
  cbn [seq flat_map]. rewrite conversions_app, IH.
  unfold mqtt_attempt. now destruct (link_try B (t0 + a)).
Qed.

End Link.

(** X18. [connectMQTT] retries for ever, five seconds after each failure.
    If the first k polls of [connected()] read false, it is still trying
    within any bound of at most k polls; if poll k reads true it returns
    right then, having made exactly k attempts, each failed one followed by
    its report and [delay(5000)] and each successful one by no delay, so it
    has waited 5000 ms times the number of failed attempts. With the link
    already up (k = 0) it does nothing at all. It takes no conversion and
    leaves the core state as it was. *)
Theorem mqtt_reconnect_retries_every_five_seconds
        (B : Board) (fuel k : nat) (s : Sys) :
  (forall j, (j < k)%nat -> link_up B (up_n s + j) = false) ->
  ((fuel <= k)%nat -> result_of (connectMQTT B fuel s) = Blocked)
  /\ (link_up B (up_n s + k) = true -> (k < fuel)%nat ->
      connectMQTT B fuel s
      = (flat_map (mqtt_attempt B (try_n s)) (seq 0 k),
         Returned tt (with_link (up_n s + S k) (try_n s + k) s))
      /\ waited (trace_of (connectMQTT B fuel s))
         = 5000 * Z.of_nat (failed_attempts B (try_n s) k)
      /\ conversions (trace_of (connectMQTT B fuel s)) = []
      /\ core (with_link (up_n s + S k) (try_n s + k) s) = core s
      /\ (k = 0%nat -> trace_of (connectMQTT B fuel s) = [])).
Proof.
  intros Hdown. split.
  - intros Hle. rewrite (connectMQTT_down B fuel s); [reflexivity|].
    intros j Hj. apply Hdown. lia.
  - intros Hup Hfuel.
    pose proof (connectMQTT_up B k fuel s Hdown Hup Hfuel) as Hrun.
    split; [exact Hrun|]. rewrite Hrun. cbn [trace_of fst].
    split; [apply attempts_waited|]. split; [apply attempts_quiet|].
    split; [reflexivity|]. intros ->. reflexivity.
Qed.

Lemma mqtt_reconnect_retries_every_five_seconds_witness :
  (forall j, (j < 2)%nat -> link_up lab_board (up_n reset + j) = false)
  /\ waited (trace_of (connectMQTT lab_board 5 reset)) = 5000
  /\ result_of (connectMQTT lab_board 2 reset) = Blocked.
Proof.
  assert (H : forall j, (j < 2)%nat -> link_up lab_board (up_n reset + j) = false).
  { intros j Hj. cbn [link_up lab_board up_n reset Nat.add].
    apply Nat.leb_gt. lia. }
  split; [exact H|].
  destruct (mqtt_reconnect_retries_every_five_seconds lab_board 5 2 reset H)
    as (_ & Hup).
  destruct (Hup eq_refl ltac:(lia)) as (_ & Hw & _).
  split; [rewrite Hw; reflexivity|].
  destruct (mqtt_reconnect_retries_every_five_seconds lab_board 2 2 reset H)
    as (Hdown & _).
  exact (Hdown (Nat.le_refl 2)).
Defined.


(* ------------------------------------------------------------------ *)
(** ** setup                                                           *)
(* ------------------------------------------------------------------ *)

Lemma first_true_or_none (f : nat -> bool) (n : nat) :
  (exists k, (k < n)%nat /\ f k = true /\ forall j, (j < k)%nat -> f j = false)
  \/ (forall j, (j < n)%nat -> f j = false).
Proof.
  induction n as [|n [(k & Hk & Hf & Hmin) | Hnone]].
  - right. intros j Hj. lia.
  - left. exists k. split; [lia|]. split; assumption.
  - destruct (f n) eqn:Hn.
    + left. exists n. split; [lia|]. split; [exact Hn | exact Hnone].
    + right. intros j Hj. destruct (Nat.eq_dec j n) as [->|]; [exact Hn|].
      apply Hnone. lia.
Qed.

Lemma lift_sbind_done {A R} (m : M A) (k : A -> MT R) s evs a w :
  m (core s) = (evs, Done a w) ->
  sbind (lift m) k s = after (map Core evs) (k a (with_core w s)).
Proof.
  intros Hm. apply sbind_returned. unfold lift. now rewrite Hm.
Qed.

Lemma halt_blocks (fuel : nat) :
  forall s, halt fuel s = (repeat (Core (EvDelay 1000)) fuel, Blocked).
Proof.
  induction fuel as [|fuel IH]; intros s; [reflexivity|].
  cbn [halt]. sexec. now rewrite IH.
Qed.

Lemma delays_quiet (ms : Z) (n : nat) :
  conversions (repeat (Core (EvDelay ms)) n) = []
  /\ remove_requests (repeat (Core (EvDelay ms)) n) = [].
Proof. induction n as [|n (IH1 & IH2)]; split; cbn; assumption || reflexivity. Qed.

Lemma calibration_conversions (xs : list Z) (offset : Z) :
  conversions (map Core (calibration_events xs offset)) = xs
  /\ waited (map Core (calibration_events xs offset)) = Z.of_nat (length xs)
  /\ remove_requests (map Core (calibration_events xs offset)) = [].
Proof.
  unfold calibration_events. cbn [map].
  rewrite map_app. cbn [map].
  change (Core (EvSerial "Calibrating mic DC offset... " []) :: ?l)
    with ([Core (EvSerial "Calibrating mic DC offset... " [])] ++ l).
  rewrite !conversions_app, !waited_app, !remove_requests_app.
  assert (H : conversions (map Core (flat_map (fun v => [EvAdc v; EvDelay 1]) xs)) = xs
              /\ waited (map Core (flat_map (fun v => [EvAdc v; EvDelay 1]) xs))
                 = Z.of_nat (length xs)
              /\ remove_requests (map Core (flat_map (fun v => [EvAdc v; EvDelay 1]) xs)) = []).
  { induction xs as [|x xs (IH1 & IH2 & IH3)]; [repeat split|].
    cbn [flat_map app map].
    change (Core (EvAdc x) :: Core (EvDelay 1) :: ?l)
      with ([Core (EvAdc x); Core (EvDelay 1)] ++ l).
    rewrite conversions_app, waited_app, remove_requests_app, IH1, IH2, IH3.
    split; [reflexivity|]. split; [|reflexivity].
    unfold waited at 1. cbn [flat_map app fold_right length]. lia. }
  destruct H as (H1 & H2 & H3). rewrite H1, H2, H3.
  split; [now rewrite app_nil_r|]. split; [|reflexivity].
  unfold waited. cbn. lia.
Qed.

Section Setup.

Variable B : Board.
Variable E : Env.

(** [setup] either blocks before any conversion and any removal, or the
    WiFi came up, the wall clock was set and the file system mounted. *)
Lemma setup_cases (fuel : nat) (s : Sys) :
  (exists t, setup B E fuel s = (t, Blocked)
             /\ conversions t = [] /\ remove_requests t = [])
  \/ (spiffs_mount_ok B = true
      /\ exists a b,
           ((a < fuel)%nat /\ wifi_up B (wifi_n s + a) = true
            /\ forall j, (j < a)%nat -> wifi_up B (wifi_n s + j) = false)
           /\ ((b < fuel)%nat /\ 10000 <= wall_src E (wall_n (core s) + b)
               /\ forall j, (j < b)%nat ->
                            wall_src E (wall_n (core s) + j) < 10000)).
Proof.
  destruct (first_true_or_none (fun j => wifi_up B (wifi_n s + j)) fuel)
    as [(a & Ha & Hup & Hdown) | Hdown].
  2:{ left. unfold setup. sexec.
      rewrite (sbind_returned _ _ _ [] tt (named B s)) by reflexivity.
      rewrite after_nil.
      rewrite (sbind_blocked _ _ _ _ (connectWiFi_down B fuel (named B s) Hdown)).
      rewrite after_pair. eexists. split; [reflexivity|].
      rewrite !conversions_app, !remove_requests_app.
      destruct (ticks_quiet fuel) as (-> & -> & _). split; reflexivity. }
  destruct (first_true_or_none
              (fun j => 10000 <=? wall_src E (wall_n (core s) + j)) fuel)
    as [(b & Hb & Hset & Hunset) | Hunset].
  2:{ left. unfold setup. sexec.
      rewrite (sbind_returned _ _ _ [] tt (named B s)) by reflexivity.
      rewrite after_nil.
      rewrite (sbind_returned _ _ _ _ _ _
                 (connectWiFi_up B a fuel (named B s) Hdown Hup Ha)).
      sexec.
      assert (Hlow : forall j, (j < fuel)%nat ->
                wall_src E (wall_n (core (with_wifi (wifi_n (named B s) + S a) (named B s))) + j)
                < 10000).
      { intros j Hj. specialize (Hunset j Hj). cbn beta in Hunset.
        apply Z.leb_gt in Hunset. exact Hunset. }
      rewrite (sbind_blocked _ _ _ _
                 (initTime_unset E fuel (with_wifi (wifi_n (named B s) + S a) (named B s)) Hlow)).
      rewrite after_pair. eexists. split; [reflexivity|].
      rewrite !conversions_app, !remove_requests_app.
      destruct (ticks_quiet fuel) as (-> & -> & _).
      destruct (ticks_quiet a) as (-> & -> & _). split; reflexivity. }
  destruct (spiffs_mount_ok B) eqn:Hmount.
  - right. split; [reflexivity|]. exists a, b. split.
    + split; [exact Ha|]. split; assumption.
    + split; [exact Hb|]. split; [now apply Z.leb_le|].
      intros j Hj. specialize (Hunset j Hj). now apply Z.leb_gt in Hunset.
  - left. unfold setup. sexec.
    rewrite (sbind_returned _ _ _ [] tt (named B s)) by reflexivity.
    rewrite after_nil.
    rewrite (sbind_returned _ _ _ _ _ _
               (connectWiFi_up B a fuel (named B s) Hdown Hup Ha)).
    sexec.
    assert (Hlow : forall j, (j < b)%nat ->
              wall_src E (wall_n (core (with_wifi (wifi_n (named B s) + S a) (named B s))) + j)
              < 10000).
    { intros j Hj. specialize (Hunset j Hj). cbn beta in Hunset.
      apply Z.leb_gt in Hunset. exact Hunset. }
    assert (Hhigh : 10000 <= wall_src E
              (wall_n (core (with_wifi (wifi_n (named B s) + S a) (named B s))) + b)).
    { apply Z.leb_le. exact Hset. }
    rewrite (sbind_returned _ _ _ _ _ _
               (initTime_set E b fuel (with_wifi (wifi_n (named B s) + S a) (named B s))
                  Hlow Hhigh Hb)).
    sexec. unfold setupWebServer. sexec. rewrite Hmount. cbn [negb]. sexec.
    rewrite (sbind_blocked _ _ _ _ (halt_blocks fuel _)).
    rewrite after_pair. eexists. split; [reflexivity|].
    rewrite !conversions_app, !remove_requests_app.
    destruct (ticks_quiet a) as (-> & -> & _).
    destruct (ticks_quiet b) as (-> & -> & _).
    destruct (delays_quiet 1000 fuel) as (-> & ->). split; reflexivity.
Qed.

(** [setup] when the WiFi comes up at poll [a], the wall clock is set at
    reading [b] and the file system mounts. *)
Lemma setup_run (fuel a b : nat) (s : Sys) :
  spiffs_mount_ok B = true ->
  (a < fuel)%nat -> wifi_up B (wifi_n s + a) = true ->
  (forall j, (j < a)%nat -> wifi_up B (wifi_n s + j) = false) ->
  (b < fuel)%nat -> 10000 <= wall_src E (wall_n (core s) + b) ->
  (forall j, (j < b)%nat -> wall_src E (wall_n (core s) + j) < 10000) ->
  let entry := with_wall (wall_n (core s) + S b) (core s) in
  let xs := samples E (adc_n (core s)) CALIBRATION_SAMPLES in
  exists t s',
    setup B E fuel s = (t, Returned tt s')
    /\ core s'
       = with_offset (to_int (long_div (fold_left long_add xs 0) 1024))
           (with_adc (adc_n (core s) + CALIBRATION_SAMPLES)%nat entry)
    /\ deviceId s' = device_id (efuse_mac B)
    /\ mqttTopic s' = mqtt_topic (efuse_mac B)
    /\ conversions t = xs
    /\ waited t = 2000 + 500 * Z.of_nat a + 500 * Z.of_nat b + 1024
    /\ remove_requests t = map (String.append "/") (List.filter is_recording (listing B))
    /\ deleted t
       = answered (remove_ok B) (rm_n s)
           (map (String.append "/") (List.filter is_recording (listing B)))
    /\ last t = Some (Core (EvSerial "Ready. Listening for sound > %d amplitude"
                                      [AMPLITUDE_THRESHOLD])).
Proof.
  intros Hmount Ha Hup Hdown Hb Hset Hunset entry xs.
  unfold setup. sexec.
  rewrite (sbind_returned _ _ _ [] tt (named B s)) by reflexivity.
  rewrite after_nil.
  rewrite (sbind_returned _ _ _ _ _ _
             (connectWiFi_up B a fuel (named B s) Hdown Hup Ha)).
  sexec.
  rewrite (sbind_returned _ _ _ _ _ _
             (initTime_set E b fuel (with_wifi (wifi_n (named B s) + S a) (named B s))
                Hunset Hset Hb)).
  sexec. unfold setupWebServer. sexec. rewrite Hmount. cbn [negb]. sexec.
  match goal with
  | |- context [sbind (clearOldRecordings B) _ ?s1] =>
      destruct (clearOldRecordings_run B s1) as (tp & Hpurge & Hrm & _ & Hcv & Hw);
      pose proof (clearOldRecordings_deleted B s1) as Hdel;
      rewrite Hpurge in Hdel;
      cbn [trace_of fst rm_n with_core with_wifi with_ids named] in Hdel;
      rewrite (sbind_returned _ _ _ _ _ _ Hpurge)
  end.
  sexec.
  match goal with
  | |- context [sbind (lift (calibrateDCOffset E)) ?k ?s1] =>
      pose proof (calibrateDCOffset_run E (core s1)) as Hcal; cbv zeta in Hcal;
      rewrite (lift_sbind_done (calibrateDCOffset E) k s1 _ _ _ Hcal)
  end.
  clear Hcal Hpurge.
  unfold lift, serial, emit, after, named.
  cbn [fst snd core with_core with_wifi with_rm with_ids deviceId mqttTopic map].
  change (adc_n (with_wall (wall_n (core s) + S b) (core s))) with (adc_n (core s)).
  fold entry. fold xs.
  do 2 eexists. split; [reflexivity|].
  split; [reflexivity|]. split; [reflexivity|]. split; [reflexivity|].
  destruct (calibration_conversions xs
              (to_int (long_div (fold_left long_add xs 0) 1024)))
    as (Hc1 & Hc2 & Hc3).
  destruct (ticks_quiet a) as (Ha1 & Ha2 & _).
  destruct (ticks_quiet b) as (Hb1 & Hb2 & _).
  rewrite !conversions_app, !waited_app, !remove_requests_app, !deleted_app,
    !ticks_waited, !ticks_deleted.
  rewrite Hc1, Hc2, Hc3, Ha1, Ha2, Hb1, Hb2, Hcv, Hw, Hrm, Hdel.
  rewrite (deleted_map_core
             (calibration_events xs (to_int (long_div (fold_left long_add xs 0) 1024)))).
  assert (Hlen : Z.of_nat (length xs) = 1024).
  { unfold xs. rewrite samples_length. reflexivity. }
  rewrite Hlen. clearbody xs entry.
  split; [cbn; now rewrite !app_nil_r|].
  split; [unfold waited; cbn; lia|].
  split; [cbn; now rewrite !app_nil_r|].
  split; [cbn; now rewrite !app_nil_r|].
  rewrite !app_assoc. apply last_snoc.
Qed.

End Setup.


(** X19. [setup] does nothing with the microphone or the stored files before
    the board is ready: if a run of [setup] takes a conversion, asks to
    remove a file or returns, then the file system mounted, the WiFi reported
    connected at one of the polls and the wall clock read at least 10000
    at one of the readings. In particular, on a board whose file system
    does not mount, [setup] never returns, whatever the polling bound. *)
Theorem setup_acts_only_on_a_ready_board (B : Board) (E : Env) (fuel : nat) (s : Sys) :
  (conversions (trace_of (setup B E fuel s)) <> []
   \/ remove_requests (trace_of (setup B E fuel s)) <> []
   \/ result_of (setup B E fuel s) <> Blocked) ->
  spiffs_mount_ok B = true
  /\ (exists a, (a < fuel)%nat /\ wifi_up B (wifi_n s + a) = true)
  /\ (exists b, (b < fuel)%nat /\ 10000 <= wall_src E (wall_n (core s) + b)).
Proof.
  intros Hacts.
  destruct (setup_cases B E fuel s)
    as [(t & Hrun & Hcv & Hrm) | (Hmount & a & b & (Ha & Hup & _) & (Hb & Hset & _))].
  - exfalso. rewrite Hrun in Hacts. cbn [trace_of result_of fst snd] in Hacts.
    destruct Hacts as [H | [H | H]]; [now apply H | now apply H | now apply H].
  - split; [exact Hmount|]. split; [now exists a | now exists b].
Qed.

Lemma setup_acts_only_on_a_ready_board_witness :
  result_of (setup lab_board bench_synced 3 reset) <> Blocked
  /\ spiffs_mount_ok lab_board = true
  /\ (exists a, (a < 3)%nat /\ wifi_up lab_board (wifi_n reset + a) = true)
  /\ (exists b, (b < 3)%nat
                /\ 10000 <= wall_src bench_synced (wall_n (core reset) + b)).
Proof.
  assert (H : result_of (setup lab_board bench_synced 3 reset) <> Blocked).
  { vm_compute. discriminate. }
  split; [exact H|].
  apply (setup_acts_only_on_a_ready_board lab_board bench_synced 3 reset).
  right. right. exact H.
Defined.

(** X20. On a board whose file system mounts, with the WiFi first connected
    at poll [a], the wall clock first set at reading [b] and 12-bit
    conversions, [setup] returns for every polling bound above [a] and
    [b]: the device id and the topic are those of the chip, the offset is
    the truncated mean of the 1024 conversions it took (and it took no
    other), the lock is untouched, [SPIFFS.remove] was asked for exactly
    the recordings of the listing, in order, the files deleted are those
    among them for which it answered with success (a recording whose
    removal fails stays), the waiting adds up to
    2000 + 500 a + 500 b + 1024 ms, and the last line is the Ready
    line. *)
Theorem setup_returns_named_and_calibrated_after_the_purge
    (B : Board) (E : Env) (fuel a b : nat) (s : Sys) :
  spiffs_mount_ok B = true ->
  (a < fuel)%nat -> wifi_up B (wifi_n s + a) = true ->
  (forall j, (j < a)%nat -> wifi_up B (wifi_n s + j) = false) ->
  (b < fuel)%nat -> 10000 <= wall_src E (wall_n (core s) + b) ->
  (forall j, (j < b)%nat -> wall_src E (wall_n (core s) + j) < 10000) ->
  (forall j, (j < CALIBRATION_SAMPLES)%nat ->
             adc_value_ok (adc_src E (adc_n (core s) + j)%nat)) ->
  exists t s',
    setup B E fuel s = (t, Returned tt s')
    /\ deviceId s' = device_id (efuse_mac B)
    /\ mqttTopic s' = mqtt_topic (efuse_mac B)
    /\ adc_dc_offset (core s')
       = sum_list (samples E (adc_n (core s)) CALIBRATION_SAMPLES) / 1024
    /\ isRecording (core s') = isRecording (core s)
    /\ conversions t = samples E (adc_n (core s)) CALIBRATION_SAMPLES
    /\ remove_requests t
       = map (String.append "/") (List.filter is_recording (listing B))
    /\ deleted t
       = answered (remove_ok B) (rm_n s)
           (map (String.append "/") (List.filter is_recording (listing B)))
    /\ waited t = 2000 + 500 * Z.of_nat a + 500 * Z.of_nat b + 1024
    /\ last t = Some (Core (EvSerial "Ready. Listening for sound > %d amplitude"
                                      [AMPLITUDE_THRESHOLD])).
Proof.
  intros Hmount Ha Hup Hdown Hb Hset Hunset Hadc.
  destruct (setup_run B E fuel a b s Hmount Ha Hup Hdown Hb Hset Hunset)
    as (t & s' & Hrun & Hcore & Hid & Htopic & Hcv & Hw & Hrm & Hdel & Hlast).
  destruct (truncated_mean_exact (samples E (adc_n (core s)) CALIBRATION_SAMPLES))
    as (Hmean & _).
  { apply samples_valid. exact Hadc. }
  { apply samples_length. }
  exists t, s'. split; [exact Hrun|]. split; [exact Hid|]. split; [exact Htopic|].
  split; [rewrite Hcore, <- Hmean; reflexivity|].
  split; [rewrite Hcore; reflexivity|].
  split; [exact Hcv|]. split; [exact Hrm|]. split; [exact Hdel|].
  split; [exact Hw | exact Hlast].
Qed.

Lemma setup_returns_named_and_calibrated_after_the_purge_witness :
  exists t s',
    setup lab_board bench_synced 3 reset = (t, Returned tt s')
    /\ deviceId s' = device_id (efuse_mac lab_board)
    /\ mqttTopic s' = mqtt_topic (efuse_mac lab_board)
    /\ adc_dc_offset (core s')
       = sum_list (samples bench_synced (adc_n (core reset)) CALIBRATION_SAMPLES) / 1024
    /\ isRecording (core s') = isRecording (core reset)
    /\ conversions t = samples bench_synced (adc_n (core reset)) CALIBRATION_SAMPLES
    /\ remove_requests t
       = map (String.append "/") (List.filter is_recording (listing lab_board))
    /\ deleted t
       = answered (remove_ok lab_board) (rm_n reset)
           (map (String.append "/") (List.filter is_recording (listing lab_board)))
    /\ waited t = 2000 + 500 * Z.of_nat 2 + 500 * Z.of_nat 1 + 1024
    /\ last t = Some (Core (EvSerial "Ready. Listening for sound > %d amplitude"
                                      [AMPLITUDE_THRESHOLD])).
Proof.
  apply (setup_returns_named_and_calibrated_after_the_purge
           lab_board bench_synced 3 2 1 reset).
  - reflexivity.
  - lia.
  - reflexivity.
  - intros j Hj. destruct j as [|[|j]]; [reflexivity | reflexivity | lia].
  - lia.
  - vm_compute. discriminate.
  - intros j Hj. destruct j as [|j]; [reflexivity | lia].
  - intros j _. apply bench_conversions_valid.
Defined.

(** On the lab board the second removal fails: both recordings are asked
    for, only the first is deleted. *)
Example second_recording_survives_on_the_lab_board :
  remove_requests (trace_of (clearOldRecordings lab_board reset))
  = ["/recording_20250702_113533.bin"%string;
     "/recording_20250702_120000.bin"%string]
  /\ deleted (trace_of (clearOldRecordings lab_board reset))
     = ["/recording_20250702_113533.bin"%string]
  /\ answered (remove_ok lab_board) (rm_n reset)
       (map (String.append "/") (List.filter is_recording (listing lab_board)))
     = ["/recording_20250702_113533.bin"%string].
Proof. split; [|split]; vm_compute; reflexivity. Qed.

(** The lab board without a file system: every wait of [setup] ends, and
    [setup] then stays in its last loop. *)
Example setup_halts_without_file_system :
  result_of (setup lab_board_no_fs bench_synced 5 reset) = Blocked
  /\ conversions (trace_of (setup lab_board_no_fs bench_synced 5 reset)) = []
  /\ waited (trace_of (setup lab_board_no_fs bench_synced 5 reset))
     = 2000 + 500 * 2 + 500 * 1 + 1000 * 5.
Proof.
  split; [vm_compute; reflexivity|]. split; vm_compute; reflexivity.
Qed.

(* ------------------------------------------------------------------ *)
(** ** The whole of loop: quiet input                                  *)
(* ------------------------------------------------------------------ *)

Lemma core_events_app (t1 t2 : list Trace) :
  core_events (t1 ++ t2) = core_events t1 ++ core_events t2.
Proof. unfold core_events. now rewrite flat_map_app. Qed.

Lemma core_events_map (evs : list Event) : core_events (map Core evs) = evs.
Proof.
  induction evs as [|e evs IH]; [reflexivity|].
  cbn [map]. change (core_events (Core e :: map Core evs))
    with (e :: core_events (map Core evs)). now rewrite IH.
Qed.

Lemma samples_app (E : Env) (a b : nat) :
  forall k, samples E k (a + b) = samples E k a ++ samples E (k + a) b.
Proof.
  induction a as [|a IH]; intros k.
  - cbn [Nat.add]. rewrite Nat.add_0_r. reflexivity.
  - cbn [Nat.add]. rewrite !samples_S, IH. cbn [app].
    now replace (S k + a)%nat with (k + S a)%nat by lia.
Qed.

Section Upkeep.

Variable B : Board.

(** Reconnecting takes no conversion, never touches the lock and leaves the
    state of the core as it was, for every behaviour of the broker. *)
Lemma connectMQTT_quiet (fuel : nat) :
  forall s,
    conversions (trace_of (connectMQTT B fuel s)) = []
    /\ capture_triggered (core_events (trace_of (connectMQTT B fuel s))) = false
    /\ (forall s', result_of (connectMQTT B fuel s) = Returned tt s' ->
          core s' = core s).
Proof.
  induction fuel as [|fuel IH]; intros s.
  - split; [reflexivity|]. split; [reflexivity|]. intros s' H. discriminate H.
  - destruct (link_up B (up_n s)) eqn:Hup.
    + cbn [connectMQTT]. sexec. rewrite Hup. unfold sret.
      cbn [trace_of result_of fst snd].
      split; [reflexivity|]. split; [reflexivity|].
      intros s' H. inversion H. reflexivity.
    + rewrite (connectMQTT_round B fuel s Hup).
      destruct (IH (next_try (next_up s))) as (Hcv & Hlock & Hcore).
      rewrite trace_of_after, result_of_after, conversions_app, core_events_app.
      unfold capture_triggered in *. rewrite existsb_app, Hcv, Hlock.
      assert (Hatt : conversions (mqtt_attempt B (try_n s) 0) = []
                     /\ existsb is_lock (core_events (mqtt_attempt B (try_n s) 0))
                        = false).
      { unfold mqtt_attempt. destruct (link_try B (try_n s + 0)); split; reflexivity. }
      destruct Hatt as (-> & ->).
      split; [reflexivity|]. split; [reflexivity|].
      intros s' H. rewrite (Hcore s' H). reflexivity.
Qed.

Lemma reconnect_quiet (fuel : nat) (s : Sys) :
  conversions (trace_of (reconnect B fuel s)) = []
  /\ capture_triggered (core_events (trace_of (reconnect B fuel s))) = false
  /\ (forall s', result_of (reconnect B fuel s) = Returned tt s' ->
        core s' = core s).
Proof.
  unfold reconnect. sexec. destruct (link_up B (up_n s)).
  - unfold sret. cbn [trace_of result_of fst snd].
    split; [reflexivity|]. split; [reflexivity|].
    intros s' H. inversion H. reflexivity.
  - destruct (connectMQTT_quiet fuel (next_up s)) as (Hcv & Hlock & Hcore).
    split; [exact Hcv|]. split; [exact Hlock|].
    intros s' H. rewrite (Hcore s' H). reflexivity.
Qed.

Lemma reconnect_up (fuel : nat) (s : Sys) :
  link_up B (up_n s) = true ->
  reconnect B fuel s = ([], Returned tt (next_up s)).
Proof. intros Hup. unfold reconnect. sexec. now rewrite Hup. Qed.

Lemma reconnect_dead (fuel : nat) (s : Sys) :
  (forall k, link_up B k = false) ->
  result_of (reconnect B fuel s) = Blocked.
Proof.
  intros Hdead. unfold reconnect. sexec. rewrite Hdead.
  rewrite (connectMQTT_down B fuel (next_up s)); [reflexivity|].
  intros j _. apply Hdead.
Qed.

Variable E : Env.

(** One pass through the whole of [loop] over a conversion within the
    threshold of the offset: it is held up by the broker, or it does what
    the reconnection does and then takes its one conversion. *)
Lemma full_loop_quiet (fuel : nat) (s : Sys) :
  isRecording (core s) = false ->
  adc_value_ok (adc_dc_offset (core s)) ->
  adc_value_ok (adc_src E (adc_n (core s))) ->
  Z.abs (adc_src E (adc_n (core s)) - adc_dc_offset (core s)) <= AMPLITUDE_THRESHOLD ->
  (exists t0,
     full_loop B E fuel s = (t0, Blocked)
     /\ conversions t0 = []
     /\ capture_triggered (core_events t0) = false)
  \/ (exists t0 s1,
        reconnect B fuel s = (t0, Returned tt s1)
        /\ full_loop B E fuel s
           = (t0 ++ map Core [EvNet; EvAdc (adc_src E (adc_n (core s))); EvDelay 1],
              Returned tt (with_core (next_adc (core s)) s1))
        /\ conversions t0 = []
        /\ capture_triggered (core_events t0) = false).
Proof.
  intros Hfree Hdc Hs Habs.
  assert (Hcmp : (c_abs (int_sub (adc_src E (adc_n (core s))) (adc_dc_offset (core s)))
                    >? AMPLITUDE_THRESHOLD) = false).
  { rewrite (amplitude_exact _ _ Hs Hdc), Z.gtb_ltb. apply Z.ltb_ge. lia. }
  destruct (reconnect_quiet fuel s) as (Hcv & Hlock & Hcore).
  unfold full_loop.
  destruct (reconnect B fuel s) as [t0 [[] s1|]] eqn:Hre;
    cbn [trace_of result_of fst snd] in Hcv, Hlock, Hcore.
  - right. exists t0, s1. split; [reflexivity|].
    rewrite (sbind_returned _ _ _ _ _ _ Hre).
    specialize (Hcore s1 eq_refl).
    unfold lift. rewrite Hcore, (loop_quiet E fuel (core s) Hfree Hcmp).
    unfold after. cbn [fst snd].
    split; [reflexivity|]. split; assumption.
  - left. exists t0. rewrite (sbind_blocked _ _ _ _ Hre).
    split; [reflexivity|]. split; assumption.
Qed.

(** Passes through the whole of [loop] over conversions within the
    threshold of the offset, for every behaviour of the broker. *)
Lemma full_run_quiet (fuel n : nat) :
  forall s,
    isRecording (core s) = false ->
    adc_value_ok (adc_dc_offset (core s)) ->
    (forall j, (j < n)%nat ->
               adc_value_ok (adc_src E (adc_n (core s) + j)%nat)
               /\ Z.abs (adc_src E (adc_n (core s) + j)%nat - adc_dc_offset (core s))
                  <= AMPLITUDE_THRESHOLD) ->
    capture_triggered (core_events (trace_of (full_run B E fuel n s))) = false
    /\ (exists k, (k <= n)%nat
                  /\ conversions (trace_of (full_run B E fuel n s))
                     = samples E (adc_n (core s)) k)
    /\ (forall s', result_of (full_run B E fuel n s) = Returned tt s' ->
          conversions (trace_of (full_run B E fuel n s))
          = samples E (adc_n (core s)) n
          /\ core s' = with_adc (adc_n (core s) + n)%nat (core s)).
Proof.
  induction n as [|n IH]; intros s Hfree Hdc Hquiet.
  - cbn [full_run]. unfold sret. cbn [trace_of result_of fst snd].
    split; [reflexivity|]. split; [exists 0%nat; split; [lia | reflexivity]|].
    intros s' H. inversion H; subst. split; [reflexivity|].
    rewrite Nat.add_0_r. now destruct (core s').
  - destruct (Hquiet 0%nat ltac:(lia)) as (Hs & Habs).
    rewrite Nat.add_0_r in Hs, Habs.
    cbn [full_run].
    destruct (full_loop_quiet fuel s Hfree Hdc Hs Habs)
      as [(t0 & Hrun & Hcv & Hlock) | (t0 & s1 & _ & Hrun & Hcv & Hlock)].
    + rewrite (sbind_blocked _ _ _ _ Hrun). cbn [trace_of result_of fst snd].
      split; [exact Hlock|]. split.
      * exists 0%nat. split; [lia | exact Hcv].
      * intros s' H. discriminate H.
    + rewrite (sbind_returned _ _ _ _ _ _ Hrun).
      rewrite trace_of_after, result_of_after.
      destruct (IH (with_core (next_adc (core s)) s1)) as (Hl & (k & Hk & Hconv) & Hret).
      * exact Hfree.
      * exact Hdc.
      * intros j Hj. cbn [core with_core next_adc adc_n adc_dc_offset].
        replace (S (adc_n (core s)) + j)%nat with (adc_n (core s) + S j)%nat by lia.
        apply Hquiet. lia.
      * cbn [core with_core next_adc adc_n] in Hconv, Hret.
        rewrite !conversions_app, !core_events_app, Hcv.
        unfold capture_triggered in *.
        rewrite !existsb_app, Hlock, Hl, core_events_map.
        split; [reflexivity|]. split.
        -- exists (S k). split; [lia|]. rewrite Hconv, samples_S. reflexivity.
        -- intros s' H. destruct (Hret s' H) as (Hc & Hcore).
           split; [rewrite Hc, samples_S; reflexivity|].
           rewrite Hcore. unfold with_adc, next_adc.
           cbn [adc_dc_offset isRecording adc_n clk_n wall_n heap_n fs_n mqtt_n].
           f_equal. lia.
Qed.

(** With the link up at every poll the passes return, and nothing happens
    but the upkeep, one conversion and [delay(1)] per pass. *)
Lemma full_run_up (fuel n : nat) :
  (forall k, link_up B k = true) ->
  forall s,
    isRecording (core s) = false ->
    adc_value_ok (adc_dc_offset (core s)) ->
    (forall j, (j < n)%nat ->
               adc_value_ok (adc_src E (adc_n (core s) + j)%nat)
               /\ Z.abs (adc_src E (adc_n (core s) + j)%nat - adc_dc_offset (core s))
                  <= AMPLITUDE_THRESHOLD) ->
    exists s',
      full_run B E fuel n s
      = (map Core (flat_map (fun v => [EvNet; EvAdc v; EvDelay 1])
                     (samples E (adc_n (core s)) n)),
         Returned tt s')
      /\ up_n s' = (up_n s + n)%nat /\ try_n s' = try_n s.
Proof.
  intros Hup. induction n as [|n IH]; intros s Hfree Hdc Hquiet.
  - exists s. cbn [full_run]. split; [reflexivity|]. split; [lia | reflexivity].
  - destruct (Hquiet 0%nat ltac:(lia)) as (Hs & Habs).
    rewrite Nat.add_0_r in Hs, Habs.
    assert (Hcmp : (c_abs (int_sub (adc_src E (adc_n (core s))) (adc_dc_offset (core s)))
                      >? AMPLITUDE_THRESHOLD) = false).
    { rewrite (amplitude_exact _ _ Hs Hdc), Z.gtb_ltb. apply Z.ltb_ge. lia. }
    assert (Hpass : full_loop B E fuel s
                    = (map Core [EvNet; EvAdc (adc_src E (adc_n (core s))); EvDelay 1],
                       Returned tt (with_core (next_adc (core s)) (next_up s)))).
    { unfold full_loop.
      rewrite (sbind_returned _ _ _ _ _ _ (reconnect_up fuel s (Hup (up_n s)))).
      unfold lift. cbn [core next_up].
      rewrite (loop_quiet E fuel (core s) Hfree Hcmp). reflexivity. }
    destruct (IH (with_core (next_adc (core s)) (next_up s)))
      as (s' & Hrun & Hupn & Htry).
    + exact Hfree.
    + exact Hdc.
    + intros j Hj. cbn [core with_core next_adc adc_n adc_dc_offset].
      replace (S (adc_n (core s)) + j)%nat with (adc_n (core s) + S j)%nat by lia.
      apply Hquiet. lia.
    + exists s'. cbn [full_run].
      rewrite (sbind_returned _ _ _ _ _ _ Hpass), Hrun, after_pair.
      cbn [core with_core next_adc adc_n up_n try_n next_up] in *.
      rewrite samples_S. cbn [flat_map map app].
      split; [reflexivity|]. split; [lia | exact Htry].
Qed.

(** With a broker that never comes up the first pass never gets past the
    reconnection. *)
Lemma full_run_dead (fuel n : nat) (s : Sys) :
  (forall k, link_up B k = false) ->
  (0 < n)%nat ->
  result_of (full_run B E fuel n s) = Blocked
  /\ conversions (trace_of (full_run B E fuel n s)) = [].
Proof.
  intros Hdead Hn. destruct n as [|n]; [lia|]. cbn [full_run]. unfold full_loop.
  pose proof (reconnect_dead fuel s Hdead) as Hre.
  destruct (reconnect_quiet fuel s) as (Hcv & _).
  destruct (reconnect B fuel s) as [t0 [[] s1|]] eqn:Hr;
    cbn [result_of trace_of fst snd] in Hre, Hcv; [discriminate Hre|].
  rewrite !(sbind_blocked _ _ _ _ Hr) || rewrite sbind_assoc, (sbind_blocked _ _ _ _ Hr).
  split; [reflexivity | exact Hcv].
Qed.

End Upkeep.

(** X7. No false trigger, for the whole of [loop] and every behaviour of
    the broker. As long as every conversion stays within 500 of the
    offset, a run of passes through [loop] never takes the lock, whether
    the passes return or one of them is held up in [connectMQTT]; the
    conversions it takes are the first ones the ADC delivers, at most one
    per pass; and if it returns, it has taken exactly one per pass and the
    core is as before but for the count of conversions, so the pipeline
    is still armed. With the link up at every poll the passes do return,
    and each is the upkeep, one conversion and [delay(1)]; with a broker
    that never comes up no pass returns and no conversion is taken,
    whatever the polling bound. *)
Theorem quiet_input_never_triggers
        (B : Board) (E : Env) (fuel n : nat) (s : Sys) :
  isRecording (core s) = false ->
  adc_value_ok (adc_dc_offset (core s)) ->
  (forall j, (j < n)%nat ->
             adc_value_ok (adc_src E (adc_n (core s) + j)%nat)
             /\ Z.abs (adc_src E (adc_n (core s) + j)%nat - adc_dc_offset (core s))
                <= AMPLITUDE_THRESHOLD) ->
  capture_triggered (core_events (trace_of (full_run B E fuel n s))) = false
  /\ (exists k, (k <= n)%nat
                /\ conversions (trace_of (full_run B E fuel n s))
                   = samples E (adc_n (core s)) k)
  /\ (forall s', result_of (full_run B E fuel n s) = Returned tt s' ->
        conversions (trace_of (full_run B E fuel n s))
        = samples E (adc_n (core s)) n
        /\ core s' = with_adc (adc_n (core s) + n)%nat (core s)
        /\ isRecording (core s') = false)
  /\ ((forall k, link_up B k = true) ->
      exists s',
        full_run B E fuel n s
        = (map Core (flat_map (fun v => [EvNet; EvAdc v; EvDelay 1])
                       (samples E (adc_n (core s)) n)),
           Returned tt s'))
  /\ ((forall k, link_up B k = false) -> (0 < n)%nat ->
      result_of (full_run B E fuel n s) = Blocked
      /\ conversions (trace_of (full_run B E fuel n s)) = []).
Proof.
  intros Hfree Hdc Hquiet.
  destruct (full_run_quiet B E fuel n s Hfree Hdc Hquiet) as (Hlock & Hpre & Hret).
  split; [exact Hlock|]. split; [exact Hpre|]. split; [|split].
  - intros s' H. destruct (Hret s' H) as (Hc & Hcore).
    split; [exact Hc|]. split; [exact Hcore|]. rewrite Hcore. exact Hfree.
  - intros Hup.
    destruct (full_run_up B E fuel n Hup s Hfree Hdc Hquiet) as (s' & Hrun & _).
    exists s'. exact Hrun.
  - intros Hdead Hn. exact (full_run_dead B E fuel n s Hdead Hn).
Qed.

Lemma bench_is_quiet (k : nat) :
  adc_value_ok (adc_src bench k)
  /\ Z.abs (adc_src bench k - 2048) <= AMPLITUDE_THRESHOLD.
Proof.
  split; [apply bench_conversions_valid|].
  cbn [adc_src bench]. unfold AMPLITUDE_THRESHOLD.
  pose proof (Nat.mod_upper_bound k 4). lia.
Qed.

Lemma quiet_input_never_triggers_witness :
  isRecording (core armed_sys) = false
  /\ adc_value_ok (adc_dc_offset (core armed_sys))
  /\ (forall j, (j < 3)%nat ->
                adc_value_ok (adc_src bench (adc_n (core armed_sys) + j)%nat)
                /\ Z.abs (adc_src bench (adc_n (core armed_sys) + j)%nat
                          - adc_dc_offset (core armed_sys)) <= AMPLITUDE_THRESHOLD)
  /\ capture_triggered
       (core_events (trace_of (full_run lab_board bench 5 3 armed_sys))) = false.
Proof.
  assert (H0 : isRecording (core armed_sys) = false) by reflexivity.
  assert (H1 : adc_value_ok (adc_dc_offset (core armed_sys)))
    by (unfold adc_value_ok, ADC_MAX; cbn; lia).
  assert (H2 : forall j, (j < 3)%nat ->
                adc_value_ok (adc_src bench (adc_n (core armed_sys) + j)%nat)
                /\ Z.abs (adc_src bench (adc_n (core armed_sys) + j)%nat
                          - adc_dc_offset (core armed_sys)) <= AMPLITUDE_THRESHOLD).
  { intros j _. apply bench_is_quiet. }
  split; [exact H0|]. split; [exact H1|]. split; [exact H2|].
  destruct (quiet_input_never_triggers lab_board bench 5 3 armed_sys H0 H1 H2)
    as (Hq & _).
  exact Hq.
Defined.

(** On the lab board the link is down at the first two polls: the first
    pass tries to connect, reports the failure and waits five seconds,
    finds the link up at the next poll and only then takes its
    conversion. *)
Example first_pass_on_the_lab_board :
  full_run lab_board bench 5 1 armed_sys
  = ([Say "Connecting to MQTT..."; Call "mqttClient.connect";
      Say "Failed. Code="; SayInt (-2); Core (EvDelay 5000);
      Core EvNet; Core (EvAdc 2048); Core (EvDelay 1)],
     Returned tt (with_core (next_adc armed_2048) (with_link 3 1 armed_sys))).
Proof. vm_compute. reflexivity. Qed.

(** X8. A steady signal never triggers, for the whole of [loop] and every
    behaviour of the broker. If the 1024 conversions of the calibration
    and the n conversions polled after it all lie in one band no wider
    than the threshold, then in calibration followed by n passes through
    [loop] the lock is never taken, whether the passes return or one of
    them is held up in [connectMQTT]; the conversions taken are the 1024
    of the calibration and at most one per pass; if the run returns, the
    offset lies in the band, the pipeline is armed and 1024 + n
    conversions were taken. With the link up at every poll the run does
    return; with a broker that never comes up it does not get past the
    calibration. *)
Theorem steady_signal_never_triggers
        (B : Board) (E : Env) (fuel n : nat) (s : Sys) (lo hi : Z) :
  isRecording (core s) = false ->
  0 <= lo -> hi <= ADC_MAX -> hi - lo <= AMPLITUDE_THRESHOLD ->
  (forall j, (j < CALIBRATION_SAMPLES + n)%nat ->
             lo <= adc_src E (adc_n (core s) + j)%nat <= hi) ->
  let r := (lift (calibrateDCOffset E) ;~ full_run B E fuel n) s in
  capture_triggered (core_events (trace_of r)) = false
  /\ (exists k, (k <= n)%nat
                /\ conversions (trace_of r)
                   = samples E (adc_n (core s)) (CALIBRATION_SAMPLES + k))
  /\ (forall s', result_of r = Returned tt s' ->
        isRecording (core s') = false
        /\ lo <= adc_dc_offset (core s') <= hi
        /\ adc_n (core s') = (adc_n (core s) + CALIBRATION_SAMPLES + n)%nat
        /\ conversions (trace_of r)
           = samples E (adc_n (core s)) (CALIBRATION_SAMPLES + n))
  /\ ((forall k, link_up B k = true) -> exists s', result_of r = Returned tt s')
  /\ ((forall k, link_up B k = false) -> (0 < n)%nat ->
      result_of r = Blocked
      /\ conversions (trace_of r) = samples E (adc_n (core s)) CALIBRATION_SAMPLES).
Proof.
  intros Hfree Hlo Hhi Hband Hin r.
  destruct (calibrated_offset_between E (core s) lo hi Hlo Hhi)
    as (v & w1 & Hcal & Hw1 & Hv).
  { intros j Hj. apply Hin. lia. }
  set (s1 := with_core w1 s).
  assert (Hfree1 : isRecording (core s1) = false).
  { cbn [core s1 with_core]. rewrite Hw1. exact Hfree. }
  assert (Hdc1 : adc_value_ok (adc_dc_offset (core s1))).
  { cbn [core s1 with_core]. rewrite Hw1. cbn [with_offset adc_dc_offset].
    unfold adc_value_ok. lia. }
  assert (Hadc1 : adc_n (core s1) = (adc_n (core s) + CALIBRATION_SAMPLES)%nat).
  { cbn [core s1 with_core]. rewrite Hw1. reflexivity. }
  assert (Hoff1 : adc_dc_offset (core s1) = v).
  { cbn [core s1 with_core]. rewrite Hw1. reflexivity. }
  assert (Hquiet : forall j, (j < n)%nat ->
             adc_value_ok (adc_src E (adc_n (core s1) + j)%nat)
             /\ Z.abs (adc_src E (adc_n (core s1) + j)%nat - adc_dc_offset (core s1))
                <= AMPLITUDE_THRESHOLD).
  { intros j Hj. rewrite Hadc1, Hoff1.
    pose proof (Hin (CALIBRATION_SAMPLES + j)%nat ltac:(lia)) as Hj'.
    replace (adc_n (core s) + CALIBRATION_SAMPLES + j)%nat
      with (adc_n (core s) + (CALIBRATION_SAMPLES + j))%nat by lia.
    unfold adc_value_ok, AMPLITUDE_THRESHOLD in *. lia. }
  assert (Hr : r = after (map Core (calibration_events
                                      (samples E (adc_n (core s)) CALIBRATION_SAMPLES) v))
                     (full_run B E fuel n s1)).
  { unfold r, s1.
    exact (lift_sbind_done (calibrateDCOffset E) (fun _ => full_run B E fuel n) s
             _ tt w1 Hcal). }
  destruct (calibration_conversions (samples E (adc_n (core s)) CALIBRATION_SAMPLES) v)
    as (Hc1 & _ & _).
  assert (Hl1 : existsb is_lock (calibration_events
                                   (samples E (adc_n (core s)) CALIBRATION_SAMPLES) v)
                = false).
  { unfold calibration_events. cbn [existsb is_lock orb].
    rewrite existsb_app. cbn [existsb is_lock orb].
    now rewrite calibration_takes_no_lock. }
  destruct (full_run_quiet B E fuel n s1 Hfree1 Hdc1 Hquiet)
    as (Hlock & (k & Hk & Hpre) & Hret).
  rewrite Hr, trace_of_after, result_of_after.
  rewrite conversions_app, core_events_app, core_events_map, Hc1.
  unfold capture_triggered in *. rewrite existsb_app, Hl1, Hlock.
  split; [reflexivity|]. split; [|split; [|split]].
  - exists k. split; [exact Hk|]. rewrite Hpre, Hadc1. symmetry. apply samples_app.
  - intros s' H. destruct (Hret s' H) as (Hc & Hcore).
    rewrite Hcore, Hc, Hadc1.
    cbn [with_adc isRecording adc_dc_offset adc_n].
    split; [exact Hfree1|]. split; [rewrite Hoff1; exact Hv|].
    split; [reflexivity|]. symmetry. apply samples_app.
  - intros Hup.
    destruct (full_run_up B E fuel n Hup s1 Hfree1 Hdc1 Hquiet) as (s' & Hrun & _).
    exists s'. rewrite Hrun. reflexivity.
  - intros Hdead Hn.
    destruct (full_run_dead B E fuel n s1 Hdead Hn) as (Hb & Hcv).
    split; [exact Hb|]. rewrite Hcv. apply app_nil_r.
Qed.

Lemma steady_signal_never_triggers_witness :
  isRecording (core reset) = false
  /\ 0 <= 2048 /\ 2051 <= ADC_MAX /\ 2051 - 2048 <= AMPLITUDE_THRESHOLD
  /\ (forall j, (j < CALIBRATION_SAMPLES + 3)%nat ->
                2048 <= adc_src bench (adc_n (core reset) + j)%nat <= 2051)
  /\ capture_triggered
       (core_events
          (trace_of ((lift (calibrateDCOffset bench) ;~ full_run lab_board bench 5 3)
                       reset))) = false.
Proof.
  assert (H : forall j, (j < CALIBRATION_SAMPLES + 3)%nat ->
                        2048 <= adc_src bench (adc_n (core reset) + j)%nat <= 2051).
  { intros j _. cbn [adc_src bench].
    pose proof (Nat.mod_upper_bound (adc_n (core reset) + j) 4). lia. }
  assert (Hhi : 2051 <= ADC_MAX) by (unfold ADC_MAX; lia).
  assert (Hw : 2051 - 2048 <= AMPLITUDE_THRESHOLD)
    by (unfold AMPLITUDE_THRESHOLD; lia).
  split; [reflexivity|]. split; [lia|]. split; [exact Hhi|].
  split; [exact Hw|]. split; [exact H|].
  destruct (steady_signal_never_triggers lab_board bench 5 3 reset 2048 2051
              eq_refl ltac:(lia) Hhi Hw H) as (Hq & _).
  exact Hq.
Defined.
